(** * Smart Job Board: annotation extractors, filters and trending query

    A shallow embedding of the annotation engine of
    [jobsdb-hk-frontend.tsx] and [jobsdb-integration.js]: the field
    extractors, the minimum-salary filters of the two boards and the
    trending-skills query, together with the part of the JavaScript
    run time they rest on (strings of UTF-16 code units, [toLowerCase],
    [includes], [parseInt], regular expressions with capture groups);
    then the handlers of the filter panel, the helpers of the regional
    board, the parameters the scraper writes for a job, and on the
    server the text of the search statements, the key of the API and
    the flag and status of the scraping. *)

From Stdlib Require Import List NArith ZArith QArith Qabs Bool String Ascii Lia.
Import ListNotations.

Set Implicit Arguments.
Close Scope Q_scope.
Close Scope Z_scope.
Open Scope nat_scope.
Open Scope list_scope.

(* ===================================================================== *)
(** * The JavaScript run time                                             *)
(* ===================================================================== *)

Module JS.

(** ** Strings

    A JavaScript string is a sequence of UTF-16 code units. *)

Definition jsstring := list N.

Definition lit (s : string) : jsstring :=
  List.map N_of_ascii (list_ascii_of_string s).

Definition str_eqb (a b : jsstring) : bool :=
  if list_eq_dec N.eq_dec a b then true else false.

(** [WhiteSpace] and [LineTerminator] code units: the set of [\s], of
    [String.prototype.trim] and of the blanks [parseInt] skips. *)
Definition isWhiteSpace (c : N) : bool :=
  ((9 <=? c) && (c <=? 13) || (c =? 32) || (c =? 0xA0) || (c =? 0x1680)
   || ((0x2000 <=? c) && (c <=? 0x200A)) || (c =? 0x2028) || (c =? 0x2029)
   || (c =? 0x202F) || (c =? 0x205F) || (c =? 0x3000) || (c =? 0xFEFF))%N.

Definition isDigit (c : N) : bool := ((48 <=? c) && (c <=? 57))%N.
Definition isUpperAscii (c : N) : bool := ((65 <=? c) && (c <=? 90))%N.
Definition isLowerAscii (c : N) : bool := ((97 <=? c) && (c <=? 122))%N.

(** [toLowerCase], one code unit at a time.  ASCII capitals map to their
    small letters.  Two code units outside ASCII have a lower case that
    contains an ASCII letter, U+0130 (i followed by U+0307) and the
    Kelvin sign U+212A (k); the Latin-1 capitals are mapped as well.
    Every other code unit is kept: its lower case never contains an
    ASCII code unit, so containment of an ASCII keyword is unaffected. *)
Definition lowerUnit (c : N) : jsstring :=
  if isUpperAscii c then [c + 32]%N
  else if (c =? 0x130)%N then [0x69; 0x307]%N
  else if (c =? 0x212A)%N then [0x6B]%N
  else if ((0xC0 <=? c) && (c <=? 0xDE) && negb (c =? 0xD7))%N then [c + 32]%N
  else [c].

Definition toLowerCase (s : jsstring) : jsstring := flat_map lowerUnit s.

Fixpoint startsWith (s w : jsstring) {struct w} : bool :=
  match w, s with
  | [], _ => true
  | _ :: _, [] => false
  | y :: w', x :: s' => (x =? y)%N && startsWith s' w'
  end.

(** [s.includes(w)] *)
Fixpoint includes (s w : jsstring) : bool :=
  startsWith s w ||
  match s with
  | [] => false
  | _ :: s' => includes s' w
  end.

(** [s.slice(0, n)] for a non-negative [n] *)
Definition slice0 (n : nat) (s : jsstring) : jsstring := firstn n s.

Fixpoint trimStart (s : jsstring) : jsstring :=
  match s with
  | c :: s' => if isWhiteSpace c then trimStart s' else s
  | [] => []
  end.

Definition trim (s : jsstring) : jsstring :=
  rev (trimStart (rev (trimStart s))).

(** [a.join(sep)] on an array of strings *)
Fixpoint join (sep : jsstring) (a : list jsstring) : jsstring :=
  match a with
  | [] => []
  | [x] => x
  | x :: rest => x ++ sep ++ join sep rest
  end.

(** [[...new Set(a)]]: first occurrences, in insertion order *)
Fixpoint dedup_acc (seen : list jsstring) (a : list jsstring) : list jsstring :=
  match a with
  | [] => []
  | x :: rest =>
      if existsb (str_eqb x) seen then dedup_acc seen rest
      else x :: dedup_acc (x :: seen) rest
  end.

Definition setToArray (a : list jsstring) : list jsstring := dedup_acc [] a.

(** ** Numbers

    The numbers of this program are integers or [NaN]; an integer is
    kept as its mathematical value (a Number is exact below 2^53). *)

Inductive number := NaN | Int (z : Z).

Definition mul (a b : number) : number :=
  match a, b with
  | Int x, Int y => Int (x * y)
  | _, _ => NaN
  end.

(** [a >= b]: false as soon as one side is [NaN] *)
Definition geq (a b : number) : bool :=
  match a, b with
  | Int x, Int y => (y <=? x)%Z
  | _, _ => false
  end.

Definition digitValue (c : N) : option Z :=
  if isDigit c then Some (Z.of_N c - 48)%Z
  else if ((97 <=? c) && (c <=? 102))%N then Some (Z.of_N c - 87)%Z
  else if ((65 <=? c) && (c <=? 70))%N then Some (Z.of_N c - 55)%Z
  else None.

(** The longest prefix of [s] made of digits of radix [R], folded into
    [acc]; [seen] tells whether a digit has been read. *)
Fixpoint parseDigits (R : Z) (s : jsstring) (acc : Z) (seen : bool) : option Z :=
  match s with
  | c :: s' =>
      match digitValue c with
      | Some d => if (d <? R)%Z then parseDigits R s' (acc * R + d)%Z true
                  else if seen then Some acc else None
      | None => if seen then Some acc else None
      end
  | [] => if seen then Some acc else None
  end.

(** A leading sign, and a leading [0x] or [0X] *)
Definition stripSign (s : jsstring) : Z * jsstring :=
  match s with
  | c :: r => if (c =? 45)%N then ((-1)%Z, r)
              else if (c =? 43)%N then (1%Z, r)
              else (1%Z, s)
  | [] => (1%Z, s)
  end.

Definition stripPrefix (s : jsstring) : Z * jsstring :=
  match s with
  | c1 :: c2 :: r =>
      if ((c1 =? 48) && ((c2 =? 120) || (c2 =? 88)))%N then (16%Z, r)
      else (10%Z, s)
  | _ => (10%Z, s)
  end.

(** [parseInt(s)] with no radix argument: blanks, a sign, an optional
    [0x] or [0X], then the digits. *)
Definition parseInt (s : jsstring) : number :=
  let sign_s2 := stripSign (trimStart s) in
  let R_s3 := stripPrefix (snd sign_s2) in
  match parseDigits (fst R_s3) (snd R_s3) 0 false with
  | Some v => Int (fst sign_s2 * v)
  | None => NaN
  end.

(** [parseInt(undefined)]: the argument is first turned into the string
    ["undefined"] *)
Definition parseIntOpt (s : option jsstring) : number :=
  match s with
  | Some s => parseInt s
  | None => parseInt (lit "undefined")
  end.

Fixpoint digitsOfPos (fuel : nat) (n : Z) (acc : jsstring) : jsstring :=
  match fuel with
  | O => acc
  | S f =>
      let acc' := (Z.to_N (n mod 10) + 48)%N :: acc in
      if (n <? 10)%Z then acc' else digitsOfPos f (n / 10) acc'
  end.

(** [x.toString()] for the numbers above (decimal notation; the
    exponent form of magnitudes from 1e21 on is not reached here) *)
Definition numberToString (x : number) : jsstring :=
  match x with
  | NaN => lit "NaN"
  | Int z =>
      if (z <? 0)%Z then 45%N :: digitsOfPos (Z.to_nat (Z.log2 (- z)) + 1) (- z) []
      else digitsOfPos (Z.to_nat (Z.log2 z) + 1) z []
  end.

(** ** Completions: a value, or a thrown [TypeError] *)

Inductive completion (A : Type) :=
| Normal (a : A)
| Throw.
Arguments Throw {A}.

End JS.


(* ===================================================================== *)
(** * Regular expressions                                                 *)
(* ===================================================================== *)

Module RegExp.
Import JS.

(** ** Patterns

    The constructs the patterns of this program use: characters,
    classes, sequence, alternation, capturing and non-capturing groups
    and greedy quantifiers. *)

Inductive citem :=
| CChar (c : N)
| CRange (lo hi : N)
| CDigit                      (* \d *)
| CSpace                      (* \s *)
| CWord.                      (* \w *)

Inductive regex :=
| Empty
| Char (c : N)
| AnyChar                                          (* . *)
| Class (negated : bool) (items : list citem)      (* [...] \d \s \w *)
| Seq (r1 r2 : regex)
| Alt (r1 r2 : regex)
| Group (n : nat) (r : regex)                      (* ( ... ), numbered from 1 *)
| Repeat (min : nat) (max : option nat) (r : regex). (* * + ? {n} {n,} {n,m} *)

Record t := mk {
  source : string;
  pattern : regex;
  ngroups : nat;
  ignoreCase : bool;
  global : bool
}.

(** ** Reading a pattern

    [parse] reads the source text of a regular expression literal, so
    that the patterns below are written as they are in the program.  A
    code unit outside ASCII is written with its [\uXXXX] escape.
    Anchors, look-around, back references and lazy quantifiers do not
    occur in the patterns read here and are refused. *)

Definition A (c : ascii) : N := N_of_ascii c.

Definition hexValue (c : ascii) : option N :=
  match digitValue (A c) with
  | Some d => Some (Z.to_N d)
  | None => None
  end.

Definition isAsciiLetter (c : ascii) : bool :=
  isUpperAscii (A c) || isLowerAscii (A c).

(** What follows a backslash: a class escape, a [\uXXXX] escape, a
    control escape, or an escaped punctuation character. *)
Definition parseEscape (inp : list ascii) : option (citem * list ascii) :=
  match inp with
  | "d"%char :: rest => Some (CDigit, rest)
  | "s"%char :: rest => Some (CSpace, rest)
  | "w"%char :: rest => Some (CWord, rest)
  | "n"%char :: rest => Some (CChar 10, rest)
  | "r"%char :: rest => Some (CChar 13, rest)
  | "t"%char :: rest => Some (CChar 9, rest)
  | "u"%char :: a :: b :: c :: d :: rest =>
      match hexValue a, hexValue b, hexValue c, hexValue d with
      | Some x, Some y, Some z, Some w =>
          Some (CChar (((x * 16 + y) * 16 + z) * 16 + w), rest)
      | _, _, _, _ => None
      end
  | c :: rest =>
      if isAsciiLetter c || isDigit (A c) || (128 <=? A c)%N then None
      else Some (CChar (A c), rest)
  | [] => None
  end.

(** One class atom: an escape or a plain character. *)
Definition parseClassAtom (inp : list ascii) : option (citem * list ascii) :=
  match inp with
  | [] => None
  | "\"%char :: rest => parseEscape rest
  | c :: rest => Some (CChar (A c), rest)
  end.

(** The items of a class, up to the closing bracket; [lo-hi] between
    two characters is a range. *)
Fixpoint parseClassItems (fuel : nat) (inp : list ascii) (acc : list citem)
  : option (list citem * list ascii) :=
  match fuel with
  | O => None
  | S f =>
      match inp with
      | [] => None
      | "]"%char :: rest => Some (rev acc, rest)
      | _ =>
          match parseClassAtom inp with
          | Some (CChar lo, "-"%char :: rest) =>
              match rest with
              | "]"%char :: _ => parseClassItems f ("-"%char :: rest) (CChar lo :: acc)
              | _ =>
                  match parseClassAtom rest with
                  | Some (CChar hi, rest') =>
                      if (hi <? lo)%N then None
                      else parseClassItems f rest' (CRange lo hi :: acc)
                  | _ => None
                  end
              end
          | Some (it, rest) => parseClassItems f rest (it :: acc)
          | None => None
          end
      end
  end.

Fixpoint parseNat (inp : list ascii) (acc : nat) : nat * list ascii :=
  match inp with
  | c :: rest =>
      if isDigit (A c) then parseNat rest (acc * 10 + (N.to_nat (A c) - 48))
      else (acc, inp)
  | [] => (acc, [])
  end.

(** A quantifier after an atom, if there is one. *)
Definition parseQuantifier (r : regex) (inp : list ascii)
  : option (regex * list ascii) :=
  let notLazy (q : regex) (rest : list ascii) :=
    match rest with
    | "?"%char :: _ => None
    | _ => Some (q, rest)
    end in
  match inp with
  | "*"%char :: rest => notLazy (Repeat 0 None r) rest
  | "+"%char :: rest => notLazy (Repeat 1 None r) rest
  | "?"%char :: rest => notLazy (Repeat 0 (Some 1) r) rest
  | "{"%char :: c :: rest =>
      if isDigit (A c) then
        let '(lo, rest1) := parseNat (c :: rest) 0 in
        match rest1 with
        | "}"%char :: rest2 => notLazy (Repeat lo (Some lo) r) rest2
        | ","%char :: "}"%char :: rest2 => notLazy (Repeat lo None r) rest2
        | ","%char :: d :: rest2 =>
            if isDigit (A d) then
              let '(hi, rest3) := parseNat (d :: rest2) 0 in
              match rest3 with
              | "}"%char :: rest4 =>
                  if hi <? lo then None else notLazy (Repeat lo (Some hi) r) rest4
              | _ => None
              end
            else None
        | _ => None
        end
      else None
  | _ => Some (r, inp)
  end.

(** Disjunction, alternative and term, by recursive descent; [g] counts
    the capturing groups opened so far. *)
Fixpoint parseDisjunction (fuel : nat) (inp : list ascii) (g : nat)
  : option (regex * list ascii * nat) :=
  match fuel with
  | O => None
  | S f =>
      match parseAlternative f inp g with
      | Some (r1, "|"%char :: rest, g1) =>
          match parseDisjunction f rest g1 with
          | Some (r2, rest', g2) => Some (Alt r1 r2, rest', g2)
          | None => None
          end
      | other => other
      end
  end
with parseAlternative (fuel : nat) (inp : list ascii) (g : nat)
  : option (regex * list ascii * nat) :=
  match fuel with
  | O => None
  | S f =>
      match inp with
      | [] => Some (Empty, inp, g)
      | "|"%char :: _ => Some (Empty, inp, g)
      | ")"%char :: _ => Some (Empty, inp, g)
      | _ =>
          match parseAtom f inp g with
          | Some (a, rest, g1) =>
              match parseQuantifier a rest with
              | Some (t, rest1) =>
                  match parseAlternative f rest1 g1 with
                  | Some (Empty, rest2, g2) => Some (t, rest2, g2)
                  | Some (r, rest2, g2) => Some (Seq t r, rest2, g2)
                  | None => None
                  end
              | None => None
              end
          | None => None
          end
      end
  end
with parseAtom (fuel : nat) (inp : list ascii) (g : nat)
  : option (regex * list ascii * nat) :=
  match fuel with
  | O => None
  | S f =>
      match inp with
      | "("%char :: "?"%char :: ":"%char :: rest =>
          match parseDisjunction f rest g with
          | Some (r, ")"%char :: rest', g1) => Some (r, rest', g1)
          | _ => None
          end
      | "("%char :: "?"%char :: _ => None
      | "("%char :: rest =>
          match parseDisjunction f rest (S g) with
          | Some (r, ")"%char :: rest', g1) => Some (Group (S g) r, rest', g1)
          | _ => None
          end
      | "["%char :: "^"%char :: rest =>
          match parseClassItems (List.length rest) rest [] with
          | Some (items, rest') => Some (Class true items, rest', g)
          | None => None
          end
      | "["%char :: rest =>
          match parseClassItems (List.length rest) rest [] with
          | Some (items, rest') => Some (Class false items, rest', g)
          | None => None
          end
      | "\"%char :: rest =>
          match parseEscape rest with
          | Some (CChar c, rest') => Some (Char c, rest', g)
          | Some (it, rest') => Some (Class false [it], rest', g)
          | None => None
          end
      | "."%char :: rest => Some (AnyChar, rest, g)
      | c :: rest =>
          if existsb (Ascii.eqb c) ["*"; "+"; "?"; "{"; "}"; "]"; "^"; "$"]%char
             || (128 <=? A c)%N
          then None
          else Some (Char (A c), rest, g)
      | [] => None
      end
  end.

Definition parse (src : string) : option (regex * nat) :=
  let inp := list_ascii_of_string src in
  match parseDisjunction (3 * List.length inp + 3) inp 0 with
  | Some (r, [], g) => Some (r, g)
  | _ => None
  end.

Definition hasFlag (f : ascii) (flags : string) : bool :=
  existsb (Ascii.eqb f) (list_ascii_of_string flags).

(** [new RegExp(src, flags)], and the literal [/src/flags].  A pattern
    [parse] refuses becomes the pattern that matches nothing. *)
Definition make (src flags : string) : t :=
  match parse src with
  | Some (r, g) => mk src r g (hasFlag "i" flags) (hasFlag "g" flags)
  | None => mk src (Class false []) 0 (hasFlag "i" flags) (hasFlag "g" flags)
  end.

(** ** Matching

    The matcher follows the backtracking semantics of the language
    definition.  A state is an end index in the input, the input from
    that index on, and the captures; [run r x] lists, in the order
    backtracking tries them, the states in which [r] can stop when
    started in [x]. *)

Definition captures := list (option jsstring).

Record State := mkState {
  endIndex : nat;
  rest : jsstring;
  caps : captures
}.

Fixpoint setCapture (n : nat) (v : option jsstring) (c : captures) : captures :=
  match n, c with
  | O, _ :: c' => v :: c'
  | O, [] => [v]
  | S n', x :: c' => x :: setCapture n' v c'
  | S n', [] => None :: setCapture n' v []
  end.

Definition getCapture (n : nat) (c : captures) : option jsstring := nth n c None.

Definition clearCaptures (gs : list nat) (c : captures) : captures :=
  fold_right (fun n acc => setCapture n None acc) c gs.

Fixpoint groupsOf (r : regex) : list nat :=
  match r with
  | Seq r1 r2 | Alt r1 r2 => groupsOf r1 ++ groupsOf r2
  | Group n r1 => n :: groupsOf r1
  | Repeat _ _ r1 => groupsOf r1
  | _ => []
  end.

(** [Canonicalize] of a pattern without the [u] flag: under [i] a
    character is compared through its upper case, and a character
    outside ASCII is never identified with an ASCII one.  The upper
    case is taken for ASCII letters only, which is exact whenever one
    side of the comparison is ASCII or has no case; every pattern of
    this program is made of such characters. *)
Definition canonicalize (ic : bool) (c : N) : N :=
  if ic && isLowerAscii c then (c - 32)%N else c.

Definition charMatches (ic : bool) (a x : N) : bool :=
  (canonicalize ic a =? canonicalize ic x)%N.

Definition inRange (lo hi x : N) : bool := ((lo <=? x) && (x <=? hi))%N.

Definition isWordChar (c : N) : bool :=
  isDigit c || isUpperAscii c || isLowerAscii c || (c =? 95)%N.

Definition isLineTerminator (c : N) : bool :=
  ((c =? 10) || (c =? 13) || (c =? 0x2028) || (c =? 0x2029))%N.

Definition itemMatches (ic : bool) (it : citem) (x : N) : bool :=
  match it with
  | CChar a => charMatches ic a x
  | CRange lo hi =>
      inRange lo hi x
      || (ic && ((isLowerAscii x && inRange lo hi (x - 32))
                 || (isUpperAscii x && inRange lo hi (x + 32))))
  | CDigit => isDigit x
  | CSpace => isWhiteSpace x
  | CWord => isWordChar x
  end.

(** Reading one character that satisfies [ok]. *)
Definition readChar (ok : N -> bool) (x : State) : list State :=
  match rest x with
  | c :: s' => if ok c then [mkState (S (endIndex x)) s' (caps x)] else []
  | [] => []
  end.

(** The input between the states [x] and [y]. *)
Definition between (x y : State) : jsstring :=
  firstn (endIndex y - endIndex x) (rest x).

(** [RepeatMatcher]: greedy, at most [max] times; once [min] is 0 an
    iteration that ends where it began is abandoned; the captures of
    the groups inside are cleared before each iteration.  [fuel] bounds
    the number of iterations: [min] plus the length of the input left
    suffice. *)
Definition repeatMatcher (step : State -> list State) (inner : list nat)
  : nat -> nat -> option nat -> State -> list State :=
  fix go (fuel min : nat) (max : option nat) (x : State) :=
    match fuel with
    | O => []
    | S f =>
        match max with
        | Some O => [x]
        | _ =>
            let again :=
              flat_map
                (fun y : State =>
                   if (min =? 0) && (endIndex y =? endIndex x) then []
                   else go f (pred min) (option_map pred max) y)
                (step (mkState (endIndex x) (rest x)
                               (clearCaptures inner (caps x)))) in
            if min =? 0 then again ++ [x] else again
        end
    end.

Fixpoint run (ic : bool) (r : regex) (x : State) {struct r} : list State :=
  match r with
  | Empty => [x]
  | Char a => readChar (charMatches ic a) x
  | AnyChar => readChar (fun c => negb (isLineTerminator c)) x
  | Class neg items =>
      readChar (fun c => xorb neg (existsb (fun it => itemMatches ic it c) items)) x
  | Seq r1 r2 => flat_map (run ic r2) (run ic r1 x)
  | Alt r1 r2 => run ic r1 x ++ run ic r2 x
  | Group n r1 =>
      List.map (fun y : State =>
                  mkState (endIndex y) (rest y)
                          (setCapture n (Some (between x y)) (caps y)))
               (run ic r1 x)
  | Repeat min max r1 =>
      repeatMatcher (run ic r1) (groupsOf r1) (S (min + List.length (rest x)))
                    min max x
  end.

(** The first way [re] matches at the very start of [s]; the end index
    of the state is the length of the match. *)
Definition matchAt (re : t) (s : jsstring) : option State :=
  match run (ignoreCase re) (pattern re)
            (mkState 0 s (repeat None (S (ngroups re)))) with
  | y :: _ => Some y
  | [] => None
  end.

(** The result of [exec]: where the match starts and the match array,
    whose entry 0 is the matched text and entry [n] the text of group
    [n], [None] standing for [undefined]. *)
Record MatchResult := mkMatch {
  index : nat;
  array : captures
}.

Fixpoint execFrom (re : t) (s : jsstring) (i : nat) : option MatchResult :=
  match matchAt re s with
  | Some y =>
      Some (mkMatch i (setCapture 0 (Some (firstn (endIndex y) s)) (caps y)))
  | None =>
      match s with
      | [] => None
      | _ :: s' => execFrom re s' (S i)
      end
  end.

(** [re.exec(s)] and [s.match(re)] for a pattern without the [g] flag:
    the leftmost match. *)
Definition exec (re : t) (s : jsstring) : option MatchResult := execFrom re s 0.

(** [re.test(s)] *)
Definition test (re : t) (s : jsstring) : bool :=
  match exec re s with
  | Some _ => true
  | None => false
  end.

(** [m[n]] on a match array *)
Definition at_ (m : MatchResult) (n : nat) : option jsstring :=
  getCapture n (array m).

(** [s.replace(re, rep)] for a pattern with the [g] flag and a
    replacement text without [$]: every match, from left to right, is
    replaced; after an empty match the search moves on by one. *)
Fixpoint replaceGo (re : t) (rep : jsstring) (fuel : nat) (s : jsstring)
  : jsstring :=
  match fuel with
  | O => s
  | S f =>
      match matchAt re s with
      | Some y =>
          if endIndex y =? 0 then
            match s with
            | [] => rep
            | x :: s' => rep ++ x :: replaceGo re rep f s'
            end
          else rep ++ replaceGo re rep f (rest y)
      | None =>
          match s with
          | [] => []
          | x :: s' => x :: replaceGo re rep f s'
          end
      end
  end.

Definition replaceAll (re : t) (rep : jsstring) (s : jsstring) : jsstring :=
  replaceGo re rep (S (List.length s)) s.

(** [s.split(re)] for a separator without groups: [piece] is the text
    since the last separator, in reverse; a separator that ends where
    the piece began is passed over. *)
Fixpoint splitGo (re : t) (fuel : nat) (piece : jsstring) (s : jsstring)
  : list jsstring :=
  match fuel with
  | O => []
  | S f =>
      match s with
      | [] => [rev piece]
      | x :: s' =>
          match matchAt re s with
          | None => splitGo re f (x :: piece) s'
          | Some y =>
              if (endIndex y =? 0) && (List.length piece =? 0)
              then splitGo re f (x :: piece) s'
              else rev piece :: splitGo re f [] (rest y)
          end
      end
  end.

Definition split (re : t) (s : jsstring) : list jsstring :=
  match s with
  | [] => match matchAt re [] with Some _ => [] | None => [[]] end
  | _ => splitGo re (2 * List.length s + 2) [] s
  end.

(** Whether [re] is what [parse] reads in its source text. *)
Definition wellFormed (re : t) : bool :=
  match parse (source re) with
  | Some (r, g) => if Nat.eq_dec g (ngroups re) then true else false
  | None => false
  end.

End RegExp.

(** ** Static readings of a pattern, used to reason about its matches *)

Module RegExpAnalysis.
Import JS RegExp.

(** [y] is reached from [x] by reading the text [w]. *)
Definition reads (x y : State) (w : jsstring) : Prop :=
  rest x = w ++ rest y /\ endIndex y = endIndex x + List.length w.

(** The state [matchAt] starts in. *)
Definition start (re : t) (s : jsstring) : State :=
  mkState 0 s (repeat None (S (ngroups re))).

(** The test by which the repeat matcher abandons an iteration. *)
Definition abandoned (min : nat) (x y : State) : bool :=
  (min =? 0) && (endIndex y =? endIndex x).

Section Analysis.
Variable ic : bool.

(** The single characters a pattern reads all satisfy [P]. *)
Fixpoint allChars (P : N -> Prop) (r : regex) : Prop :=
  match r with
  | Empty => True
  | Char a => forall x, charMatches ic a x = true -> P x
  | AnyChar => forall x, isLineTerminator x = false -> P x
  | Class neg items =>
      forall x, xorb neg (existsb (fun it => itemMatches ic it x) items) = true -> P x
  | Seq r1 r2 | Alt r1 r2 => allChars P r1 /\ allChars P r2
  | Group _ r1 | Repeat _ _ r1 => allChars P r1
  end.

(** The pattern reads at least one character, and the first one it
    reads satisfies [P]. *)
Fixpoint firstChar (P : N -> Prop) (r : regex) : Prop :=
  match r with
  | Empty => False
  | Char a => forall x, charMatches ic a x = true -> P x
  | AnyChar => forall x, isLineTerminator x = false -> P x
  | Class neg items =>
      forall x, xorb neg (existsb (fun it => itemMatches ic it x) items) = true -> P x
  | Seq r1 _ => firstChar P r1
  | Alt r1 r2 => firstChar P r1 /\ firstChar P r2
  | Group _ r1 => firstChar P r1
  | Repeat min max r1 => 1 <= min /\ max <> Some 0 /\ firstChar P r1
  end.

(** [definite n r] is the body of group [n] when every match of [r]
    goes through that group and nothing after it touches its capture. *)
Fixpoint definite (n : nat) (r : regex) : option regex :=
  match r with
  | Group m r1 => if m =? n then Some r1 else definite n r1
  | Seq r1 r2 =>
      match definite n r2 with
      | Some b => Some b
      | None => if existsb (Nat.eqb n) (groupsOf r2) then None else definite n r1
      end
  | _ => None
  end.

End Analysis.

(** The characters of an amount: a digit, a comma, or [k] in either
    case; and the characters [/[k,]/gi] and [/,/g] remove. *)
Definition amountChar (x : N) : bool :=
  isDigit x || (x =? 44)%N || (x =? 107)%N || (x =? 75)%N.

Definition isKOrComma (x : N) : bool :=
  existsb (fun it => itemMatches true it x) [CChar 107; CChar 44].

Definition isComma (x : N) : bool := charMatches false 44 x.

(** Both groups of a salary pattern are always set, to a text made of
    amount characters that starts with a digit. *)
Definition amountGroups (re : RegExp.t) : Prop :=
  forall n, n < 2 ->
  exists body, definite (S n) (pattern re) = Some body
    /\ allChars (ignoreCase re) (fun x => amountChar x = true) body
    /\ firstChar (ignoreCase re) (fun x => isDigit x = true) body.


End RegExpAnalysis.

(* ===================================================================== *)
(** * The generic board: [jobsdb-hk-frontend.tsx]                         *)
(* ===================================================================== *)

Module Frontend.
Import JS.

Record SalaryRange := mkSalaryRange {
  min : number;
  max : number
}.

Record JobAnnotations := mkJobAnnotations {
  techStack : list jsstring;
  yearsOfExperience : option number;
  visaSponsorship : option bool;
  securityClearance : bool;
  education : list jsstring;
  salary : option SalaryRange;
  location : jsstring;
  summary : jsstring
}.

Record Job := mkJob {
  id : nat;
  company : jsstring;
  title : jsstring;
  description : jsstring;
  annotations : JobAnnotations
}.

Record Filters := mkFilters {
  f_techStack : list jsstring;
  f_minExperience : jsstring;
  f_maxExperience : jsstring;
  f_visaSponsorship : jsstring;
  f_securityClearance : jsstring;
  f_education : list jsstring;
  f_location : jsstring;
  f_minSalary : jsstring
}.

(** ** Field extractors *)

Definition techKeywords : list jsstring := List.map lit
  [ "JavaScript"; "TypeScript"; "React"; "Angular"; "Vue"; "Node.js"; "Python";
    "Java"; "C++"; "C#"; ".NET"; "Ruby"; "Rails"; "PHP"; "Laravel"; "Django";
    "Flask"; "Spring"; "Express"; "MongoDB"; "PostgreSQL"; "MySQL"; "Redis";
    "Docker"; "Kubernetes"; "AWS"; "Azure"; "GCP"; "GraphQL"; "REST API";
    "Machine Learning"; "TensorFlow"; "PyTorch"; "Scikit-learn"; "Pandas";
    "Swift"; "Kotlin"; "React Native"; "Flutter"; "Go"; "Rust"; "Scala";
    "Elasticsearch"; "Kafka"; "RabbitMQ"; "Jenkins"; "Git"; "CI/CD" ]%string.

(** The [forEach] pushes onto [found] every keyword, in the order of the
    list, whose lower case the lower-cased description includes. *)
Definition extractTechStack (description : jsstring) : list jsstring :=
  let lowerDesc := toLowerCase description in
  let found :=
    filter (fun tech => includes lowerDesc (toLowerCase tech)) techKeywords in
  setToArray found.

Definition experiencePatterns : list RegExp.t := Eval vm_compute in
  [ RegExp.make "(\d+)\+?\s*years?\s*(?:of\s*)?experience" "i";
    RegExp.make "(\d+)\+?\s*years?\s*(?:of\s*)?professional" "i";
    RegExp.make "(\d+)\+?\s*years?\s*in" "i";
    RegExp.make "minimum\s*(\d+)\s*years?" "i";
    RegExp.make "at\s*least\s*(\d+)\s*years?" "i" ].

Fixpoint yearsLoop (patterns : list RegExp.t) (description : jsstring)
  : option number :=
  match patterns with
  | [] => None
  | pattern :: rest =>
      match RegExp.exec pattern description with
      | Some m => Some (parseIntOpt (RegExp.at_ m 1))
      | None => yearsLoop rest description
      end
  end.

Definition extractYearsOfExperience (description : jsstring) : option number :=
  yearsLoop experiencePatterns description.

Definition positivePatterns : list RegExp.t := Eval vm_compute in
  [ RegExp.make "visa\s*sponsorship\s*(?:is\s*)?available" "i";
    RegExp.make "willing\s*to\s*sponsor" "i";
    RegExp.make "we\s*sponsor" "i";
    RegExp.make "sponsorship\s*provided" "i";
    RegExp.make "h1b\s*sponsorship" "i" ].

Definition negativePatterns : list RegExp.t := Eval vm_compute in
  [ RegExp.make "no\s*visa\s*sponsorship" "i";
    RegExp.make "unable\s*to\s*sponsor" "i";
    RegExp.make "cannot\s*sponsor" "i";
    RegExp.make "not\s*able\s*to\s*sponsor" "i";
    RegExp.make "must\s*be\s*authorized" "i";
    RegExp.make "must\s*have\s*work\s*authorization" "i" ].

(** [for (const pattern of patterns) if (pattern.test(description))
    return v;] followed by [otherwise]. *)
Fixpoint returnOnTest (A : Type) (patterns : list RegExp.t)
    (description : jsstring) (v otherwise : A) : A :=
  match patterns with
  | [] => otherwise
  | pattern :: rest =>
      if RegExp.test pattern description then v
      else returnOnTest rest description v otherwise
  end.

Definition checkVisaSponsorship (description : jsstring) : option bool :=
  returnOnTest negativePatterns description (Some false)
    (returnOnTest positivePatterns description (Some true)
       None).

Definition clearancePatterns : list RegExp.t := Eval vm_compute in
  [ RegExp.make "security\s*clearance\s*(?:is\s*)?required" "i";
    RegExp.make "must\s*have\s*(?:active\s*)?security\s*clearance" "i";
    RegExp.make "secret\s*clearance" "i";
    RegExp.make "top\s*secret" "i";
    RegExp.make "ts\/sci" "i";
    RegExp.make "clearance\s*required" "i" ].

Definition checkSecurityClearance (description : jsstring) : bool :=
  existsb (fun pattern => RegExp.test pattern description) clearancePatterns.

Definition educationPatterns : list (jsstring * RegExp.t) := Eval vm_compute in
  [ (lit "Bachelor's", RegExp.make "bachelor'?s?\s*(?:degree|of)?" "i");
    (lit "Master's", RegExp.make "master'?s?\s*(?:degree|of)?" "i");
    (lit "PhD", RegExp.make "ph\.?d|doctorate" "i");
    (lit "Computer Science", RegExp.make "computer\s*science|cs\s*degree" "i");
    (lit "Engineering", RegExp.make "engineering\s*degree" "i");
    (lit "Mathematics", RegExp.make "mathematics|math\s*degree" "i") ].

(** [Object.entries(patterns).forEach]: the labels, in the order of the
    object's keys, whose pattern matches. *)
Definition pushMatching (patterns : list (jsstring * RegExp.t))
    (description : jsstring) : list jsstring :=
  List.map fst (filter (fun e => RegExp.test (snd e) description) patterns).

Definition extractEducation (description : jsstring) : list jsstring :=
  pushMatching educationPatterns description.

Definition salaryPatterns : list RegExp.t := Eval vm_compute in
  [ RegExp.make "\$(\d{1,3},?\d{3})\s*-\s*\$(\d{1,3},?\d{3})" "";
    RegExp.make "\$(\d{1,3}k)\s*-\s*\$(\d{1,3}k)" "i";
    RegExp.make "(\d{1,3},?\d{3})\s*-\s*(\d{1,3},?\d{3})\s*(?:per\s*year|annually)" "i" ].

(** [/[k,]/gi] *)
Definition kOrComma : RegExp.t := Eval vm_compute in RegExp.make "[k,]" "gi".

(** The body of the loop on a match [m]; [m[1].replace] throws when the
    group is [undefined]. *)
Definition salaryOfMatch (m : RegExp.MatchResult)
  : completion (option SalaryRange) :=
  match RegExp.at_ m 1, RegExp.at_ m 2 with
  | Some m1, Some m2 =>
      let min0 := RegExp.replaceAll kOrComma [] m1 in
      let max0 := RegExp.replaceAll kOrComma [] m2 in
      let min1 :=
        if includes (toLowerCase m1) (lit "k")
        then numberToString (mul (parseInt min0) (Int 1000)) else min0 in
      let max1 :=
        if includes (toLowerCase m2) (lit "k")
        then numberToString (mul (parseInt max0) (Int 1000)) else max0 in
      Normal (Some (mkSalaryRange (parseInt min1) (parseInt max1)))
  | _, _ => Throw
  end.

Fixpoint salaryLoop (patterns : list RegExp.t) (description : jsstring)
  : completion (option SalaryRange) :=
  match patterns with
  | [] => Normal None
  | pattern :: rest =>
      match RegExp.exec pattern description with
      | Some m => salaryOfMatch m
      | None => salaryLoop rest description
      end
  end.

Definition extractSalaryRange (description : jsstring)
  : completion (option SalaryRange) :=
  salaryLoop salaryPatterns description.

Definition remotePattern : RegExp.t := Eval vm_compute in
  RegExp.make "remote|work\s*from\s*home|distributed|anywhere" "i".
Definition hybridPattern : RegExp.t := Eval vm_compute in
  RegExp.make "hybrid" "i".

Definition extractLocation (description : jsstring) : jsstring :=
  if RegExp.test remotePattern description then lit "Remote"
  else if RegExp.test hybridPattern description then lit "Hybrid"
  else lit "On-site".

Definition responsibilityKeywords : list jsstring := List.map lit
  [ "design"; "develop"; "implement"; "maintain"; "lead"; "collaborate";
    "architect"; "build"; "deploy"; "optimize"; "review"; "mentor";
    "analyze"; "test"; "debug"; "document"; "integrate"; "scale" ]%string.

(** [/[.!?]+/] *)
Definition sentenceEnd : RegExp.t := Eval vm_compute in RegExp.make "[.!?]+" "".

Definition summarizeResponsibilities (description : jsstring) : jsstring :=
  let sentences := RegExp.split sentenceEnd description in
  let relevant :=
    firstn 3
      (filter (fun s => existsb (fun k => includes (toLowerCase s) k)
                                responsibilityKeywords)
              sentences) in
  match trim (join (lit ". ") relevant) with
  | [] => slice0 200 description ++ lit "..."
  | text => text
  end.

(** ** The mock descriptions of [generateMockJobs] *)

Definition descriptions : list jsstring := List.map lit
  [ "We are looking for a Senior Frontend Engineer with 5+ years of experience in React, TypeScript, and modern web development. 
    You will be responsible for building scalable web applications, implementing new features, and mentoring junior developers. 
    Must have a Bachelor's degree in Computer Science or related field. Experience with AWS and Docker is a plus. 
    Salary range: $120k - $160k. Visa sponsorship available. Remote work possible.";
    "Join our team as a Full Stack Developer! Required: 3+ years experience with Node.js, React, and PostgreSQL. 
    You'll design and develop RESTful APIs, implement frontend features, and optimize database performance. 
    Master's degree preferred. Must be authorized to work in the US. No visa sponsorship. 
    Competitive salary: $100,000 - $140,000. Hybrid work environment.";
    "Backend Engineer position requiring expertise in Python, Django, and microservices architecture. 
    Minimum 4 years of professional experience. You'll architect scalable systems, implement CI/CD pipelines, and collaborate with cross-functional teams. 
    Security clearance required. On-site position. Bachelor's degree required. 
    Compensation: $130k - $170k plus equity.";
    "We need a DevOps Engineer with strong experience in Kubernetes, Terraform, and AWS. 
    5+ years experience required. Responsibilities include maintaining infrastructure, implementing monitoring solutions, and automating deployments. 
    PhD in Computer Science preferred. H1B sponsorship provided. 
    Salary: $140,000 - $180,000. Remote-first company.";
    "Data Scientist role focusing on machine learning and predictive analytics. 
    Required: 3+ years with Python, TensorFlow, and Pandas. You'll build ML models, analyze large datasets, and present insights to stakeholders. 
    Master's degree in Mathematics or Statistics required. Must have work authorization. 
    $110k - $150k salary range. Hybrid work available.";
    "Machine Learning Engineer position for our AI team. Need 6+ years experience with PyTorch, Scikit-learn, and distributed computing. 
    You'll develop cutting-edge ML algorithms, deploy models to production, and optimize performance. 
    Secret clearance required. PhD preferred. No remote work. 
    Compensation: $150,000 - $200,000 plus benefits." ]%string.

Definition companies : list jsstring := List.map lit
  [ "TechCorp"; "DataSoft"; "CloudScale"; "AI Innovations"; "DevOps Pro";
    "StartupXYZ" ]%string.

Definition titles : list jsstring := List.map lit
  [ "Senior Frontend Engineer"; "Full Stack Developer"; "Backend Engineer";
    "DevOps Engineer"; "Data Scientist"; "Machine Learning Engineer";
    "Software Architect"; "Platform Engineer" ]%string.

(** The annotations [generateMockJobs] computes for a description. *)
Definition annotate (desc : jsstring) : completion JobAnnotations :=
  match extractSalaryRange desc with
  | Normal sal =>
      Normal (mkJobAnnotations (extractTechStack desc)
                (extractYearsOfExperience desc) (checkVisaSponsorship desc)
                (checkSecurityClearance desc) (extractEducation desc) sal
                (extractLocation desc) (summarizeResponsibilities desc))
  | Throw => Throw
  end.

(** The job [generateMockJobs] makes at index [i] (its random
    [postedDate] left out). *)
Definition mockJob (i : nat) : completion Job :=
  let desc := nth (i mod List.length descriptions) descriptions [] in
  match annotate desc with
  | Normal a =>
      Normal (mkJob (i + 1) (nth (i mod List.length companies) companies [])
                    (nth (i mod List.length titles) titles []) desc a)
  | Throw => Throw
  end.

(** ** The filter effect of [JobBoard]

    [applyFilters jobs searchTerm filters] is the value handed to
    [setFilteredJobs]. *)

Definition truthy (s : jsstring) : bool :=
  match s with [] => false | _ => true end.

Definition arrayIncludes (a : list jsstring) (x : jsstring) : bool :=
  existsb (str_eqb x) a.

Definition leq (a b : number) : bool := geq b a.

Definition applyFilters (jobs : list Job) (searchTerm : jsstring)
    (filters : Filters) : list Job :=
  let filtered := jobs in
  (* Search filter *)
  let filtered :=
    if truthy searchTerm then
      filter (fun job =>
                includes (toLowerCase (title job)) (toLowerCase searchTerm)
                || includes (toLowerCase (company job)) (toLowerCase searchTerm)
                || includes (toLowerCase (description job)) (toLowerCase searchTerm))
             filtered
    else filtered in
  (* Tech stack filter *)
  let filtered :=
    if 0 <? List.length (f_techStack filters) then
      filter (fun job =>
                forallb (fun tech => arrayIncludes (techStack (annotations job)) tech)
                        (f_techStack filters))
             filtered
    else filtered in
  (* Experience filter *)
  let filtered :=
    if truthy (f_minExperience filters) then
      filter (fun job =>
                match yearsOfExperience (annotations job) with
                | Some y => geq y (parseInt (f_minExperience filters))
                | None => false
                end)
             filtered
    else filtered in
  let filtered :=
    if truthy (f_maxExperience filters) then
      filter (fun job =>
                match yearsOfExperience (annotations job) with
                | Some y => leq y (parseInt (f_maxExperience filters))
                | None => false
                end)
             filtered
    else filtered in
  (* Visa sponsorship filter *)
  let filtered :=
    if truthy (f_visaSponsorship filters) then
      let wantsVisa := str_eqb (f_visaSponsorship filters) (lit "yes") in
      filter (fun job =>
                match visaSponsorship (annotations job) with
                | Some v => Bool.eqb v wantsVisa
                | None => false
                end)
             filtered
    else filtered in
  (* Security clearance filter *)
  let filtered :=
    if truthy (f_securityClearance filters) then
      let wantsClearance := str_eqb (f_securityClearance filters) (lit "yes") in
      filter (fun job => Bool.eqb (securityClearance (annotations job)) wantsClearance)
             filtered
    else filtered in
  (* Education filter *)
  let filtered :=
    if 0 <? List.length (f_education filters) then
      filter (fun job =>
                existsb (fun edu => arrayIncludes (education (annotations job)) edu)
                        (f_education filters))
             filtered
    else filtered in
  (* Location filter *)
  let filtered :=
    if truthy (f_location filters) then
      filter (fun job => str_eqb (location (annotations job)) (f_location filters))
             filtered
    else filtered in
  (* Salary filter *)
  let filtered :=
    if truthy (f_minSalary filters) then
      let minSal := mul (parseInt (f_minSalary filters)) (Int 1000) in
      filter (fun job =>
                match salary (annotations job) with
                | Some sal => geq (min sal) minSal
                | None => false
                end)
             filtered
    else filtered in
  filtered.

(** The filters as [clearFilters] sets them, and with [minSalary] set. *)
Definition noFilters : Filters := mkFilters [] [] [] [] [] [] [] [].

Definition withMinSalary (m : jsstring) : Filters :=
  mkFilters [] [] [] [] [] [] [] m.

End Frontend.

(* ===================================================================== *)
(** * The regional profile: [jobsdb-integration.js]                       *)
(* ===================================================================== *)

Module Integration.
Import JS.

Record HKSalary := mkHKSalary {
  min : number;
  max : number;
  currency : jsstring
}.

Record WorkPermit := mkWorkPermit {
  permanentResidentRequired : bool;
  visaSponsorshipAvailable : bool;
  workVisaAccepted : bool
}.

Record HKLocation := mkHKLocation {
  district : option jsstring;
  mtrLine : option jsstring;
  workFromHome : bool;
  hybrid : bool
}.


(** [HK_PATTERNS.salary]; the characters outside ASCII are U+6708
    U+85AA (monthly salary) and the full-width colon U+FF1A. *)
Definition HK_PATTERNS_salary : list RegExp.t := Eval vm_compute in
  [ RegExp.make "HK\$?\s*(\d{1,3},?\d{3})\s*-\s*HK\$?\s*(\d{1,3},?\d{3})" "i";
    RegExp.make "\$(\d{1,3}k)\s*-\s*\$(\d{1,3}k)" "i";
    RegExp.make "(\d{2,3})k\s*-\s*(\d{2,3})k\s*(?:HKD|HK\$)" "i";
    RegExp.make "\u6708\u85AA\s*[\uFF1A:]\s*\$?(\d{1,3},?\d{3})\s*-\s*\$?(\d{1,3},?\d{3})" "i" ].

Definition HK_districts : list string :=
  [ "Central"; "Admiralty"; "Wan Chai"; "Causeway Bay"; "Tsim Sha Tsui";
    "Mong Kok"; "Kwun Tong"; "Quarry Bay"; "Tai Koo"; "Sha Tin";
    "Tuen Mun"; "Yuen Long"; "Science Park"; "Cyberport" ]%string.

Definition HK_mtr : list string :=
  [ "Island Line"; "Tsuen Wan Line"; "Kwun Tong Line"; "Tseung Kwan O Line";
    "East Rail Line"; "West Rail Line" ]%string.

Definition kOrComma : RegExp.t := Eval vm_compute in RegExp.make "[k,]" "gi".
Definition comma : RegExp.t := Eval vm_compute in RegExp.make "," "g".

(** The body of the loop of [extractHKSalary] on a match [m]. *)
Definition hkSalaryOfMatch (m : RegExp.MatchResult)
  : completion (option HKSalary) :=
  match RegExp.at_ m 1, RegExp.at_ m 2, RegExp.at_ m 0 with
  | Some m1, Some m2, Some m0 =>
      let min0 := RegExp.replaceAll kOrComma [] m1 in
      let max0 := RegExp.replaceAll kOrComma [] m2 in
      (* Handle 'k' notation *)
      if includes (toLowerCase m0) (lit "k") then
        Normal (Some (mkHKSalary (mul (parseInt min0) (Int 1000))
                                 (mul (parseInt max0) (Int 1000))
                                 (lit "HKD")))
      else
        Normal (Some (mkHKSalary (parseInt (RegExp.replaceAll comma [] min0))
                                 (parseInt (RegExp.replaceAll comma [] max0))
                                 (lit "HKD")))
  | _, _, _ => Throw
  end.

Fixpoint hkSalaryLoop (patterns : list RegExp.t) (description : jsstring)
  : completion (option HKSalary) :=
  match patterns with
  | [] => Normal None
  | pattern :: rest =>
      match RegExp.exec pattern description with
      | Some m => hkSalaryOfMatch m
      | None => hkSalaryLoop rest description
      end
  end.

Definition extractHKSalary (description : jsstring)
  : completion (option HKSalary) :=
  hkSalaryLoop HK_PATTERNS_salary description.

Definition prPattern : RegExp.t := Eval vm_compute in
  RegExp.make "permanent\s*resident|HKID|\u9999\u6E2F\u6C38\u4E45\u5C45\u6C11" "i".
Definition sponsorshipPattern : RegExp.t := Eval vm_compute in
  RegExp.make "visa\s*sponsorship\s*(?:is\s*)?available|sponsor\s*work\s*visa" "i".
Definition workVisaPattern : RegExp.t := Eval vm_compute in
  RegExp.make "valid\s*work\s*visa\s*accepted|employment\s*visa\s*holders" "i".

Definition checkWorkPermitRequirements (description : jsstring) : WorkPermit :=
  mkWorkPermit
    (if RegExp.test prPattern description then true else false)
    (if RegExp.test sponsorshipPattern description then true else false)
    (if RegExp.test workVisaPattern description then true else false).

(** [for (const name of names) if (new RegExp(name, 'i').test(description))
    { field = name; break; }], the field being [null] before the loop. *)
Fixpoint firstNamed (names : list string) (description : jsstring)
  : option jsstring :=
  match names with
  | [] => None
  | name :: rest =>
      if RegExp.test (RegExp.make name "i") description then Some (lit name)
      else firstNamed rest description
  end.

Definition wfhPattern : RegExp.t := Eval vm_compute in
  RegExp.make "work\s*from\s*home|remote\s*work|\u5728\u5BB6\u5DE5\u4F5C" "i".
Definition hybridPattern : RegExp.t := Eval vm_compute in
  RegExp.make "hybrid\s*(?:work|arrangement)|\u6DF7\u5408\u8FA6\u516C" "i".

Definition extractHKLocation (description : jsstring) : HKLocation :=
  mkHKLocation
    (firstNamed HK_districts description)
    (firstNamed HK_mtr description)
    (if RegExp.test wfhPattern description then true else false)
    (if RegExp.test hybridPattern description then true else false).

Definition languagePatterns : list (jsstring * RegExp.t) := Eval vm_compute in
  [ (lit "English", RegExp.make "(?:fluent|proficient|good|excellent)\s*(?:in\s*)?english|english\s*(?:fluency|proficiency)" "i");
    (lit "Cantonese", RegExp.make "cantonese|\u5EE3\u6771\u8A71|\u7CB5\u8A9E" "i");
    (lit "Mandarin", RegExp.make "mandarin|putonghua|\u666E\u901A\u8A71|\u570B\u8A9E" "i");
    (lit "Japanese", RegExp.make "japanese|\u65E5\u8A9E|\u65E5\u6587" "i");
    (lit "Korean", RegExp.make "korean|\u97D3\u8A9E|\u97D3\u6587" "i") ].

Definition extractLanguageRequirements (description : jsstring) : list jsstring :=
  Frontend.pushMatching languagePatterns description.

Definition industries : list (jsstring * RegExp.t) := Eval vm_compute in
  [ (lit "Banking & Finance", RegExp.make "bank|financial|investment|trading|hedge\s*fund|private\s*equity|wealth\s*management" "i");
    (lit "Insurance", RegExp.make "insurance|takaful|actuary|underwriting" "i");
    (lit "Real Estate", RegExp.make "property|real\s*estate|construction|architectural" "i");
    (lit "Retail", RegExp.make "retail|shopping|mall|luxury|fashion" "i");
    (lit "Logistics", RegExp.make "logistics|shipping|freight|supply\s*chain|warehouse" "i");
    (lit "Technology", RegExp.make "fintech|software|IT|technology|digital|cyber" "i");
    (lit "Healthcare", RegExp.make "hospital|medical|clinic|pharmaceutical|healthcare" "i");
    (lit "Education", RegExp.make "university|school|education|teaching|academy" "i");
    (lit "Government", RegExp.make "government|civil\s*service|public\s*sector" "i") ].

(** [for (const [industry, pattern] of Object.entries(industries))
    if (pattern.test(description)) return industry;] *)
Fixpoint industryLoop (entries : list (jsstring * RegExp.t))
    (description : jsstring) : jsstring :=
  match entries with
  | [] => lit "Other"
  | (industry, pattern) :: rest =>
      if RegExp.test pattern description then industry
      else industryLoop rest description
  end.

Definition classifyHKIndustry (description : jsstring) : jsstring :=
  industryLoop industries description.

Definition benefitPatterns : list (jsstring * RegExp.t) := Eval vm_compute in
  [ (lit "MPF", RegExp.make "MPF|mandatory\s*provident\s*fund|\u5F37\u7A4D\u91D1" "i");
    (lit "Medical Insurance", RegExp.make "medical\s*insurance|health\s*insurance|\u91AB\u7642\u4FDD\u96AA" "i");
    (lit "Dental Coverage", RegExp.make "dental|\u7259\u79D1" "i");
    (lit "Performance Bonus", RegExp.make "performance\s*bonus|discretionary\s*bonus|\u82B1\u7D05" "i");
    (lit "Annual Leave", RegExp.make "annual\s*leave|AL|\u5E74\u5047" "i");
    (lit "Education Allowance", RegExp.make "education\s*allowance|study\s*leave" "i");
    (lit "Housing Allowance", RegExp.make "housing\s*allowance|accommodation" "i");
    (lit "Gym Membership", RegExp.make "gym|fitness|\u5065\u8EAB" "i") ].

Definition extractHKBenefits (description : jsstring) : list jsstring :=
  Frontend.pushMatching benefitPatterns description.


End Integration.

(* ===================================================================== *)
(** * The regional board: the API server of [jobsdb-hk-frontend.tsx]      *)
(* ===================================================================== *)

Module Api.
Import JS.

(** A row of the table [jobs]; [None] is SQL [NULL].  [created_at] is
    counted in microseconds. *)
Record JobRow := mkJobRow {
  source : jsstring;
  title : jsstring;
  company : jsstring;
  description : option jsstring;
  summary : option jsstring;
  tech_stack : option (list jsstring);
  years_experience : option Z;
  visa_sponsorship : option bool;
  work_permit_required : option bool;
  salary_min : option Z;
  salary_max : option Z;
  district : option jsstring;
  languages : option (list jsstring);
  industry : option jsstring;
  benefits : option (list jsstring);
  created_at : option Z
}.

(** ** [GET /api/jobs/hk]: the [WHERE] clause

    [req.query]: a parameter is absent or a string. *)
Record Query := mkQuery {
  q_search : option jsstring;
  q_techStack : option jsstring;
  q_minExperience : option jsstring;
  q_maxExperience : option jsstring;
  q_minSalary : option jsstring;
  q_maxSalary : option jsstring;
  q_district : option jsstring;
  q_languages : option jsstring;
  q_industry : option jsstring;
  q_workPermit : option jsstring;
  q_benefits : option jsstring
}.

Inductive intColumn := years_experience_col | salary_min_col | salary_max_col.
Inductive arrayColumn := tech_stack_col | languages_col | benefits_col.
Inductive textColumn := district_col | industry_col.
Inductive boolColumn := work_permit_required_col | visa_sponsorship_col.

(** The conjuncts the handler appends to the statement; [p] is the
    number of a placeholder [$p]. *)
Inductive clause :=
| SearchILike (p : nat)                  (* title, company, description or summary ILIKE $p *)
| Overlaps (col : arrayColumn) (p : nat) (* col && $p::text[] *)
| IntGe (col : intColumn) (p : nat)      (* col >= $p *)
| IntLe (col : intColumn) (p : nat)      (* col <= $p *)
| TextEq (col : textColumn) (p : nat)    (* col = $p *)
| IsTrue (col : boolColumn).             (* col = true *)

Inductive param :=
| PText (s : jsstring)
| PArray (a : list jsstring)
| PNumber (n : number).

Record builder := mkBuilder {
  query : list clause;
  queryParams : list param;
  paramCounter : nat
}.

(** [query += ...; queryParams.push(v); paramCounter++] *)
Definition addClause (c : nat -> clause) (v : param) (b : builder) : builder :=
  mkBuilder (query b ++ [c (paramCounter b)]) (queryParams b ++ [v])
            (S (paramCounter b)).

(** [if (x) { ... }] on a query parameter: present and not empty. *)
Definition whenSet (x : option jsstring) (f : jsstring -> builder -> builder)
    (b : builder) : builder :=
  match x with
  | Some (c :: s) => f (c :: s) b
  | _ => b
  end.

(** [s.split(',')] *)
Fixpoint splitComma (piece : jsstring) (s : jsstring) : list jsstring :=
  match s with
  | [] => [rev piece]
  | c :: s' =>
      if (c =? 44)%N then rev piece :: splitComma [] s'
      else splitComma (c :: piece) s'
  end.

Definition percent : jsstring := [37%N].

Definition buildWhere (q : Query) : builder :=
  let b := mkBuilder [] [] 1 in
  let b := whenSet (q_search q)
             (fun search => addClause SearchILike (PText (percent ++ search ++ percent))) b in
  let b := whenSet (q_techStack q)
             (fun techStack => addClause (Overlaps tech_stack_col)
                                         (PArray (splitComma [] techStack))) b in
  let b := whenSet (q_minExperience q)
             (fun minExperience => addClause (IntGe years_experience_col)
                                             (PNumber (parseInt minExperience))) b in
  let b := whenSet (q_maxExperience q)
             (fun maxExperience => addClause (IntLe years_experience_col)
                                             (PNumber (parseInt maxExperience))) b in
  let b := whenSet (q_minSalary q)
             (fun minSalary => addClause (IntGe salary_max_col)
                                         (PNumber (parseInt minSalary))) b in
  let b := whenSet (q_maxSalary q)
             (fun maxSalary => addClause (IntLe salary_min_col)
                                         (PNumber (parseInt maxSalary))) b in
  let b := whenSet (q_district q)
             (fun district => addClause (TextEq district_col) (PText district)) b in
  let b := whenSet (q_languages q)
             (fun languages => addClause (Overlaps languages_col)
                                         (PArray (splitComma [] languages))) b in
  let b := whenSet (q_industry q)
             (fun industry => addClause (TextEq industry_col) (PText industry)) b in
  let b :=
    match q_workPermit q with
    | Some w =>
        if str_eqb w (lit "pr_required")
        then mkBuilder (query b ++ [IsTrue work_permit_required_col])
                       (queryParams b) (paramCounter b)
        else if str_eqb w (lit "visa_available")
        then mkBuilder (query b ++ [IsTrue visa_sponsorship_col])
                       (queryParams b) (paramCounter b)
        else b
    | None => b
    end in
  let b := whenSet (q_benefits q)
             (fun benefits => addClause (Overlaps benefits_col)
                                        (PArray (splitComma [] benefits))) b in
  b.

(** ** The database's reading of the clause

    A [WHERE] that is a conjunction keeps a row exactly when every
    conjunct is true, so each conjunct is evaluated to "true" or "not
    true" ([NULL] included).  [ILIKE] is the database's own and is
    taken as a parameter. *)
Section Where.
Variable ilike : jsstring -> jsstring -> bool.

Definition intOf (col : intColumn) (r : JobRow) : option Z :=
  match col with
  | years_experience_col => years_experience r
  | salary_min_col => salary_min r
  | salary_max_col => salary_max r
  end.

Definition arrayOf (col : arrayColumn) (r : JobRow) : option (list jsstring) :=
  match col with
  | tech_stack_col => tech_stack r
  | languages_col => languages r
  | benefits_col => benefits r
  end.

Definition textOf (col : textColumn) (r : JobRow) : option jsstring :=
  match col with
  | district_col => district r
  | industry_col => industry r
  end.

Definition boolOf (col : boolColumn) (r : JobRow) : option bool :=
  match col with
  | work_permit_required_col => work_permit_required r
  | visa_sponsorship_col => visa_sponsorship r
  end.

Definition placeholder (params : list param) (p : nat) : option param :=
  nth_error params (p - 1).

Definition ilikeOpt (text : option jsstring) (pat : jsstring) : bool :=
  match text with
  | Some s => ilike s pat
  | None => false
  end.

Definition holds (params : list param) (r : JobRow) (c : clause) : bool :=
  match c with
  | SearchILike p =>
      match placeholder params p with
      | Some (PText pat) =>
          ilike (title r) pat || ilike (company r) pat
          || ilikeOpt (description r) pat || ilikeOpt (summary r) pat
      | _ => false
      end
  | Overlaps col p =>
      match arrayOf col r, placeholder params p with
      | Some a, Some (PArray b) => existsb (fun x => existsb (str_eqb x) b) a
      | _, _ => false
      end
  | IntGe col p =>
      match intOf col r, placeholder params p with
      | Some v, Some (PNumber (Int z)) => (z <=? v)%Z
      | _, _ => false
      end
  | IntLe col p =>
      match intOf col r, placeholder params p with
      | Some v, Some (PNumber (Int z)) => (v <=? z)%Z
      | _, _ => false
      end
  | TextEq col p =>
      match textOf col r, placeholder params p with
      | Some v, Some (PText s) => str_eqb v s
      | _, _ => false
      end
  | IsTrue col =>
      match boolOf col r with
      | Some true => true
      | _ => false
      end
  end.

(** A number bound to a placeholder compared with an [INTEGER] column
    has to be an integer of 32 bits; the statement fails otherwise. *)
Definition bindable (v : param) : bool :=
  match v with
  | PNumber NaN => false
  | PNumber (Int z) => ((-2147483648 <=? z) && (z <=? 2147483647))%Z
  | _ => true
  end.

(** Whether the statement built for [q] keeps the row [r]: [Throw] when
    the statement fails (the handler then answers 500).  [ORDER BY],
    [LIMIT] and [OFFSET] only choose a page among the rows kept. *)
Definition selects (q : Query) (r : JobRow) : completion bool :=
  let b := buildWhere q in
  if forallb bindable (queryParams b) then
    Normal (str_eqb (source r) (lit "JobsDB")
            && forallb (holds (queryParams b) r) (query b))
  else Throw.

End Where.

(** A request that sets [minSalary] only. *)
Definition onlyMinSalary (m : jsstring) : Query :=
  mkQuery None None None None (Some m) None None None None None None.

(** ** [GET /api/jobs/hk/trending]

    The statement counts, per technology, the rows of two windows of
    [days] days and reports the growth from the previous window to the
    current one.  The three interval bounds are the placeholders of the
    statement, bound in this order to [[days, days * 2, days]]. *)






(** [GROUP BY technology] with [COUNT( * )] *)
Fixpoint bump (t : jsstring) (groups : list (jsstring * Z)) : list (jsstring * Z) :=
  match groups with
  | [] => [(t, 1%Z)]
  | (u, n) :: rest =>
      if str_eqb t u then (u, (n + 1)%Z) :: rest else (u, n) :: bump t rest
  end.

Definition countByTechnology (techs : list jsstring) : list (jsstring * Z) :=
  fold_left (fun groups t => bump t groups) techs [].















Record TrendRow := mkTrendRow {
  technology : option jsstring;
  current_count : Z;
  previous_count : Z;
  growth : option Q
}.





(** [ORDER BY growth_percentage DESC, current_count DESC]: whether [a]
    may come before [b]; in a descending order [NULL] comes first.
    Rows that tie on both keys are kept in the order of the join. *)
Definition before (a b : TrendRow) : bool :=
  match growth a, growth b with
  | None, None => (current_count b <=? current_count a)%Z
  | None, Some _ => true
  | Some _, None => false
  | Some x, Some y =>
      match (x ?= y)%Q with
      | Gt => true
      | Lt => false
      | Eq => (current_count b <=? current_count a)%Z
      end
  end.






End Api.

(* ===================================================================== *)
(** * Matching further on in the input                                    *)
(* ===================================================================== *)

Module RegExpIndex.
Import JS RegExp.



End RegExpIndex.

(* ===================================================================== *)
(** * The join of the trending statement, row by row                      *)
(* ===================================================================== *)

Module TrendingAnalysis.
Import JS Api.


End TrendingAnalysis.

(* ===================================================================== *)
(** * The generic board: the handlers of [JobBoard]                       *)
(* ===================================================================== *)

Module Board.
Import JS Frontend.

(** [setFilters(prev => ({...prev, techStack: prev.techStack.includes(tech)
      ? prev.techStack.filter(t => t !== tech) : [...prev.techStack, tech]}))] *)
Definition toggleTechFilter (tech : jsstring) (prev : Filters) : Filters :=
  mkFilters
    (if arrayIncludes (f_techStack prev) tech
     then filter (fun t => negb (str_eqb t tech)) (f_techStack prev)
     else f_techStack prev ++ [tech])
    (f_minExperience prev) (f_maxExperience prev) (f_visaSponsorship prev)
    (f_securityClearance prev) (f_education prev) (f_location prev)
    (f_minSalary prev).

Definition toggleEducationFilter (edu : jsstring) (prev : Filters) : Filters :=
  mkFilters
    (f_techStack prev) (f_minExperience prev) (f_maxExperience prev)
    (f_visaSponsorship prev) (f_securityClearance prev)
    (if arrayIncludes (f_education prev) edu
     then filter (fun e => negb (str_eqb e edu)) (f_education prev)
     else f_education prev ++ [edu])
    (f_location prev) (f_minSalary prev).

(** [clearFilters]: the filters and the search term it sets. *)
Definition clearFilters : Filters * jsstring := (noFilters, []).

(** [a < b] on strings: the first code unit that differs decides, a
    proper prefix comes first. *)
Fixpoint stringLt (a b : jsstring) : bool :=
  match a, b with
  | _, [] => false
  | [], _ :: _ => true
  | x :: a', y :: b' => (x <? y)%N || ((x =? y)%N && stringLt a' b')
  end.

(** [a.sort()] on strings, without a comparison function: ascending by
    code units, equal elements kept in their order. *)
Fixpoint insertSorted (x : jsstring) (sorted : list jsstring) : list jsstring :=
  match sorted with
  | [] => [x]
  | y :: rest => if stringLt y x then y :: insertSorted x rest else x :: y :: rest
  end.

Definition sort (a : list jsstring) : list jsstring := fold_right insertSorted [] a.

(** [allTechStack]: every technology of every job is added to a [Set],
    whose elements are then sorted. *)
Definition allTechStack (jobs : list Job) : list jsstring :=
  sort (setToArray (flat_map (fun job => techStack (annotations job)) jobs)).

(** The filters that select one technology and nothing else. *)
Definition onlyTech (tech : jsstring) : Filters :=
  mkFilters [tech] [] [] [] [] [] [] [].

End Board.

(* ===================================================================== *)
(** * The regional board: the helpers of [JobsDBHongKong]                 *)
(* ===================================================================== *)

Module HKBoard.
Import JS.

Definition millisecondsPerDay : Z := 1000 * 60 * 60 * 24.

(** [a === b] and [a < b] on numbers: false as soon as one side is
    [NaN]. *)
Definition strictEq (a b : number) : bool :=
  match a, b with
  | Int x, Int y => (x =? y)%Z
  | _, _ => false
  end.

Definition lessThan (a b : number) : bool :=
  match a, b with
  | Int x, Int y => (x <? y)%Z
  | _, _ => false
  end.

(** [formatDate].  The time value of a [Date] is a number of
    milliseconds, [None] standing for the [NaN] of an invalid date.
    How a text is read as a date and how a date is written for the
    locale belong to the host; [now] is the time value of [new Date()].
    The difference of two time values is exact, and so is the floor of
    its quotient by the milliseconds of a day. *)
Section FormatDate.
Variable parseDate : jsstring -> option Z.
Variable toLocaleDateString : option Z -> jsstring.

(** [Math.floor((new Date().getTime() - date.getTime()) / (1000 * 60 * 60 * 24))] *)
Definition daysSince (now : Z) (date : option Z) : number :=
  match date with
  | Some t => Int ((now - t) / millisecondsPerDay)
  | None => NaN
  end.

Definition formatDate (now : Z) (dateString : jsstring) : jsstring :=
  let date := parseDate dateString in
  let days := daysSince now date in
  if strictEq days (Int 0) then lit "Today"
  else if strictEq days (Int 1) then lit "Yesterday"
  else if lessThan days (Int 7) then numberToString days ++ lit " days ago"
  else toLocaleDateString date.

End FormatDate.

(** The two buttons under the list:
    [setCurrentPage(prev => Math.max(1, prev - 1))] and
    [setCurrentPage(prev => Math.min(totalPages, prev + 1))]. *)
Definition previousPage (prev : Z) : Z := Z.max 1 (prev - 1).

Definition nextPage (totalPages prev : Z) : Z := Z.min totalPages (prev + 1).

End HKBoard.

(* ===================================================================== *)
(** * The scraper: what [jobsdb-integration.js] writes for a job          *)
(* ===================================================================== *)

Module Scraper.
Import JS.

(** The object [{...generalAnnotations, ...hkAnnotations}] of
    [getJobDetails]; the two objects have no key in common. *)
Record Annotations := mkAnnotations {
  techStack : list jsstring;
  yearsOfExperience : option number;
  education : list jsstring;
  summary : jsstring;
  salary : option Integration.HKSalary;
  workPermitRequired : Integration.WorkPermit;
  location : Integration.HKLocation;
  languages : list jsstring;
  industry : jsstring;
  benefits : list jsstring
}.

(** The four general extractors are free identifiers of the module;
    they are taken as they are given. *)
Section General.
Variable extractTechStack : jsstring -> list jsstring.
Variable extractYearsOfExperience : jsstring -> option number.
Variable extractEducation : jsstring -> list jsstring.
Variable summarizeResponsibilities : jsstring -> jsstring.



End General.

(** A job as [saveToDatabase] reads it; a property that is missing is
    [None].  The full description is a property of the job itself, not
    of its annotations. *)
Record ScrapedJob := mkScrapedJob {
  jobId : option jsstring;
  title : option jsstring;
  company : option jsstring;
  jobLocation : option jsstring;
  briefDescription : option jsstring;
  fullDescription : option jsstring;
  postedDate : option jsstring;
  url : option jsstring;
  annotations : option Annotations;
  source : option jsstring;
  market : option jsstring;
  scrapedAt : option jsstring;
  searchKeyword : option jsstring
}.

(** The array [values] bound to the placeholders [$1] to [$24] of the
    [INSERT]; [None] is [undefined], which is sent as [NULL]. *)
Record Values := mkValues {
  p_source_id : option jsstring;
  p_title : option jsstring;
  p_company : option jsstring;
  p_location : option jsstring;
  p_description : option jsstring;
  p_posted_date : option jsstring;
  p_source_url : option jsstring;
  p_source : option jsstring;
  p_tech_stack : list jsstring;
  p_years_experience : option number;
  p_visa_sponsorship : option bool;
  p_security_clearance : bool;
  p_education_requirements : list jsstring;
  p_salary_min : option number;
  p_salary_max : option number;
  p_salary_currency : jsstring;
  p_location_type : jsstring;
  p_summary : option jsstring;
  p_work_permit_required : option bool;
  p_languages : list jsstring;
  p_industry : option jsstring;
  p_benefits : list jsstring;
  p_district : option jsstring;
  p_created_at : Z
}.

(** [x || []] on an array that may be missing *)
Definition orNil (x : option (list jsstring)) : list jsstring :=
  match x with
  | Some a => a
  | None => []
  end.

(** [job.annotations?.salary?.currency || 'HKD'] *)
Definition currencyOrHKD (a : option Annotations) : jsstring :=
  match option_map salary a with
  | Some (Some s) =>
      match Integration.currency s with
      | [] => lit "HKD"
      | c => c
      end
  | _ => lit "HKD"
  end.

(** [job.annotations?.location?.hybrid ? 'Hybrid' : 'On-site'] *)
Definition locationType (a : option Annotations) : jsstring :=
  match option_map (fun a => Integration.hybrid (location a)) a with
  | Some true => lit "Hybrid"
  | _ => lit "On-site"
  end.

(** [job.annotations?.salary?.min] and [max] *)
Definition salaryBound (bound : Integration.HKSalary -> number)
    (a : option Annotations) : option number :=
  match option_map salary a with
  | Some (Some s) => Some (bound s)
  | _ => None
  end.

(** The description bound to [$5] is
    [job.annotations?.fullDescription || job.briefDescription]; the
    annotations have no such key, so the first operand is [undefined]. *)
Definition values (job : ScrapedJob) (now : Z) : Values :=
  mkValues
    (jobId job)
    (title job)
    (company job)
    (jobLocation job)
    (briefDescription job)
    (postedDate job)
    (url job)
    (source job)
    (orNil (option_map techStack (annotations job)))
    (match annotations job with Some a => yearsOfExperience a | None => None end)
    (option_map (fun a => Integration.visaSponsorshipAvailable (workPermitRequired a))
                (annotations job))
    false
    (orNil (option_map education (annotations job)))
    (salaryBound Integration.min (annotations job))
    (salaryBound Integration.max (annotations job))
    (currencyOrHKD (annotations job))
    (locationType (annotations job))
    (option_map summary (annotations job))
    (option_map (fun a => Integration.permanentResidentRequired (workPermitRequired a))
                (annotations job))
    (orNil (option_map languages (annotations job)))
    (option_map industry (annotations job))
    (orNil (option_map benefits (annotations job)))
    (match annotations job with
     | Some a => Integration.district (location a)
     | None => None
     end)
    now.

(** A job as [extractJobListings] merges it, [{...job, ...details}],
    when [getJobDetails] has read the full description
    [fullDescription] on the page of the job. *)
Section Detailed.
Variable extractTechStack : jsstring -> list jsstring.
Variable extractYearsOfExperience : jsstring -> option number.
Variable extractEducation : jsstring -> list jsstring.
Variable summarizeResponsibilities : jsstring -> jsstring.


End Detailed.

(** ** [searchJobs]: the address of the search

    [encodeURIComponent]: a code unit of the unescaped set is kept;
    otherwise the code point is read, one code unit or a surrogate
    pair, and each byte of its UTF-8 encoding is written as [%XX]; a
    surrogate without its pair throws a [URIError]. *)

Definition isAlpha (c : N) : bool := isUpperAscii c || isLowerAscii c.

(** Letters, digits and [- _ . ! ~ * ' ( )] *)
Definition uriUnescaped (c : N) : bool :=
  isAlpha c || isDigit c
  || existsb (N.eqb c) [45; 95; 46; 33; 126; 42; 39; 40; 41]%N.

Definition hexDigit (n : N) : N :=
  if (n <? 10)%N then (n + 48)%N else (n + 55)%N.

Definition percentByte (b : N) : jsstring :=
  [37; hexDigit (b / 16); hexDigit (b mod 16)]%N.

Definition utf8 (cp : N) : list N :=
  if (cp <? 0x80)%N then [cp]
  else if (cp <? 0x800)%N then [0xC0 + cp / 64; 0x80 + cp mod 64]%N
  else if (cp <? 0x10000)%N
  then [0xE0 + cp / 4096; 0x80 + (cp / 64) mod 64; 0x80 + cp mod 64]%N
  else [0xF0 + cp / 262144; 0x80 + (cp / 4096) mod 64;
        0x80 + (cp / 64) mod 64; 0x80 + cp mod 64]%N.

Definition isLeadSurrogate (c : N) : bool := ((0xD800 <=? c) && (c <=? 0xDBFF))%N.
Definition isTrailSurrogate (c : N) : bool := ((0xDC00 <=? c) && (c <=? 0xDFFF))%N.

Definition pairCodePoint (lead trail : N) : N :=
  ((lead - 0xD800) * 0x400 + (trail - 0xDC00) + 0x10000)%N.

Fixpoint encodeURIComponent (s : jsstring) : completion jsstring :=
  match s with
  | [] => Normal []
  | c :: rest =>
      if uriUnescaped c then
        match encodeURIComponent rest with
        | Normal t => Normal (c :: t)
        | Throw => Throw
        end
      else if isTrailSurrogate c then Throw
      else if isLeadSurrogate c then
        match rest with
        | c2 :: rest2 =>
            if isTrailSurrogate c2 then
              match encodeURIComponent rest2 with
              | Normal t =>
                  Normal (flat_map percentByte (utf8 (pairCodePoint c c2)) ++ t)
              | Throw => Throw
              end
            else Throw
        | [] => Throw
        end
      else
        match encodeURIComponent rest with
        | Normal t => Normal (flat_map percentByte (utf8 c) ++ t)
        | Throw => Throw
        end
  end.

(** The serializer of [URLSearchParams]: letters, digits and [* - . _]
    are kept, a space becomes [+], every other code point is written
    as the [%XX] of its UTF-8 bytes, a surrogate without its pair
    counting as U+FFFD. *)
Definition formSafe (c : N) : bool :=
  isAlpha c || isDigit c || existsb (N.eqb c) [42; 45; 46; 95]%N.

Fixpoint formEncode (s : jsstring) : jsstring :=
  match s with
  | [] => []
  | c :: rest =>
      if formSafe c then c :: formEncode rest
      else if (c =? 32)%N then 43%N :: formEncode rest
      else if isLeadSurrogate c then
        match rest with
        | c2 :: rest2 =>
            if isTrailSurrogate c2
            then flat_map percentByte (utf8 (pairCodePoint c c2)) ++ formEncode rest2
            else flat_map percentByte (utf8 0xFFFD) ++ formEncode rest
        | [] => flat_map percentByte (utf8 0xFFFD)
        end
      else if isTrailSurrogate c
      then flat_map percentByte (utf8 0xFFFD) ++ formEncode rest
      else flat_map percentByte (utf8 c) ++ formEncode rest
  end.

(** The [filters] of [searchJobs]: each a text, or missing. *)
Record SearchFilters := mkSearchFilters {
  f_salary : option jsstring;
  f_experience : option jsstring;
  f_jobType : option jsstring
}.

(** [if (x) searchParams.append(name, x)] *)
Definition appendIfSet (name : string) (x : option jsstring)
    (searchParams : list (jsstring * jsstring)) : list (jsstring * jsstring) :=
  match x with
  | Some (c :: s) => searchParams ++ [(lit name, c :: s)]
  | _ => searchParams
  end.

(** [searchParams.toString()] *)
Definition serialize (searchParams : list (jsstring * jsstring)) : jsstring :=
  join (lit "&")
       (List.map (fun p => formEncode (fst p) ++ lit "=" ++ formEncode (snd p))
                 searchParams).

Definition baseSearchUrl : jsstring := lit "https://hk.jobsdb.com/hk/search-jobs".

(** [finalUrl], the address [searchJobs] opens. *)
Definition finalUrl (keyword : jsstring) (filters : SearchFilters)
  : completion jsstring :=
  match encodeURIComponent keyword with
  | Normal segment =>
      let searchUrl := baseSearchUrl ++ lit "/" ++ segment in
      let searchParams := [] in
      let searchParams := appendIfSet "sal" (f_salary filters) searchParams in
      let searchParams := appendIfSet "exp" (f_experience filters) searchParams in
      let searchParams := appendIfSet "jobtype" (f_jobType filters) searchParams in
      match serialize searchParams with
      | [] => Normal searchUrl
      | query => Normal (searchUrl ++ lit "?" ++ query)
      end
  | Throw => Throw
  end.

(** The characters that would end the path segment of the keyword or
    be read as part of the query. *)
Definition delimiter (c : N) : bool :=
  existsb (N.eqb c) [47; 63; 35; 38; 61; 32; 43]%N.

(** ** [processJobsDBBatch]

    The keywords are searched one after the other with the same
    filters, and the jobs of each are given the source, the market,
    the time and the keyword.  [searchJobs] returns the jobs of a
    keyword or throws; [clock keyword i] is [new Date().toISOString()]
    when the job number [i] of [keyword] is tagged.  An exception ends
    the loop: the scraper is closed and the exception goes on. *)
Definition batchFilters : SearchFilters :=
  mkSearchFilters (Some (lit "20000-100000")) (Some (lit "1-5")) None.

Definition defaultKeywords : list jsstring :=
  List.map lit [ "software engineer"; "data analyst"; "product manager" ]%string.

Section Batch.
Variable initialize : completion unit.
Variable searchJobs : jsstring -> SearchFilters -> completion (list ScrapedJob).
Variable clock : jsstring -> nat -> jsstring.

Definition withMeta (keyword : jsstring) (i : nat) (job : ScrapedJob) : ScrapedJob :=
  mkScrapedJob (jobId job) (title job) (company job) (jobLocation job)
               (briefDescription job) (fullDescription job) (postedDate job)
               (url job) (annotations job)
               (Some (lit "JobsDB")) (Some (lit "Hong Kong"))
               (Some (clock keyword i)) (Some keyword).

Definition jobsWithMeta (keyword : jsstring) (jobs : list ScrapedJob)
  : list ScrapedJob :=
  List.map (fun ij => withMeta keyword (fst ij) (snd ij))
           (combine (seq 0 (List.length jobs)) jobs).

Fixpoint scrapeAll (keywords : list jsstring) (allJobs : list ScrapedJob)
  : completion (list ScrapedJob) :=
  match keywords with
  | [] => Normal allJobs
  | keyword :: rest =>
      match searchJobs keyword batchFilters with
      | Normal jobs => scrapeAll rest (allJobs ++ jobsWithMeta keyword jobs)
      | Throw => Throw
      end
  end.

Definition processJobsDBBatch (keywords : option (list jsstring))
  : completion (list ScrapedJob) :=
  match initialize with
  | Normal _ =>
      scrapeAll (match keywords with
                 | Some k => k
                 | None => defaultKeywords
                 end) []
  | Throw => Throw
  end.

End Batch.

End Scraper.

(* ===================================================================== *)
(** * The API server: statements, the scraping flag and its status        *)
(* ===================================================================== *)

Module Server.
Import JS Api.

(** ** [GET /api/jobs/hk]: the text of the statements

    The handler builds the text of the search statement, its
    parameters and the number of the next placeholder side by side. *)

Record statement := mkStatement {
  text : jsstring;
  params : list param;
  counter : nat
}.

Definition lines (l : list string) : jsstring := join [10%N] (List.map lit l).

(** [$${paramCounter}] *)
Definition dollar (n : nat) : jsstring :=
  36%N :: numberToString (Int (Z.of_nat n)).

Definition selectFromWhere : jsstring := lines
  [ "";
    "      SELECT ";
    "        id, source_id, title, company, location, summary,";
    "        posted_date, source_url, tech_stack, years_experience,";
    "        salary_min, salary_max, salary_currency, location_type,";
    "        languages, industry, benefits, district,";
    "        work_permit_required, visa_sponsorship,";
    "        created_at, updated_at";
    "      FROM jobs";
    "      WHERE source = 'JobsDB'";
    "    " ]%string.

Definition searchClause (n : nat) : jsstring :=
  lit " AND (" ++ [10%N]
  ++ lit "        title ILIKE " ++ dollar n ++ lit " OR " ++ [10%N]
  ++ lit "        company ILIKE " ++ dollar n ++ lit " OR " ++ [10%N]
  ++ lit "        description ILIKE " ++ dollar n ++ lit " OR" ++ [10%N]
  ++ lit "        summary ILIKE " ++ dollar n ++ [10%N]
  ++ lit "      )".

(** [query += clause; queryParams.push(v); paramCounter++] *)
Definition push (clause : nat -> jsstring) (v : param) (b : statement) : statement :=
  mkStatement (text b ++ clause (counter b)) (params b ++ [v]) (S (counter b)).

(** [query += clause] *)
Definition append (clause : jsstring) (b : statement) : statement :=
  mkStatement (text b ++ clause) (params b) (counter b).

(** [if (x) { ... }] on a query parameter: present and not empty. *)
Definition ifSet (B : Type) (x : option jsstring) (f : jsstring -> B -> B) (b : B) : B :=
  match x with
  | Some (c :: s) => f (c :: s) b
  | _ => b
  end.

(** The statement when the filters have been applied, before the
    sorting and the pagination are added. *)
Definition buildFilters (q : Query) : statement :=
  let b := mkStatement selectFromWhere [] 1 in
  let b := ifSet (q_search q)
             (fun search => push searchClause (PText (percent ++ search ++ percent))) b in
  let b := ifSet (q_techStack q)
             (fun techStack =>
                push (fun n => lit " AND tech_stack && " ++ dollar n ++ lit "::text[]")
                     (PArray (splitComma [] techStack))) b in
  let b := ifSet (q_minExperience q)
             (fun minExperience =>
                push (fun n => lit " AND years_experience >= " ++ dollar n)
                     (PNumber (parseInt minExperience))) b in
  let b := ifSet (q_maxExperience q)
             (fun maxExperience =>
                push (fun n => lit " AND years_experience <= " ++ dollar n)
                     (PNumber (parseInt maxExperience))) b in
  let b := ifSet (q_minSalary q)
             (fun minSalary =>
                push (fun n => lit " AND salary_max >= " ++ dollar n)
                     (PNumber (parseInt minSalary))) b in
  let b := ifSet (q_maxSalary q)
             (fun maxSalary =>
                push (fun n => lit " AND salary_min <= " ++ dollar n)
                     (PNumber (parseInt maxSalary))) b in
  let b := ifSet (q_district q)
             (fun district =>
                push (fun n => lit " AND district = " ++ dollar n) (PText district)) b in
  let b := ifSet (q_languages q)
             (fun languages =>
                push (fun n => lit " AND languages && " ++ dollar n ++ lit "::text[]")
                     (PArray (splitComma [] languages))) b in
  let b := ifSet (q_industry q)
             (fun industry =>
                push (fun n => lit " AND industry = " ++ dollar n) (PText industry)) b in
  let b :=
    match q_workPermit q with
    | Some w =>
        if str_eqb w (lit "pr_required")
        then append (lit " AND work_permit_required = true") b
        else if str_eqb w (lit "visa_available")
        then append (lit " AND visa_sponsorship = true") b
        else b
    | None => b
    end in
  let b := ifSet (q_benefits q)
             (fun benefits =>
                push (fun n => lit " AND benefits && " ++ dollar n ++ lit "::text[]")
                     (PArray (splitComma [] benefits))) b in
  b.

(** [a - b] on numbers *)
Definition minus (a b : number) : number :=
  match a, b with
  | Int x, Int y => Int (x - y)
  | _, _ => NaN
  end.

(** [page = 1] and [limit = 20] in the destructuring of [req.query]:
    the default is taken when the parameter is absent, and [parseInt]
    first turns it into a string. *)
Definition pageOf (page : option jsstring) : number :=
  parseInt (match page with Some s => s | None => lit "1" end).

Definition limitOf (limit : option jsstring) : number :=
  parseInt (match limit with Some s => s | None => lit "20" end).

(** The search statement as it is sent. *)
Definition buildQuery (q : Query) (page limit : option jsstring) : statement :=
  let b := buildFilters q in
  let b := append (lit " ORDER BY posted_date DESC, created_at DESC") b in
  let b := append (lit " LIMIT " ++ dollar (counter b)
                   ++ lit " OFFSET " ++ dollar (counter b + 1)) b in
  mkStatement (text b)
              (params b ++ [PNumber (limitOf limit);
                            PNumber (mul (minus (pageOf page) (Int 1)) (limitOf limit))])
              (counter b).

(** [s.replace(re, rep)] for a pattern without the [g] flag and a
    replacement text without [$]: the leftmost match is replaced. *)
Definition replace (re : RegExp.t) (rep s : jsstring) : jsstring :=
  match RegExp.exec re s with
  | Some m =>
      match RegExp.at_ m 0 with
      | Some w =>
          firstn (RegExp.index m) s ++ rep
          ++ skipn (RegExp.index m + List.length w) s
      | None => s
      end
  | None => s
  end.

(** A pattern [re] followed by the assertion [$], without the [m]
    flag: the ways [re] matches are tried in their order, and the first
    that has read the input to its end is the match. *)
Definition atEnd (y : RegExp.State) : bool :=
  match RegExp.rest y with
  | [] => true
  | _ :: _ => false
  end.

Definition matchToEnd (re : RegExp.t) (s : jsstring) : bool :=
  existsb atEnd
    (RegExp.run (RegExp.ignoreCase re) (RegExp.pattern re)
                (RegExp.mkState 0 s (repeat None (S (RegExp.ngroups re))))).

(** Where the leftmost match of [re] followed by [$] starts. *)
Fixpoint searchToEnd (re : RegExp.t) (s : jsstring) (i : nat) : option nat :=
  if matchToEnd re s then Some i
  else
    match s with
    | [] => None
    | _ :: s' => searchToEnd re s' (S i)
    end.

(** [s.replace(/re$/, rep)]: the match runs to the end of [s]. *)
Definition replaceToEnd (re : RegExp.t) (rep s : jsstring) : jsstring :=
  match searchToEnd re s 0 with
  | Some i => firstn i s ++ rep
  | None => s
  end.

(** [/SELECT.*FROM/], and [/ORDER BY.*$/] and [/LIMIT.*$/] without
    their final [$] *)
Definition selectFromPattern : RegExp.t := Eval vm_compute in
  RegExp.make "SELECT.*FROM" "".
Definition orderByPattern : RegExp.t := Eval vm_compute in
  RegExp.make "ORDER BY.*" "".
Definition limitPattern : RegExp.t := Eval vm_compute in
  RegExp.make "LIMIT.*" "".

(** The statement that counts the matches, made from the text of the
    search statement. *)
Definition countQuery (query : jsstring) : jsstring :=
  let countQuery := replace selectFromPattern (lit "SELECT COUNT(*) FROM") query in
  let countQuery := replaceToEnd orderByPattern [] countQuery in
  let countQuery := replaceToEnd limitPattern [] countQuery in
  countQuery.

(** [queryParams.slice(0, -2)] *)
Definition countParams (queryParams : list param) : list param :=
  firstn (List.length queryParams - 2) queryParams.

(** The requests that differ only in the values of their filters build
    the same text: [skeleton q] sets the filters [q] sets, each to the
    same one-letter value. *)
Definition skeletonOf (x : option jsstring) : option jsstring :=
  match x with
  | Some (_ :: _) => Some (lit "x")
  | _ => None
  end.

Definition skeletonOfPermit (x : option jsstring) : option jsstring :=
  match x with
  | Some w =>
      if str_eqb w (lit "pr_required") then Some (lit "pr_required")
      else if str_eqb w (lit "visa_available") then Some (lit "visa_available")
      else None
  | None => None
  end.

Definition skeleton (q : Query) : Query :=
  mkQuery (skeletonOf (q_search q)) (skeletonOf (q_techStack q))
          (skeletonOf (q_minExperience q)) (skeletonOf (q_maxExperience q))
          (skeletonOf (q_minSalary q)) (skeletonOf (q_maxSalary q))
          (skeletonOf (q_district q)) (skeletonOf (q_languages q))
          (skeletonOf (q_industry q)) (skeletonOfPermit (q_workPermit q))
          (skeletonOf (q_benefits q)).

Definition setOrNot : list (option jsstring) := [None; Some (lit "x")].

Definition permits : list (option jsstring) :=
  [None; Some (lit "pr_required"); Some (lit "visa_available")].

Definition skeletons : list Query :=
  flat_map (fun search =>
  flat_map (fun techStack =>
  flat_map (fun minExperience =>
  flat_map (fun maxExperience =>
  flat_map (fun minSalary =>
  flat_map (fun maxSalary =>
  flat_map (fun district =>
  flat_map (fun languages =>
  flat_map (fun industry =>
  flat_map (fun workPermit =>
  List.map (fun benefits =>
    mkQuery search techStack minExperience maxExperience minSalary maxSalary
            district languages industry workPermit benefits)
    setOrNot) permits) setOrNot) setOrNot) setOrNot) setOrNot) setOrNot)
    setOrNot) setOrNot) setOrNot) setOrNot.

(** The text of a statement and the number of its next placeholder. *)
Definition shape (b : statement) : jsstring * nat := (text b, counter b).

(** Whether the statement that counts the matches of [q] is the search
    statement cut at its [ORDER BY], and asks for no [COUNT]. *)
Definition countKeepsSelectList (q : Query) : bool :=
  let counting := countQuery (text (buildQuery q None None)) in
  str_eqb counting (text (buildFilters q) ++ lit " ")
  && negb (includes counting (lit "COUNT"))
  && startsWith counting selectFromWhere.

(** ** The clauses and their placeholders *)

(** Whether the placeholder of a clause is bound, and to a value of the
    kind the clause compares its column with. *)
Definition bound (params : list param) (c : clause) : bool :=
  match c with
  | SearchILike p | TextEq _ p =>
      match placeholder params p with
      | Some (PText _) => true
      | _ => false
      end
  | Overlaps _ p =>
      match placeholder params p with
      | Some (PArray _) => true
      | _ => false
      end
  | IntGe _ p | IntLe _ p =>
      match placeholder params p with
      | Some (PNumber _) => true
      | _ => false
      end
  | IsTrue _ => true
  end.

(** The builder keeps every placeholder bound. *)
Definition wellBound (b : builder) : Prop :=
  paramCounter b = S (List.length (queryParams b))
  /\ forallb (bound (queryParams b)) (query b) = true.

(** ** The scraping flag

    The entries of the Redis store the server uses: a value and the
    lifetime in seconds it was stored with.  Expiry is the store's own
    doing and happens between the commands, not in them. *)

Definition Redis := jsstring -> option (jsstring * Z).

Definition get (st : Redis) (key : jsstring) : option jsstring :=
  option_map fst (st key).

Definition setex (key : jsstring) (seconds : Z) (value : jsstring) (st : Redis)
  : Redis :=
  fun k => if str_eqb k key then Some (value, seconds) else st k.

Definition del (key : jsstring) (st : Redis) : Redis :=
  fun k => if str_eqb k key then None else st k.

Definition empty : Redis := fun _ => None.

(** [if (x)] on what [redis.get] answers: a string that is not empty *)
Definition truthy (x : option jsstring) : bool :=
  match x with
  | Some (_ :: _) => true
  | _ => false
  end.

Definition running : jsstring := lit "jobsdb:scraping:running".
Definition last_run : jsstring := lit "jobsdb:scraping:last_run".
Definition last_count : jsstring := lit "jobsdb:scraping:last_count".
Definition stats : jsstring := lit "jobsdb:stats:hk".

(** The calls a handler makes to the scraper and to the notifier. *)
Inductive call (Job : Type) :=
| Batch (keywords : list jsstring)
| Save (jobs : list Job)
| Notify (jobCount : nat).

(** What a handler leaves: the response the client receives if there
    is one (its status and its message), the store, the calls made in
    their order, and whether an error was logged. *)
Record Outcome (Job : Type) := mkOutcome {
  response : option (nat * jsstring);
  redis : Redis;
  calls : list (call Job);
  failed : bool
}.

Section Scraping.
Variable Job : Type.

(** [processJobsDBBatch] and [saveToDatabase] return or throw. *)
Variable processJobsDBBatch : list jsstring -> completion (list Job).
Variable saveToDatabase : list Job -> completion unit.

(** [POST /api/jobs/hk/scrape] with the [keywords] of the body.  The
    response is sent before the scraping starts; the response of the
    outer [catch] comes after it and does not reach the client. *)
Definition scrape (keywords : option (list jsstring)) (st : Redis) : Outcome Job :=
  let keywords :=
    match keywords with
    | Some k => k
    | None => [lit "software engineer"]
    end in
  if truthy (get st running)
  then mkOutcome (Some (409, lit "Scraping already in progress")) st [] false
  else
    let st := setex running 3600 (lit "true") st in
    let started := Some (200, lit "Scraping started") in
    match processJobsDBBatch keywords with
    | Normal jobs =>
        match saveToDatabase jobs with
        | Normal _ =>
            let st := del stats st in
            mkOutcome started (del running st)
                      [Batch Job keywords; Save jobs; Notify Job (List.length jobs)]
                      false
        | Throw =>
            mkOutcome started (del running st) [Batch Job keywords; Save jobs] true
        end
    | Throw => mkOutcome started (del running st) [Batch Job keywords] true
    end.

Definition scheduleKeywords : list jsstring := List.map lit
  [ "software engineer"; "frontend developer"; "backend developer";
    "full stack developer"; "mobile developer"; "devops engineer";
    "data scientist"; "data analyst"; "machine learning engineer";
    "cloud architect"; "solution architect"; "technical lead";
    "quantitative developer"; "algo developer"; "trading systems";
    "fintech developer"; "blockchain developer";
    "project manager"; "product manager"; "business analyst";
    "UI UX designer"; "QA engineer"; "security engineer";
    "network engineer"; "system administrator"; "DBA" ]%string.

(** The scheduled scraping, every six hours; [isoNow] is
    [new Date().toISOString()] when the jobs have been saved.  The
    [finally] of the handler runs on every way out of its [try], the
    early [return] included. *)
Definition scheduledScrape (isoNow : jsstring) (st : Redis) : Outcome Job :=
  if truthy (get st running)
  then mkOutcome None (del running st) [] false
  else
    let st := setex running 3600 (lit "true") st in
    match processJobsDBBatch scheduleKeywords with
    | Normal jobs =>
        match saveToDatabase jobs with
        | Normal _ =>
            let st := setex last_run 86400 isoNow st in
            let st := setex last_count 86400
                        (numberToString (Int (Z.of_nat (List.length jobs)))) st in
            let st := del stats st in
            mkOutcome None (del running st)
                      [Batch Job scheduleKeywords; Save jobs] false
        | Throw =>
            mkOutcome None (del running st) [Batch Job scheduleKeywords; Save jobs] true
        end
    | Throw => mkOutcome None (del running st) [Batch Job scheduleKeywords] true
    end.

End Scraping.

(** [GET /api/jobs/hk/scrape/status]: [running], the text [lastRun] is
    made a date from, and [lastJobCount]. *)
Record Status := mkStatus {
  s_running : bool;
  s_lastRun : option jsstring;
  s_lastJobCount : option number
}.

Definition scrapeStatus (st : Redis) : Status :=
  let isRunning := get st running in
  let lastRun := get st last_run in
  let lastCount := get st last_count in
  mkStatus (truthy isRunning)
           (if truthy lastRun then lastRun else None)
           (if truthy lastCount then option_map parseInt lastCount else None).

(** ** [authenticateApiKey]

    The header [x-api-key] of the request and the variable [API_KEY]
    of the environment are each a string or missing. *)
Inductive verdict := Next | Unauthorized.

Definition authenticateApiKey (apiKey API_KEY : option jsstring) : verdict :=
  let differs :=
    match apiKey, API_KEY with
    | Some a, Some b => negb (str_eqb a b)
    | None, None => false
    | _, _ => true
    end in
  if negb (truthy apiKey) || differs then Unauthorized else Next.

End Server.


(* ===================================================================== *)
(** * Facts about the run time                                            *)
(* ===================================================================== *)

Unset Implicit Arguments.

Module JSFacts.
Import JS.

Lemma str_eqb_eq (a b : jsstring) : str_eqb a b = true <-> a = b.
Proof.
  unfold str_eqb. destruct (list_eq_dec N.eq_dec a b); split; congruence.
Qed.

Lemma str_eqb_refl (a : jsstring) : str_eqb a a = true.
Proof. apply str_eqb_eq. reflexivity. Qed.

Lemma startsWith_app (w t : jsstring) : startsWith (w ++ t) w = true.
Proof.
  induction w as [|x w IH]; simpl.
  - reflexivity.
  - rewrite N.eqb_refl. exact IH.
Qed.

Lemma startsWith_inv (w s : jsstring) :
  startsWith s w = true -> exists t, s = w ++ t.
Proof.
  revert s. induction w as [|y w IH]; intros s H.
  - exists s. reflexivity.
  - destruct s as [|x s]; simpl in H; [discriminate|].
    apply andb_true_iff in H. destruct H as [Hxy H].
    apply N.eqb_eq in Hxy. subst y.
    destruct (IH _ H) as [t ->]. exists t. reflexivity.
Qed.

Lemma includes_here (s w : jsstring) :
  startsWith s w = true -> includes s w = true.
Proof. intros H. destruct s; simpl in *; rewrite H; reflexivity. Qed.

Lemma includes_app (a w b : jsstring) : includes (a ++ w ++ b) w = true.
Proof.
  induction a as [|x a IH].
  - apply includes_here. apply (startsWith_app w b).
  - simpl. rewrite IH. apply orb_true_r.
Qed.

Lemma includes_inv (s w : jsstring) :
  includes s w = true -> exists a b, s = a ++ w ++ b.
Proof.
  induction s as [|x s IH]; simpl; intros H.
  - rewrite orb_false_r in H. destruct (startsWith_inv _ _ H) as [t Ht].
    exists [], t. exact Ht.
  - apply orb_true_iff in H. destruct H as [H|H].
    + destruct (startsWith_inv _ _ H) as [t Ht]. exists [], t. exact Ht.
    + destruct (IH H) as (a & b & ->). exists (x :: a), b. reflexivity.
Qed.

Lemma includes_prefix (s w v : jsstring) :
  includes s (w ++ v) = true -> includes s w = true.
Proof.
  intros H. destruct (includes_inv _ _ H) as (a & b & ->).
  rewrite <- app_assoc. apply includes_app.
Qed.

Lemma toLowerCase_app (a b : jsstring) :
  toLowerCase (a ++ b) = toLowerCase a ++ toLowerCase b.
Proof. unfold toLowerCase. apply flat_map_app. Qed.

(** ** Decimal digits *)

Lemma isDigit_range (c : N) : isDigit c = true <-> (48 <= c <= 57)%N.
Proof.
  unfold isDigit. rewrite andb_true_iff, !N.leb_le. reflexivity.
Qed.

Lemma digitValue_digit (c : N) :
  isDigit c = true -> exists d, digitValue c = Some d /\ (0 <= d < 10)%Z.
Proof.
  intros H. unfold digitValue. rewrite H.
  apply isDigit_range in H. exists (Z.of_N c - 48)%Z. split; [reflexivity|lia].
Qed.

Lemma parseDigits_digits (ds : jsstring) :
  forallb isDigit ds = true ->
  forall acc seen, (0 <= acc)%Z -> seen = true \/ ds <> [] ->
  exists v, parseDigits 10 ds acc seen = Some v /\ (0 <= v)%Z.
Proof.
  induction ds as [|c ds IH]; intros Hall acc seen Hacc Hne.
  - destruct Hne as [->|Hne]; [|congruence]. exists acc. split; [reflexivity|assumption].
  - simpl in Hall. apply andb_true_iff in Hall. destruct Hall as [Hc Hds].
    destruct (digitValue_digit _ Hc) as (d & Hd & Hr).
    simpl. rewrite Hd.
    replace (d <? 10)%Z with true by (symmetry; apply Z.ltb_lt; lia).
    apply IH; [assumption|lia|left; reflexivity].
Qed.

(** [parseInt] of a text that starts with a digit and is made of digits. *)
Lemma parseInt_digits_value (x : N) (ds : jsstring) :
  isDigit x = true -> forallb isDigit ds = true ->
  parseInt (x :: ds) = match parseDigits 10 (x :: ds) 0 false with
                       | Some v => Int v
                       | None => NaN
                       end.
Proof.
  intros Hx Hds.
  assert (Hr := proj1 (isDigit_range x) Hx).
  assert (Hws : isWhiteSpace x = false).
  { unfold isWhiteSpace.
    repeat match goal with
           | |- context [(?a <=? ?b)%N] =>
               let H := fresh in
               destruct (N.leb_spec a b) as [H|H]; simpl
           | |- context [(?a =? ?b)%N] =>
               let H := fresh in
               destruct (N.eqb_spec a b) as [H|H]; simpl
           end; try reflexivity; lia. }
  assert (Htrim : trimStart (x :: ds) = x :: ds) by (simpl; rewrite Hws; reflexivity).
  assert (Hsign : stripSign (x :: ds) = (1%Z, x :: ds)).
  { unfold stripSign.
    replace (x =? 45)%N with false by (symmetry; apply N.eqb_neq; lia).
    replace (x =? 43)%N with false by (symmetry; apply N.eqb_neq; lia).
    reflexivity. }
  assert (Hpre : stripPrefix (x :: ds) = (10%Z, x :: ds)).
  { unfold stripPrefix. destruct ds as [|c2 r]; [reflexivity|].
    simpl in Hds. apply andb_true_iff in Hds. destruct Hds as [Hc2 _].
    apply isDigit_range in Hc2.
    replace (c2 =? 120)%N with false by (symmetry; apply N.eqb_neq; lia).
    replace (c2 =? 88)%N with false by (symmetry; apply N.eqb_neq; lia).
    rewrite andb_false_r. reflexivity. }
  unfold parseInt. rewrite Htrim, Hsign. cbn [snd fst].
  rewrite Hpre. cbn [snd fst].
  destruct (parseDigits 10 (x :: ds) 0 false) as [v|]; [|reflexivity].
  f_equal. destruct v; reflexivity.
Qed.

Lemma parseInt_digits (x : N) (ds : jsstring) :
  isDigit x = true -> forallb isDigit ds = true ->
  exists v, parseInt (x :: ds) = Int v /\ (0 <= v)%Z.
Proof.
  intros Hx Hds. rewrite (parseInt_digits_value x ds Hx Hds).
  assert (Hall : forallb isDigit (x :: ds) = true)
    by (simpl; rewrite Hx, Hds; reflexivity).
  destruct (parseDigits_digits _ Hall 0%Z false) as (v & Hv & Hv0);
    [lia|right; discriminate|].
  rewrite Hv. exists v. split; [reflexivity|assumption].
Qed.

Lemma digitsOfPos_digits (fuel : nat) :
  forall n acc, (0 <= n)%Z -> forallb isDigit acc = true ->
  forallb isDigit (digitsOfPos fuel n acc) = true.
Proof.
  induction fuel as [|f IH]; intros n acc Hn Hacc; simpl.
  - exact Hacc.
  - assert (Hd : isDigit (Z.to_N (n mod 10) + 48) = true).
    { apply isDigit_range.
      assert (0 <= n mod 10 < 10)%Z by (apply Z.mod_pos_bound; lia). lia. }
    destruct (n <? 10)%Z.
    + simpl. rewrite Hd. exact Hacc.
    + apply IH.
      * apply Z.div_pos; lia.
      * simpl. rewrite Hd. exact Hacc.
Qed.

Lemma digitsOfPos_nonempty (fuel : nat) (n : Z) (acc : jsstring) :
  digitsOfPos (S fuel) n acc <> [].
Proof.
  revert n acc. induction fuel as [|f IH]; intros n acc.
  - simpl. destruct (n <? 10)%Z; discriminate.
  - change (digitsOfPos (S (S f)) n acc)
      with (let acc' := (Z.to_N (n mod 10) + 48)%N :: acc in
            if (n <? 10)%Z then acc' else digitsOfPos (S f) (n / 10) acc').
    cbv zeta. destruct (n <? 10)%Z; [discriminate|apply IH].
Qed.

(** [parseInt] reads back the number [toString] printed: the fuel of
    [digitsOfPos] is enough. *)
Lemma parseDigits_digitsOfPos (fuel : nat) :
  forall n acc seen, (0 <= n < 10 ^ Z.of_nat (S fuel))%Z ->
  parseDigits 10 (digitsOfPos (S fuel) n acc) 0 seen = parseDigits 10 acc n true.
Proof.
  assert (Hstep : forall n acc a seen, (0 <= n)%Z ->
            parseDigits 10 ((Z.to_N (n mod 10) + 48)%N :: acc) a seen
            = parseDigits 10 acc (a * 10 + n mod 10)%Z true).
  { intros n acc a seen Hn.
    assert (0 <= n mod 10 < 10)%Z by (apply Z.mod_pos_bound; lia).
    simpl. unfold digitValue.
    replace (isDigit (Z.to_N (n mod 10) + 48)) with true
      by (symmetry; apply isDigit_range; lia).
    replace (Z.of_N (Z.to_N (n mod 10) + 48) - 48)%Z with (n mod 10)%Z by lia.
    replace (n mod 10 <? 10)%Z with true by (symmetry; apply Z.ltb_lt; lia).
    reflexivity. }
  induction fuel as [|f IH]; intros n acc seen Hn.
  - change (digitsOfPos 1 n acc)
      with (if (n <? 10)%Z then (Z.to_N (n mod 10) + 48)%N :: acc
            else (Z.to_N (n mod 10) + 48)%N :: acc).
    assert (Hlt : (n < 10)%Z) by (change (10 ^ Z.of_nat 1)%Z with 10%Z in Hn; lia).
    destruct (n <? 10)%Z; rewrite Hstep by lia; f_equal;
      rewrite Z.mod_small by lia; lia.
  - change (digitsOfPos (S (S f)) n acc)
      with (if (n <? 10)%Z then (Z.to_N (n mod 10) + 48)%N :: acc
            else digitsOfPos (S f) (n / 10) ((Z.to_N (n mod 10) + 48)%N :: acc)).
    destruct (n <? 10)%Z eqn:E.
    + apply Z.ltb_lt in E. rewrite Hstep by lia. f_equal.
      rewrite Z.mod_small by lia. lia.
    + apply Z.ltb_ge in E. rewrite IH.
      * rewrite Hstep by lia. f_equal.
        pose proof (Z.div_mod n 10 ltac:(lia)). lia.
      * split; [apply Z.div_pos; lia|].
        apply Z.div_lt_upper_bound; [lia|].
        rewrite (Nat2Z.inj_succ (S f)), Z.pow_succ_r in Hn by lia. lia.
Qed.

Lemma parseInt_numberToString_eq (z : Z) :
  (0 <= z)%Z -> parseInt (numberToString (Int z)) = Int z.
Proof.
  intros Hz. unfold numberToString.
  replace (z <? 0)%Z with false by (symmetry; apply Z.ltb_ge; lia).
  rewrite Nat.add_1_r. set (fuel := Z.to_nat (Z.log2 z)).
  assert (Hd := digitsOfPos_digits (S fuel) z [] Hz eq_refl).
  assert (Hn : digitsOfPos (S fuel) z [] <> []) by apply digitsOfPos_nonempty.
  assert (Hfuel : (0 <= z < 10 ^ Z.of_nat (S fuel))%Z).
  { split; [assumption|]. unfold fuel.
    rewrite Nat2Z.inj_succ, Z2Nat.id by apply Z.log2_nonneg.
    destruct (Z.eq_dec z 0) as [->|Hz0]; [simpl; lia|].
    pose proof (Z.log2_spec z ltac:(lia)) as [_ Hup].
    apply Z.lt_le_trans with (2 ^ Z.succ (Z.log2 z))%Z; [exact Hup|].
    apply Z.pow_le_mono_l. lia. }
  assert (Hval := parseDigits_digitsOfPos fuel z [] false Hfuel).
  destruct (digitsOfPos (S fuel) z []) as [|x ds]; [congruence|].
  simpl in Hd. apply andb_true_iff in Hd. destruct Hd as [Hx Hds].
  rewrite (parseInt_digits_value x ds Hx Hds), Hval. reflexivity.
Qed.


(** ** [[...new Set(a)]] *)

Lemma dedup_acc_In (a seen : list jsstring) (x : jsstring) :
  In x (dedup_acc seen a) -> In x a /\ ~ In x seen.
Proof.
  revert seen. induction a as [|y a IH]; intros seen H; simpl in *.
  - contradiction.
  - destruct (existsb (str_eqb y) seen) eqn:E.
    + destruct (IH _ H). split; [right|]; assumption.
    + destruct H as [<-|H].
      * split; [left; reflexivity|].
        intros Hin. rewrite <- not_true_iff_false in E. apply E.
        apply existsb_exists. exists y. split; [assumption|apply str_eqb_refl].
      * destruct (IH _ H) as [Hin Hnot]. split; [right; assumption|].
        intros Hs. apply Hnot. right. assumption.
Qed.

Lemma dedup_acc_NoDup (a seen : list jsstring) : NoDup (dedup_acc seen a).
Proof.
  revert seen. induction a as [|y a IH]; intros seen; simpl.
  - constructor.
  - destruct (existsb (str_eqb y) seen); [apply IH|].
    constructor; [|apply IH].
    intros H. apply dedup_acc_In in H. destruct H as [_ H]. apply H. left. reflexivity.
Qed.

Lemma dedup_acc_keeps (a seen : list jsstring) (x : jsstring) :
  In x a -> ~ In x seen -> In x (dedup_acc seen a).
Proof.
  revert seen. induction a as [|y a IH]; intros seen Hin Hnot; simpl in *.
  - contradiction.
  - destruct (existsb (str_eqb y) seen) eqn:E.
    + apply existsb_exists in E. destruct E as (z & Hz & Hyz).
      apply str_eqb_eq in Hyz. subst z.
      destruct Hin as [->|Hin]; [contradiction|]. apply IH; assumption.
    + destruct (list_eq_dec N.eq_dec y x) as [->|Hne]; [left; reflexivity|].
      right. destruct Hin as [Hyx|Hin]; [congruence|].
      apply IH; [assumption|]. intros [H|H]; [congruence|contradiction].
Qed.

Lemma setToArray_In (a : list jsstring) (x : jsstring) :
  In x (setToArray a) <-> In x a.
Proof.
  unfold setToArray. split.
  - intros H. apply dedup_acc_In in H. tauto.
  - intros H. apply dedup_acc_keeps; [assumption|intros []].
Qed.

End JSFacts.

(* ===================================================================== *)
(** * Facts about the matcher                                             *)
(* ===================================================================== *)

Module RegExpFacts.
Import JS RegExp RegExpAnalysis.

Lemma reads_refl (x : State) : reads x x [].
Proof. split; [reflexivity|simpl; lia]. Qed.

Lemma reads_trans (x y z : State) (w1 w2 : jsstring) :
  reads x y w1 -> reads y z w2 -> reads x z (w1 ++ w2).
Proof.
  intros [H1 H1'] [H2 H2']. split.
  - rewrite H1, H2. apply app_assoc.
  - rewrite H2', H1', length_app. lia.
Qed.

Lemma reads_between (x y : State) (w : jsstring) : reads x y w -> between x y = w.
Proof.
  intros [H1 H2]. unfold between. rewrite H1, H2.
  replace (endIndex x + List.length w - endIndex x) with (List.length w) by lia.
  rewrite firstn_app, firstn_all, Nat.sub_diag. simpl. apply app_nil_r.
Qed.

Lemma readChar_inv (ok : N -> bool) (x y : State) :
  In y (readChar ok x) ->
  exists c, ok c = true /\ rest x = c :: rest y
            /\ endIndex y = S (endIndex x) /\ caps y = caps x.
Proof.
  unfold readChar. destruct (rest x) as [|c s']; [intros []|].
  destruct (ok c) eqn:E; [|intros []]. intros [<-|[]].
  exists c. repeat split. exact E.
Qed.

(** ** Captures *)

Lemma getCapture_nil (n : nat) : getCapture n [] = None.
Proof. destruct n; reflexivity. Qed.

Lemma getCapture_set_same (n : nat) (v : option jsstring) :
  forall c, getCapture n (setCapture n v c) = v.
Proof.
  induction n as [|n IH]; intros [|x c]; simpl; try reflexivity; apply IH.
Qed.

Lemma getCapture_set_other (m : nat) (v : option jsstring) :
  forall n c, n <> m -> getCapture n (setCapture m v c) = getCapture n c.
Proof.
  unfold getCapture.
  induction m as [|m IH]; intros n c H; destruct n as [|n]; destruct c as [|x c];
    simpl; try congruence.
  - destruct n; reflexivity.
  - rewrite IH by congruence. destruct n; reflexivity.
  - apply IH. congruence.
Qed.

Lemma getCapture_clear (n : nat) (gs : list nat) (c : captures) :
  ~ In n gs -> getCapture n (clearCaptures gs c) = getCapture n c.
Proof.
  induction gs as [|g gs IH]; intros H; simpl.
  - reflexivity.
  - rewrite getCapture_set_other by (intros ->; apply H; left; reflexivity).
    apply IH. intros Hin. apply H. right. exact Hin.
Qed.

(** ** The repeat matcher, for any step *)

Section Repeat.
Variable step : State -> list State.
Variable inner : list nat.

Local Abbreviation go := (repeatMatcher step inner).
Local Abbreviation cleared x :=
  (mkState (endIndex x) (rest x) (clearCaptures inner (caps x))).

Lemma repeat_inv (fuel min : nat) (max : option nat) (x y : State) :
  In y (go fuel min max x) ->
  exists f, fuel = S f /\
    ((y = x /\ (max = Some 0 \/ min = 0))
     \/ (max <> Some 0 /\
         exists y1, In y1 (step (cleared x)) /\
                    abandoned min x y1 = false /\
                    In y (go f (pred min) (option_map pred max) y1))).
Proof.
  destruct fuel as [|f]; [intros []|]. intros H. exists f. split; [reflexivity|].
  simpl in H.
  assert (Hagain :
    In y (flat_map
            (fun y0 : State =>
               if (min =? 0) && (endIndex y0 =? endIndex x) then []
               else repeatMatcher step inner f (pred min) (option_map pred max) y0)
            (step (cleared x))) ->
    exists y1, In y1 (step (cleared x)) /\
               abandoned min x y1 = false /\
               In y (go f (pred min) (option_map pred max) y1)).
  { intros Hin. apply in_flat_map in Hin. destruct Hin as (y1 & Hy1 & Hy).
    exists y1. split; [assumption|]. unfold abandoned.
    destruct ((min =? 0) && (endIndex y1 =? endIndex x)); [destruct Hy|].
    split; [reflexivity|exact Hy]. }
  destruct max as [[|m]|].
  - left. destruct H as [<-|[]]. split; [reflexivity|left; reflexivity].
  - destruct (min =? 0) eqn:E.
    + apply in_app_or in H. destruct H as [H|[<-|[]]].
      * right. split; [discriminate|]. apply Hagain, H.
      * left. split; [reflexivity|right; apply Nat.eqb_eq, E].
    + right. split; [discriminate|]. apply Hagain, H.
  - destruct (min =? 0) eqn:E.
    + apply in_app_or in H. destruct H as [H|[<-|[]]].
      * right. split; [discriminate|]. apply Hagain, H.
      * left. split; [reflexivity|right; apply Nat.eqb_eq, E].
    + right. split; [discriminate|]. apply Hagain, H.
Qed.

Lemma repeat_stop (f min : nat) (max : option nat) (x : State) :
  max = Some 0 \/ min = 0 -> In x (go (S f) min max x).
Proof.
  intros H. simpl.
  destruct max as [[|m]|]; try (left; reflexivity);
    (destruct H as [H| ->]; [discriminate|]; simpl;
     apply in_or_app; right; left; reflexivity).
Qed.

Lemma repeat_iter (f min : nat) (max : option nat) (x y1 y : State) :
  max <> Some 0 ->
  In y1 (step (cleared x)) ->
  abandoned min x y1 = false ->
  In y (go f (pred min) (option_map pred max) y1) ->
  In y (go (S f) min max x).
Proof.
  intros Hmax Hy1 Hab Hy. simpl.
  assert (Hin :
    In y (flat_map
            (fun y0 : State =>
               if (min =? 0) && (endIndex y0 =? endIndex x) then []
               else repeatMatcher step inner f (pred min) (option_map pred max) y0)
            (step (cleared x)))).
  { apply in_flat_map. exists y1. split; [assumption|].
    unfold abandoned in Hab. rewrite Hab. exact Hy. }
  destruct max as [[|m]|]; [congruence| |];
    (destruct (min =? 0); [apply in_or_app; left|]; exact Hin).
Qed.

(** What one step guarantees of the text it reads carries over to any
    number of steps. *)
Lemma repeat_consumes (P : N -> Prop) :
  (forall x y, In y (step x) -> exists w, reads x y w /\ Forall P w) ->
  forall fuel min max x y, In y (go fuel min max x) ->
  exists w, reads x y w /\ Forall P w.
Proof.
  intros Hstep. induction fuel as [|f IH]; intros min max x y H;
    apply repeat_inv in H; destruct H as (f' & Hf & H); [discriminate|].
  injection Hf as <-.
  destruct H as [[-> _]|(_ & y1 & Hy1 & _ & Hy)].
  - exists []. split; [apply reads_refl|constructor].
  - destruct (Hstep _ _ Hy1) as (w1 & Hs1 & Hw1).
    destruct (IH _ _ _ _ Hy) as (w2 & Hs2 & Hw2).
    exists (w1 ++ w2). split.
    + apply (reads_trans x y1 y w1 w2); [exact Hs1|exact Hs2].
    + apply Forall_app. split; assumption.
Qed.

Lemma repeat_first (P : N -> Prop) :
  (forall x y, In y (step x) -> exists w, reads x y w) ->
  (forall x y, In y (step x) -> exists c w, reads x y (c :: w) /\ P c) ->
  forall fuel min max x y, 1 <= min -> max <> Some 0 ->
  In y (go fuel min max x) ->
  exists c w, reads x y (c :: w) /\ P c.
Proof.
  intros Hsuf Hstep fuel min max x y Hmin Hmax H.
  apply repeat_inv in H. destruct H as (f & -> & H).
  destruct H as [[_ [H|H]]|(_ & y1 & Hy1 & _ & Hy)]; [congruence|lia|].
  destruct (Hstep _ _ Hy1) as (c & w1 & Hs1 & Hc).
  destruct (repeat_consumes (fun _ => True)) with (fuel := f)
    (min := pred min) (max := option_map pred max) (x := y1) (y := y)
    as (w2 & Hs2 & _).
  - intros x0 y0 H0. destruct (Hsuf _ _ H0) as (w & Hw).
    exists w. split; [assumption|]. apply Forall_forall. intros; exact I.
  - exact Hy.
  - exists c, (w1 ++ w2). split; [|assumption].
    apply (reads_trans x y1 y (c :: w1) w2); [exact Hs1|exact Hs2].
Qed.

Lemma repeat_preserves (n : nat) :
  ~ In n inner ->
  (forall x y, In y (step x) -> getCapture n (caps y) = getCapture n (caps x)) ->
  forall fuel min max x y, In y (go fuel min max x) ->
  getCapture n (caps y) = getCapture n (caps x).
Proof.
  intros Hn Hstep. induction fuel as [|f IH]; intros min max x y H;
    apply repeat_inv in H; destruct H as (f' & Hf & H); [discriminate|].
  injection Hf as <-.
  destruct H as [[-> _]|(_ & y1 & Hy1 & _ & Hy)].
  - reflexivity.
  - rewrite (IH _ _ _ _ Hy), (Hstep _ _ Hy1). apply getCapture_clear, Hn.
Qed.

(** A match is still there when text is appended to the input,
    whatever the captures at the start. *)
Lemma repeat_frame :
  (forall x y t c2, In y (step x) ->
     exists c2', In (mkState (endIndex y) (rest y ++ t) c2')
                    (step (mkState (endIndex x) (rest x ++ t) c2))) ->
  forall fuel fuel' min max x y t c2, fuel <= fuel' ->
  In y (go fuel min max x) ->
  exists c2', In (mkState (endIndex y) (rest y ++ t) c2')
                 (go fuel' min max (mkState (endIndex x) (rest x ++ t) c2)).
Proof.
  intros Hstep. induction fuel as [|f IH];
    intros fuel' min max x y t c2 Hle H;
    apply repeat_inv in H; destruct H as (f0 & Hf & H); [discriminate|].
  injection Hf as <-.
  destruct fuel' as [|f']; [lia|].
  destruct H as [[-> Hstop]|(Hmax & y1 & Hy1 & Hab & Hy)].
  - exists c2. apply repeat_stop. exact Hstop.
  - destruct (Hstep _ _ t (clearCaptures inner c2) Hy1) as (c1' & Hy1').
    destruct (IH f' _ _ _ _ t c1' ltac:(lia) Hy) as (c2' & Hy').
    exists c2'.
    apply repeat_iter with (y1 := mkState (endIndex y1) (rest y1 ++ t) c1');
      assumption.
Qed.

(** More fuel than [min] plus the length of the input changes nothing. *)
Lemma repeat_fuel :
  (forall x y, In y (step x) -> exists w, reads x y w) ->
  forall f1 f2 min max x,
    min + List.length (rest x) < f1 -> min + List.length (rest x) < f2 ->
    go f1 min max x = go f2 min max x.
Proof.
  intros Hstep. induction f1 as [|f1 IH]; intros f2 min max x H1 H2; [lia|].
  destruct f2 as [|f2]; [lia|].
  simpl.
  assert (Heq :
    flat_map (fun y : State =>
                if (min =? 0) && (endIndex y =? endIndex x) then []
                else go f1 (pred min) (option_map pred max) y)
             (step (cleared x))
    = flat_map (fun y : State =>
                  if (min =? 0) && (endIndex y =? endIndex x) then []
                  else go f2 (pred min) (option_map pred max) y)
               (step (cleared x))).
  { rewrite !flat_map_concat_map. f_equal. apply map_ext_in.
    intros y Hy. destruct (Hstep _ _ Hy) as (w & Hw & Hi). simpl in Hw, Hi.
    destruct ((min =? 0) && (endIndex y =? endIndex x)) eqn:E; [reflexivity|].
    assert (Hlen : List.length (rest x) = List.length w + List.length (rest y))
      by (rewrite Hw, length_app; reflexivity).
    apply IH.
    - destruct min as [|min']; simpl in *; [|lia].
      apply Nat.eqb_neq in E. lia.
    - destruct min as [|min']; simpl in *; [|lia].
      apply Nat.eqb_neq in E. lia. }
  destruct max as [[|m]|]; [reflexivity| |];
    rewrite Heq; reflexivity.
Qed.

End Repeat.

(** ** What a pattern reads *)

#[local] Arguments repeatMatcher : simpl never.

Section Run.
Variable ic : bool.

Lemma allChars_True (r : regex) : allChars ic (fun _ => True) r.
Proof. induction r; simpl; auto. Qed.

Lemma run_consumes (P : N -> Prop) (r : regex) :
  allChars ic P r ->
  forall x y, In y (run ic r x) -> exists w, reads x y w /\ Forall P w.
Proof.
  assert (Hone : forall ok x y, (forall c, ok c = true -> P c) ->
            In y (readChar ok x) -> exists w, reads x y w /\ Forall P w).
  { intros ok x y Hok H. apply readChar_inv in H.
    destruct H as (c & Hc & Hr & Hi & _). exists [c]. split.
    - split; [exact Hr|simpl; lia].
    - constructor; [apply Hok, Hc|constructor]. }
  induction r as [|a| |neg items|r1 IH1 r2 IH2|r1 IH1 r2 IH2|n r1 IH1|min max r1 IH1];
    simpl; intros HP x y H.
  - destruct H as [<-|[]]. exists []. split; [apply reads_refl|constructor].
  - apply (Hone _ _ _ HP H).
  - apply (Hone (fun c => negb (isLineTerminator c)) x y); [|exact H].
    intros c Hc. apply HP. apply negb_true_iff, Hc.
  - apply (Hone _ _ _ HP H).
  - destruct HP as [HP1 HP2]. apply in_flat_map in H.
    destruct H as (y1 & Hy1 & Hy).
    destruct (IH1 HP1 _ _ Hy1) as (w1 & Hs1 & Hw1).
    destruct (IH2 HP2 _ _ Hy) as (w2 & Hs2 & Hw2).
    exists (w1 ++ w2). split.
    + apply (reads_trans x y1 y w1 w2 Hs1 Hs2).
    + apply Forall_app. split; assumption.
  - destruct HP as [HP1 HP2]. apply in_app_or in H. destruct H as [H|H].
    + apply (IH1 HP1 _ _ H).
    + apply (IH2 HP2 _ _ H).
  - apply in_map_iff in H. destruct H as (y1 & <- & Hy1).
    destruct (IH1 HP _ _ Hy1) as (w & Hw & HPw). exists w. split; [|assumption].
    exact Hw.
  - apply repeat_consumes with (P := P) in H; [exact H|].
    intros x0 y0. apply IH1, HP.
Qed.

(** The state a pattern stops in is further on in the same input. *)
Lemma run_reads (r : regex) (x y : State) :
  In y (run ic r x) -> exists w, reads x y w.
Proof.
  intros H. destruct (run_consumes _ r (allChars_True r) _ _ H) as (w & Hw & _).
  exists w. exact Hw.
Qed.

Lemma run_first (P : N -> Prop) (r : regex) :
  firstChar ic P r ->
  forall x y, In y (run ic r x) -> exists c w, reads x y (c :: w) /\ P c.
Proof.
  assert (Hone : forall ok x y, (forall c, ok c = true -> P c) ->
            In y (readChar ok x) -> exists c w, reads x y (c :: w) /\ P c).
  { intros ok x y Hok H. apply readChar_inv in H.
    destruct H as (c & Hc & Hr & Hi & _). exists c, []. split.
    - split; [exact Hr|simpl; lia].
    - apply Hok, Hc. }
  induction r as [|a| |neg items|r1 IH1 r2 IH2|r1 IH1 r2 IH2|n r1 IH1|min max r1 IH1];
    simpl; intros HP x y H.
  - destruct HP.
  - apply (Hone _ _ _ HP H).
  - apply (Hone (fun c => negb (isLineTerminator c)) x y); [|exact H].
    intros c Hc. apply HP. apply negb_true_iff, Hc.
  - apply (Hone _ _ _ HP H).
  - apply in_flat_map in H. destruct H as (y1 & Hy1 & Hy).
    destruct (IH1 HP _ _ Hy1) as (c & w1 & Hs1 & Hc).
    destruct (run_reads _ _ _ Hy) as (w2 & Hs2).
    exists c, (w1 ++ w2). split; [|assumption].
    apply (reads_trans x y1 y (c :: w1) w2 Hs1 Hs2).
  - destruct HP as [HP1 HP2]. apply in_app_or in H. destruct H as [H|H].
    + apply (IH1 HP1 _ _ H).
    + apply (IH2 HP2 _ _ H).
  - apply in_map_iff in H. destruct H as (y1 & <- & Hy1).
    destruct (IH1 HP _ _ Hy1) as (c & w & Hw & Hc). exists c, w.
    split; [exact Hw|exact Hc].
  - destruct HP as (Hmin & Hmax & HP).
    apply repeat_first with (P := P) in H; try assumption.
    + intros x0 y0. apply run_reads.
    + intros x0 y0. apply IH1, HP.
Qed.

(** The fuel of the repeat matcher is enough: more changes nothing. *)
Lemma run_repeat_fuel (min : nat) (max : option nat) (r : regex) (x : State)
    (extra : nat) :
  repeatMatcher (run ic r) (groupsOf r)
                (S (min + List.length (rest x)) + extra) min max x
  = run ic (Repeat min max r) x.
Proof.
  simpl. apply repeat_fuel; [|lia|lia].
  intros x0 y0. apply run_reads.
Qed.

(** ** What a pattern does to the captures *)

Lemma run_preserves (n : nat) (r : regex) :
  ~ In n (groupsOf r) ->
  forall x y, In y (run ic r x) -> getCapture n (caps y) = getCapture n (caps x).
Proof.
  assert (Hone : forall ok x y, In y (readChar ok x) ->
            getCapture n (caps y) = getCapture n (caps x)).
  { intros ok x y H. apply readChar_inv in H.
    destruct H as (c & _ & _ & _ & ->). reflexivity. }
  induction r as [|a| |neg items|r1 IH1 r2 IH2|r1 IH1 r2 IH2|m r1 IH1|min max r1 IH1];
    simpl; intros Hn x y H; try (apply (Hone _ _ _ H)).
  - destruct H as [<-|[]]. reflexivity.
  - apply in_flat_map in H. destruct H as (y1 & Hy1 & Hy).
    rewrite (IH2 ltac:(intros Hin; apply Hn, in_or_app; right; exact Hin) _ _ Hy).
    apply (IH1 ltac:(intros Hin; apply Hn, in_or_app; left; exact Hin) _ _ Hy1).
  - apply in_app_or in H. destruct H as [H|H].
    + apply (IH1 ltac:(intros Hin; apply Hn, in_or_app; left; exact Hin) _ _ H).
    + apply (IH2 ltac:(intros Hin; apply Hn, in_or_app; right; exact Hin) _ _ H).
  - apply in_map_iff in H. destruct H as (y1 & <- & Hy1). simpl.
    rewrite getCapture_set_other by (intros ->; apply Hn; left; reflexivity).
    apply (IH1 ltac:(intros Hin; apply Hn; right; exact Hin) _ _ Hy1).
  - apply repeat_preserves with (n := n) in H; try assumption.
    intros x0 y0. apply IH1, Hn.
Qed.

Lemma run_definite (n : nat) (b : regex) (r : regex) :
  definite n r = Some b ->
  forall x y, In y (run ic r x) ->
  exists x1 y1, In y1 (run ic b x1) /\
                getCapture n (caps y) = Some (between x1 y1).
Proof.
  induction r as [|a| |neg items|r1 IH1 r2 IH2|r1 IH1 r2 IH2|m r1 IH1|min max r1 IH1];
    simpl; intros Hd x y H; try discriminate.
  - apply in_flat_map in H. destruct H as (y1 & Hy1 & Hy).
    destruct (definite n r2) as [b2|] eqn:E2.
    + apply (IH2 Hd _ _ Hy).
    + destruct (existsb (Nat.eqb n) (groupsOf r2)) eqn:Ex; [discriminate|].
      destruct (IH1 Hd _ _ Hy1) as (x1 & y0 & Hy0 & Hcap).
      exists x1, y0. split; [assumption|]. rewrite <- Hcap.
      apply (run_preserves n r2) with (x := y1); [|exact Hy].
      intros Hin. rewrite <- not_true_iff_false in Ex. apply Ex.
      apply existsb_exists. exists n. split; [assumption|apply Nat.eqb_refl].
  - apply in_map_iff in H. destruct H as (y1 & <- & Hy1). simpl.
    destruct (m =? n) eqn:E.
    + apply Nat.eqb_eq in E. subst m. injection Hd as <-.
      exists x, y1. split; [assumption|apply getCapture_set_same].
    + destruct (IH1 Hd _ _ Hy1) as (x1 & y0 & Hy0 & Hcap).
      exists x1, y0. split; [assumption|].
      rewrite getCapture_set_other; [assumption|].
      apply Nat.eqb_neq in E. congruence.
Qed.

(** ** Appending text to the input *)

Lemma run_frame (r : regex) :
  forall x y t c2, In y (run ic r x) ->
  exists c2', In (mkState (endIndex y) (rest y ++ t) c2')
                 (run ic r (mkState (endIndex x) (rest x ++ t) c2)).
Proof.
  assert (Hone : forall ok x y t c2, In y (readChar ok x) ->
            exists c2', In (mkState (endIndex y) (rest y ++ t) c2')
                           (readChar ok (mkState (endIndex x) (rest x ++ t) c2))).
  { intros ok x y t c2 H. apply readChar_inv in H.
    destruct H as (c & Hc & Hr & Hi & _). exists c2.
    unfold readChar. simpl. rewrite Hr. simpl. rewrite Hc, Hi. left. reflexivity. }
  induction r as [|a| |neg items|r1 IH1 r2 IH2|r1 IH1 r2 IH2|m r1 IH1|min max r1 IH1];
    simpl; intros x y t c2 H; try (apply (Hone _ _ _ t c2 H)).
  - destruct H as [<-|[]]. exists c2. left. reflexivity.
  - apply in_flat_map in H. destruct H as (y1 & Hy1 & Hy).
    destruct (IH1 _ _ t c2 Hy1) as (c1' & Hy1').
    destruct (IH2 _ _ t c1' Hy) as (c2' & Hy').
    exists c2'. apply in_flat_map.
    exists (mkState (endIndex y1) (rest y1 ++ t) c1'). split; assumption.
  - apply in_app_or in H. destruct H as [H|H].
    + destruct (IH1 _ _ t c2 H) as (c' & Hc'). exists c'.
      apply in_or_app. left. exact Hc'.
    + destruct (IH2 _ _ t c2 H) as (c' & Hc'). exists c'.
      apply in_or_app. right. exact Hc'.
  - apply in_map_iff in H. destruct H as (y1 & <- & Hy1). simpl.
    destruct (IH1 _ _ t c2 Hy1) as (c' & Hc').
    eexists. apply in_map_iff.
    exists (mkState (endIndex y1) (rest y1 ++ t) c'). split; [reflexivity|assumption].
  - apply repeat_frame with (fuel := S (min + List.length (rest x))).
    + intros x0 y0 t0 c3. apply IH1.
    + simpl. rewrite length_app. lia.
    + exact H.
Qed.

End Run.

Lemma run_seq (ic : bool) (r1 r2 : regex) (x y : State) :
  In y (run ic (Seq r1 r2) x) ->
  exists y1, In y1 (run ic r1 x) /\ In y (run ic r2 y1).
Proof. simpl. intros H. apply in_flat_map in H. exact H. Qed.

Lemma run_char (ic : bool) (a : N) (x y : State) :
  In y (run ic (Char a) x) ->
  exists c, charMatches ic a c = true /\ rest x = c :: rest y
            /\ endIndex y = S (endIndex x) /\ caps y = caps x.
Proof. simpl. apply readChar_inv. Qed.

(** ** [exec] and [test] *)

Lemma matchAt_In (re : t) (s : jsstring) (y : State) :
  matchAt re s = Some y -> In y (run (ignoreCase re) (pattern re) (start re s)).
Proof.
  unfold matchAt, start.
  destruct (run (ignoreCase re) (pattern re) _); [discriminate|].
  intros H. injection H as <-. left. reflexivity.
Qed.

Lemma matchAt_frame (re : t) (w t : jsstring) :
  matchAt re w <> None -> matchAt re (w ++ t) <> None.
Proof.
  intros H. destruct (matchAt re w) as [y|] eqn:E; [|congruence].
  apply matchAt_In in E.
  destruct (run_frame _ _ _ _ t (repeat None (S (ngroups re))) E) as (c' & Hc').
  change (In (mkState (endIndex y) (rest y ++ t) c')
             (run (ignoreCase re) (pattern re)
                  (mkState 0 (w ++ t) (repeat None (S (ngroups re)))))) in Hc'.
  unfold matchAt.
  remember (run (ignoreCase re) (pattern re)
                (mkState 0 (w ++ t) (repeat None (S (ngroups re))))) as l.
  destruct l; [destruct Hc'|discriminate].
Qed.

Lemma execFrom_inv (re : t) (s : jsstring) :
  forall i m, execFrom re s i = Some m ->
  exists a b y, s = a ++ b /\ matchAt re b = Some y /\
                array m = setCapture 0 (Some (firstn (endIndex y) b)) (caps y).
Proof.
  induction s as [|x s IH]; intros i m H; simpl in H.
  - destruct (matchAt re []) as [y|] eqn:E; [|discriminate].
    injection H as <-. exists [], [], y. repeat split. exact E.
  - destruct (matchAt re (x :: s)) as [y|] eqn:E.
    + injection H as <-. exists [], (x :: s), y. repeat split. exact E.
    + destruct (IH _ _ H) as (a & b & y & -> & Hy & Ha).
      exists (x :: a), b, y. repeat split; assumption.
Qed.

Lemma execFrom_skip (re : t) (b : jsstring) :
  matchAt re b <> None -> forall a i, execFrom re (a ++ b) i <> None.
Proof.
  intros H. induction a as [|x a IH]; intros i.
  - simpl. destruct b; simpl; destruct (matchAt re _); congruence.
  - simpl. destruct (matchAt re (x :: a ++ b)); [discriminate|apply IH].
Qed.

(** Where no match starts, [exec] passes over. *)
Lemma execFrom_pass (re : t) (a b : jsstring) :
  (forall k, k < List.length a -> matchAt re (skipn k a ++ b) = None) ->
  forall i, execFrom re (a ++ b) i = execFrom re b (i + List.length a).
Proof.
  induction a as [|x a IH]; intros H i.
  - simpl. f_equal. lia.
  - simpl. assert (H0 := H 0 ltac:(simpl; lia)). simpl in H0. rewrite H0.
    rewrite IH.
    + f_equal. lia.
    + intros k Hk. apply (H (S k)). simpl. lia.
Qed.

Lemma execFrom_none (re : t) (s : jsstring) (i j : nat) :
  execFrom re s i = None -> execFrom re s j = None.
Proof.
  revert i j. induction s as [|x s IH]; intros i j; simpl;
    destruct (matchAt re _); try discriminate; try reflexivity.
  apply IH.
Qed.

Lemma test_true_inv (re : t) (s : jsstring) :
  test re s = true -> exists a b, s = a ++ b /\ matchAt re b <> None.
Proof.
  unfold test, exec. intros H.
  destruct (execFrom re s 0) as [m|] eqn:E; [|discriminate].
  destruct (execFrom_inv _ _ _ _ E) as (a & b & y & Hs & Hy & _).
  exists a, b. split; [assumption|congruence].
Qed.

(** A text that contains a text on which the pattern matches at the
    start passes [test]. *)
Lemma test_contains (re : t) (w : jsstring) :
  matchAt re w <> None -> forall a b, test re (a ++ w ++ b) = true.
Proof.
  intros H a b. unfold test, exec.
  destruct (execFrom re (a ++ w ++ b) 0) eqn:E; [reflexivity|].
  exfalso. revert E. apply execFrom_skip. apply matchAt_frame, H.
Qed.

Lemma test_includes (re : t) (w s : jsstring) :
  matchAt re w <> None -> includes s w = true -> test re s = true.
Proof.
  intros H Hin. destruct (JSFacts.includes_inv _ _ Hin) as (a & b & ->).
  apply test_contains, H.
Qed.

Lemma test_false_exec (re : t) (s : jsstring) :
  test re s = false <-> exec re s = None.
Proof. unfold test. destruct (exec re s); split; congruence. Qed.

(** A pattern whose first character has to satisfy [P] does not match
    at the start of a text that begins otherwise. *)
Lemma matchAt_first_char (re : t) (P : N -> Prop) (s : jsstring) :
  firstChar (ignoreCase re) P (pattern re) ->
  (forall c s', s = c :: s' -> ~ P c) ->
  matchAt re s = None.
Proof.
  intros Hfirst Hs. destruct (matchAt re s) as [y|] eqn:E; [|reflexivity].
  apply matchAt_In in E.
  destruct (run_first _ P _ Hfirst _ _ E) as (c & w & [Hr _] & Hc).
  simpl in Hr. exfalso. apply (Hs c (w ++ rest y)); assumption.
Qed.

Lemma execFrom_pass_chars (re : t) (P : N -> Prop) (a b : jsstring) :
  firstChar (ignoreCase re) P (pattern re) ->
  Forall (fun c => ~ P c) a ->
  forall i, execFrom re (a ++ b) i = execFrom re b (i + List.length a).
Proof.
  intros Hfirst Ha. apply execFrom_pass. intros k Hk.
  apply (matchAt_first_char re P); [exact Hfirst|].
  intros c s' Heq.
  assert (Hin : In c a).
  { destruct (skipn k a) as [|c0 rest0] eqn:E.
    - apply (f_equal (@List.length N)) in E. rewrite length_skipn in E.
      simpl in E. lia.
    - simpl in Heq. injection Heq as <- _.
      rewrite <- (firstn_skipn k a). apply in_or_app. right.
      rewrite E. left. reflexivity. }
  rewrite Forall_forall in Ha. apply Ha, Hin.
Qed.

Lemma execFrom_here (re : t) (s : jsstring) (i : nat) (y : State) :
  matchAt re s = Some y ->
  execFrom re s i
  = Some (mkMatch i (setCapture 0 (Some (firstn (endIndex y) s)) (caps y))).
Proof. intros H. destruct s; simpl; rewrite H; reflexivity. Qed.

(** ** The text of a group after [exec]

    When every match goes through group [n], whose body reads only
    characters in [P] and starts with a character in [Q], entry [n] of
    the match array is a text of that shape. *)
Lemma exec_group_text (re : t) (n : nat) (body : regex) (P Q : N -> Prop)
    (s : jsstring) (m : MatchResult) :
  definite (S n) (pattern re) = Some body ->
  allChars (ignoreCase re) P body ->
  firstChar (ignoreCase re) Q body ->
  exec re s = Some m ->
  exists x w, at_ m (S n) = Some (x :: w) /\ Q x /\ Forall P (x :: w).
Proof.
  intros Hdef HP HQ Hexec.
  destruct (execFrom_inv _ _ _ _ Hexec) as (a & b & y & _ & Hy & Harr).
  apply matchAt_In in Hy.
  destruct (run_definite _ _ _ _ Hdef _ _ Hy) as (x1 & y1 & Hy1 & Hcap).
  destruct (run_consumes _ P body HP _ _ Hy1) as (w & Hs1 & Hw).
  destruct (run_first _ Q body HQ _ _ Hy1) as (c & w' & Hs1' & Hc).
  assert (Hwx : w = c :: w').
  { apply app_inv_tail with (l := rest y1).
    rewrite <- (proj1 Hs1). exact (proj1 Hs1'). }
  exists c, w'. unfold at_. rewrite Harr.
  rewrite getCapture_set_other by discriminate.
  rewrite Hcap, (reads_between _ _ _ Hs1), Hwx. repeat split; [assumption|].
  rewrite <- Hwx. exact Hw.
Qed.


(** ** The fuel of [replace] and [split] is enough *)

Lemma matchAt_reads (re : t) (s : jsstring) (y : State) :
  matchAt re s = Some y -> exists w, s = w ++ rest y /\ endIndex y = List.length w.
Proof.
  intros H. apply matchAt_In in H.
  destruct (run_reads _ _ _ _ H) as (w & Hr & Hi). exists w. split; assumption.
Qed.

Lemma replaceGo_fuel (re : t) (rep : jsstring) :
  forall f1 f2 s, List.length s < f1 -> List.length s < f2 ->
  replaceGo re rep f1 s = replaceGo re rep f2 s.
Proof.
  induction f1 as [|f1 IH]; intros f2 s H1 H2; [lia|].
  destruct f2 as [|f2]; [lia|]. simpl.
  destruct (matchAt re s) as [y|] eqn:E.
  - destruct (endIndex y =? 0) eqn:E0.
    + destruct s as [|x s']; [reflexivity|]. simpl in *.
      do 2 f_equal. apply IH; lia.
    + destruct (matchAt_reads _ _ _ E) as (w & Hs & Hi).
      apply Nat.eqb_neq in E0.
      assert (List.length s = List.length w + List.length (rest y))
        by (rewrite Hs at 1; apply length_app).
      f_equal. apply IH; lia.
  - destruct s as [|x s']; [reflexivity|]. simpl in *. f_equal. apply IH; lia.
Qed.

Lemma splitGo_fuel (re : t) :
  forall f1 f2 piece s,
    2 * List.length s + (if List.length piece =? 0 then 0 else 1) < f1 ->
    2 * List.length s + (if List.length piece =? 0 then 0 else 1) < f2 ->
    splitGo re f1 piece s = splitGo re f2 piece s.
Proof.
  induction f1 as [|f1 IH]; intros f2 piece s H1 H2; [lia|].
  destruct f2 as [|f2]; [lia|]. simpl.
  destruct s as [|x s']; [reflexivity|]. simpl in H1, H2.
  assert (Hnext : splitGo re f1 (x :: piece) s' = splitGo re f2 (x :: piece) s').
  { apply IH; simpl; destruct (List.length piece =? 0); lia. }
  destruct (matchAt re (x :: s')) as [y|] eqn:E; [|exact Hnext].
  destruct ((endIndex y =? 0) && (List.length piece =? 0)) eqn:E0; [exact Hnext|].
  destruct (matchAt_reads _ _ _ E) as (w & Hs & Hi).
  assert (Hlen : S (List.length s') = List.length w + List.length (rest y)).
  { change (S (List.length s')) with (List.length (x :: s')).
    rewrite Hs at 1. apply length_app. }
  f_equal. apply IH; simpl.
  - apply andb_false_iff in E0. destruct E0 as [E0|E0]; apply Nat.eqb_neq in E0.
    + destruct (List.length piece =? 0); lia.
    + replace (List.length piece =? 0) with false in H1
        by (symmetry; apply Nat.eqb_neq, E0). lia.
  - apply andb_false_iff in E0. destruct E0 as [E0|E0]; apply Nat.eqb_neq in E0.
    + destruct (List.length piece =? 0); lia.
    + replace (List.length piece =? 0) with false in H2
        by (symmetry; apply Nat.eqb_neq, E0). lia.
Qed.

(** ** Removing single characters with [replace]

    For a pattern that reads exactly one character, those that
    [accept] holds of, replacing every match by the empty text keeps
    the other characters. *)
Lemma replaceAll_single (re : t) (accept : N -> bool) :
  (forall x, run (ignoreCase re) (pattern re) x = readChar accept x) ->
  forall s, replaceAll re [] s = filter (fun x => negb (accept x)) s.
Proof.
  intros Hrun.
  assert (H : forall fuel s, List.length s <= fuel ->
                replaceGo re [] fuel s = filter (fun x => negb (accept x)) s).
  { induction fuel as [|f IH]; intros s Hlen.
    - destruct s; [reflexivity|simpl in Hlen; lia].
    - destruct s as [|x s']; simpl; unfold matchAt; rewrite Hrun;
        unfold readChar; simpl.
      + reflexivity.
      + simpl in Hlen. destruct (accept x); simpl.
        * apply IH. lia.
        * f_equal. apply IH. lia. }
  intros s. apply H. unfold replaceAll. lia.
Qed.

(** ** Amounts *)

Ltac char_cases :=
  repeat match goal with
         | H : context [(?a <=? ?b)%N] |- _ => destruct (N.leb_spec a b)
         | |- context [(?a <=? ?b)%N] => destruct (N.leb_spec a b)
         | H : context [(?a =? ?b)%N] |- _ => destruct (N.eqb_spec a b)
         | |- context [(?a =? ?b)%N] => destruct (N.eqb_spec a b)
         end;
  cbn -[N.eqb N.leb N.sub N.add] in *; try congruence; try lia.

Ltac solve_chars :=
  intros;
  repeat (progress (unfold amountChar, isKOrComma, isComma, itemMatches,
                      charMatches, canonicalize, isDigit, isLowerAscii,
                      isUpperAscii in *;
                    cbn -[N.eqb N.leb N.sub N.add] in *));
  char_cases.

Lemma digit_kept (x : N) : isDigit x = true -> isKOrComma x = false.
Proof. solve_chars. Qed.


Lemma amount_kept_digit (x : N) :
  amountChar x = true -> isKOrComma x = false -> isDigit x = true.
Proof.
  unfold amountChar. intros H E.
  repeat (apply orb_true_iff in H; destruct H as [H|H]);
    [exact H|..]; apply N.eqb_eq in H; subst x; vm_compute in E; discriminate.
Qed.

Lemma replaceAll_kOrComma (s : jsstring) :
  replaceAll Frontend.kOrComma [] s = filter (fun x => negb (isKOrComma x)) s.
Proof. apply replaceAll_single; reflexivity. Qed.


Lemma filter_amount_digits (w : jsstring) :
  Forall (fun x => amountChar x = true) w ->
  forallb isDigit (filter (fun x => negb (isKOrComma x)) w) = true.
Proof.
  induction 1 as [|x w Hx Hw IH]; simpl; [reflexivity|].
  destruct (isKOrComma x) eqn:E; simpl; [exact IH|].
  rewrite (amount_kept_digit x Hx E). exact IH.
Qed.


(** The text of an amount without its [k] and commas is a digit
    followed by digits. *)
Lemma amount_stripped (x : N) (w : jsstring) :
  isDigit x = true -> Forall (fun x => amountChar x = true) (x :: w) ->
  exists ds, replaceAll Frontend.kOrComma [] (x :: w) = x :: ds
             /\ forallb isDigit ds = true.
Proof.
  intros Hx Hall. rewrite replaceAll_kOrComma. simpl.
  rewrite (digit_kept x Hx). simpl. eexists. split; [reflexivity|].
  apply filter_amount_digits. inversion Hall. assumption.
Qed.

End RegExpFacts.

(* ===================================================================== *)
(** * The extractors of the generic board                                 *)
(* ===================================================================== *)

Module FrontendFacts.
Import JS RegExp RegExpAnalysis RegExpFacts JSFacts Frontend.

(** Every pattern of the module is read by [parse] as written. *)
Lemma patterns_wellFormed :
  forallb wellFormed
    (experiencePatterns ++ positivePatterns ++ negativePatterns
     ++ clearancePatterns ++ List.map snd educationPatterns ++ salaryPatterns
     ++ [kOrComma; remotePattern; hybridPattern; sentenceEnd]) = true.
Proof. vm_compute. reflexivity. Qed.

Lemma returnOnTest_spec (A : Type) (ps : list RegExp.t) (d : jsstring) (v o : A) :
  returnOnTest ps d v o = if existsb (fun p => test p d) ps then v else o.
Proof.
  induction ps as [|p ps IH]; simpl.
  - reflexivity.
  - destruct (test p d); [reflexivity|exact IH].
Qed.

Lemma checkVisaSponsorship_spec (d : jsstring) :
  checkVisaSponsorship d =
    if existsb (fun p => test p d) negativePatterns then Some false
    else if existsb (fun p => test p d) positivePatterns then Some true
    else None.
Proof. unfold checkVisaSponsorship. rewrite !returnOnTest_spec. reflexivity. Qed.

(** A pattern of a list that passes [test] makes [existsb] true. *)
Lemma existsb_test (ps : list RegExp.t) (p : RegExp.t) (d : jsstring) :
  In p ps -> test p d = true -> existsb (fun p => test p d) ps = true.
Proof. intros Hin Ht. apply existsb_exists. exists p. split; assumption. Qed.

Lemma includes_trans (s w v : jsstring) :
  includes s w = true -> includes w v = true -> includes s v = true.
Proof.
  intros H1 H2.
  destruct (includes_inv _ _ H1) as (a & b & ->).
  destruct (includes_inv _ _ H2) as (a' & b' & ->).
  replace (a ++ (a' ++ v ++ b') ++ b) with ((a ++ a') ++ v ++ (b' ++ b))
    by (rewrite <- !app_assoc; reflexivity).
  apply includes_app.
Qed.

Lemma extractTechStack_In (d tech : jsstring) :
  In tech (extractTechStack d) <->
  In tech techKeywords /\ includes (toLowerCase d) (toLowerCase tech) = true.
Proof.
  unfold extractTechStack. rewrite setToArray_In, filter_In. reflexivity.
Qed.

(** ** Values in their domains *)















End FrontendFacts.

(* ===================================================================== *)
(** * The extractors of the regional profile                              *)
(* ===================================================================== *)

Module IntegrationFacts.
Import JS RegExp RegExpAnalysis RegExpFacts JSFacts Integration.

Lemma hk_patterns_wellFormed :
  forallb wellFormed
    (HK_PATTERNS_salary
     ++ [kOrComma; comma; prPattern; sponsorshipPattern; workVisaPattern;
         wfhPattern; hybridPattern]
     ++ List.map (fun name => make name "i") (HK_districts ++ HK_mtr)
     ++ List.map snd (languagePatterns ++ industries ++ benefitPatterns)) = true.
Proof. vm_compute. reflexivity. Qed.

Lemma industryLoop_first (pre post : list (jsstring * RegExp.t))
    (label : jsstring) (pattern : RegExp.t) (d : jsstring) :
  forallb (fun e => negb (test (snd e) d)) pre = true ->
  test pattern d = true ->
  industryLoop (pre ++ (label, pattern) :: post) d = label.
Proof.
  induction pre as [|[l p] pre IH]; simpl; intros Hpre Ht.
  - rewrite Ht. reflexivity.
  - apply andb_true_iff in Hpre. destruct Hpre as [Hp Hpre].
    apply negb_true_iff in Hp. rewrite Hp. apply IH; assumption.
Qed.

Lemma industryLoop_none (entries : list (jsstring * RegExp.t)) (d : jsstring) :
  forallb (fun e => negb (test (snd e) d)) entries = true ->
  industryLoop entries d = lit "Other".
Proof.
  induction entries as [|[l p] entries IH]; simpl; intros H.
  - reflexivity.
  - apply andb_true_iff in H. destruct H as [Hp H].
    apply negb_true_iff in Hp. rewrite Hp. apply IH, H.
Qed.

(** ** Values in their domains *)

Lemma HK_PATTERNS_salary_amountGroups : Forall amountGroups HK_PATTERNS_salary.
Proof.
  unfold HK_PATTERNS_salary.
  repeat constructor; intros n Hn; (destruct n as [|[|n]]; [| |lia]);
    eexists; (split; [reflexivity|]);
    split; cbn [allChars firstChar]; repeat split; try solve_chars.
Qed.


(** The text the first regional pattern matches begins with "HK" in
    some letter case, so its lower case contains a [k]: the k-shorthand
    branch is taken on every match of that pattern, and the amounts
    come out multiplied by 1000. *)
Lemma hk_first_pattern_has_k (d : jsstring) (m : MatchResult) :
  exec (nth 0 HK_PATTERNS_salary (make "" "")) d = Some m ->
  exists w0, at_ m 0 = Some w0 /\ includes (toLowerCase w0) (lit "k") = true.
Proof.
  intros E.
  destruct (execFrom_inv _ _ _ _ E) as (a & b & y & _ & Hy & Harr).
  exists (firstn (endIndex y) b). split.
  { unfold at_. rewrite Harr. apply getCapture_set_same. }
  apply matchAt_In in Hy.
  assert (Hpat : exists r, pattern (nth 0 HK_PATTERNS_salary (make "" ""))
                           = Seq (Char 72) (Seq (Char 75) r))
    by (eexists; reflexivity).
  destruct Hpat as (r & Hpat). rewrite Hpat in Hy.
  change (ignoreCase (nth 0 HK_PATTERNS_salary (make "" ""))) with true in Hy.
  apply run_seq in Hy. destruct Hy as (y1 & Hy1 & Hy).
  apply run_seq in Hy. destruct Hy as (y2 & Hy2 & Hy).
  apply run_char in Hy1. destruct Hy1 as (c1 & _ & Hr1 & Hi1 & _).
  apply run_char in Hy2. destruct Hy2 as (c2 & Hc2 & Hr2 & Hi2 & _).
  destruct (run_reads _ _ _ _ Hy) as (w & Hr & Hi).
  unfold start in Hr1, Hi1. cbn [rest endIndex] in Hr1, Hi1.
  assert (Hb : b = [c1; c2] ++ w ++ rest y).
  { rewrite Hr1, Hr2, Hr. reflexivity. }
  assert (Hidx : endIndex y = 2 + List.length w) by lia.
  assert (Hw0 : firstn (endIndex y) b = [c1] ++ [c2] ++ w).
  { rewrite Hb, Hidx.
    replace (2 + List.length w) with (List.length ([c1; c2] ++ w))
      by (rewrite length_app; reflexivity).
    rewrite app_assoc, firstn_app, firstn_all, Nat.sub_diag. simpl.
    rewrite app_nil_r. reflexivity. }
  rewrite Hw0, !toLowerCase_app.
  assert (Hk : toLowerCase [c2] = lit "k").
  { assert (Hc : c2 = 75%N \/ c2 = 107%N) by (clear - Hc2; solve_chars).
    destruct Hc as [-> | ->]; reflexivity. }
  rewrite Hk. apply includes_app.
Qed.

Lemma hk_first_pattern_always_multiplies (d : jsstring) :
  test (nth 0 HK_PATTERNS_salary (make "" "")) d = true ->
  exists a b, (0 <= a)%Z /\ (0 <= b)%Z /\
    extractHKSalary d
    = Normal (Some (mkHKSalary (Int (a * 1000)) (Int (b * 1000)) (lit "HKD"))).
Proof.
  intros Ht. unfold test in Ht.
  destruct (exec (nth 0 HK_PATTERNS_salary (make "" "")) d) as [m|] eqn:E;
    [|discriminate].
  assert (Hre : amountGroups (nth 0 HK_PATTERNS_salary (make "" ""))).
  { pose proof HK_PATTERNS_salary_amountGroups as H. inversion H. assumption. }
  change (extractHKSalary d)
    with (match exec (nth 0 HK_PATTERNS_salary (make "" "")) d with
          | Some m => hkSalaryOfMatch m
          | None => hkSalaryLoop (tl HK_PATTERNS_salary) d
          end).
  rewrite E.
  destruct (Hre 0 ltac:(lia)) as (b1 & Hd1 & Ha1 & Hf1).
  destruct (Hre 1 ltac:(lia)) as (b2 & Hd2 & Ha2 & Hf2).
  destruct (exec_group_text _ 0 b1 _ _ d m Hd1 Ha1 Hf1 E) as (x1 & w1 & H1 & Hx1 & Hw1).
  destruct (exec_group_text _ 1 b2 _ _ d m Hd2 Ha2 Hf2 E) as (x2 & w2 & H2 & Hx2 & Hw2).
  destruct (hk_first_pattern_has_k d m E) as (w0 & H0 & Hk).
  unfold hkSalaryOfMatch. rewrite H1, H2, H0. cbv zeta. rewrite Hk.
  change kOrComma with Frontend.kOrComma.
  destruct (amount_stripped x1 w1 Hx1 Hw1) as (ds1 & -> & Hds1).
  destruct (amount_stripped x2 w2 Hx2 Hw2) as (ds2 & -> & Hds2).
  destruct (parseInt_digits x1 ds1 Hx1 Hds1) as (a & -> & Ha0).
  destruct (parseInt_digits x2 ds2 Hx2 Hds2) as (b & -> & Hb0).
  exists a, b. repeat split; assumption.
Qed.





End IntegrationFacts.

(* ===================================================================== *)
(** * The filters and the trending statement                              *)
(* ===================================================================== *)

Module ApiFacts.
Import JS JSFacts Api.









Lemma bump_keys (t u : jsstring) (groups : list (jsstring * Z)) :
  In u (List.map fst (bump t groups)) -> u = t \/ In u (List.map fst groups).
Proof.
  induction groups as [|[v n] groups IH]; simpl.
  - intros [<-|[]]. left. reflexivity.
  - destruct (str_eqb t v); simpl; intros [H|H]; auto.
    destruct (IH H); auto.
Qed.

Lemma countByTechnology_keys (techs : list jsstring) (u : jsstring) :
  In u (List.map fst (countByTechnology techs)) -> In u techs.
Proof.
  unfold countByTechnology.
  assert (H : forall acc,
            In u (List.map fst (fold_left (fun groups t => bump t groups) techs acc)) ->
            In u techs \/ In u (List.map fst acc)).
  { induction techs as [|t techs IH]; intros acc Hin; simpl in *.
    - right. exact Hin.
    - destruct (IH _ Hin) as [H|H]; [left; right; exact H|].
      destruct (bump_keys _ _ _ H) as [->|H']; [left; left; reflexivity|right; exact H']. }
  intros Hin. destruct (H [] Hin) as [Ht|[]]. exact Ht.
Qed.

(** ** The counts of a window *)












Lemma buildWhere_onlyMinSalary (c : N) (m : jsstring) :
  buildWhere (onlyMinSalary (c :: m)) =
    mkBuilder [IntGe salary_max_col 1] [PNumber (parseInt (c :: m))] 2.
Proof. reflexivity. Qed.

End ApiFacts.

(* ===================================================================== *)
(** * The properties of the specification                                 *)
(* ===================================================================== *)

Import JS RegExp.

(** ** Visa sponsorship *)

(** C1.  On every description the visa-sponsorship extractor answers
    [false] as soon as a negative pattern matches, whatever the positive
    patterns do; when no negative pattern matches it answers [true]
    exactly when a positive pattern matches, and [null] otherwise.  In
    particular a text that contains both "no visa sponsorship" and "we
    sponsor" -- so that a positive pattern matches as well -- yields
    [false]. *)
Theorem visa_negative_patterns_win (d : jsstring) :
  Frontend.checkVisaSponsorship d =
    (if existsb (fun p => test p d) Frontend.negativePatterns then Some false
     else if existsb (fun p => test p d) Frontend.positivePatterns then Some true
     else None)
  /\ (includes d (lit "no visa sponsorship") = true ->
      includes d (lit "we sponsor") = true ->
      existsb (fun p => test p d) Frontend.positivePatterns = true
      /\ Frontend.checkVisaSponsorship d = Some false).
Proof.
  split; [apply FrontendFacts.checkVisaSponsorship_spec|].
  intros Hneg Hpos. split.
  - apply FrontendFacts.existsb_test
      with (p := nth 2 Frontend.positivePatterns (make "" "")).
    + vm_compute. tauto.
    + apply RegExpFacts.test_includes with (w := lit "we sponsor");
        [vm_compute; discriminate|exact Hpos].
  - rewrite FrontendFacts.checkVisaSponsorship_spec.
    rewrite FrontendFacts.existsb_test
      with (p := nth 0 Frontend.negativePatterns (make "" "")).
    + reflexivity.
    + vm_compute. tauto.
    + apply RegExpFacts.test_includes with (w := lit "no visa sponsorship");
        [vm_compute; discriminate|exact Hneg].
Qed.

Lemma visa_negative_patterns_win_witness :
  includes (lit "Sorry: no visa sponsorship. Elsewhere we sponsor visas.")
           (lit "no visa sponsorship") = true
  /\ includes (lit "Sorry: no visa sponsorship. Elsewhere we sponsor visas.")
              (lit "we sponsor") = true
  /\ Frontend.checkVisaSponsorship
       (lit "Sorry: no visa sponsorship. Elsewhere we sponsor visas.") = Some false.
Proof.
  split; [vm_compute; reflexivity|].
  split; [vm_compute; reflexivity|].
  apply (proj2 (visa_negative_patterns_win
                  (lit "Sorry: no visa sponsorship. Elsewhere we sponsor visas.")));
    vm_compute; reflexivity.
Defined.

(** C10.  A description that matches one of the two work-authorization
    phrases of the negative list, "must be authorized" or "must have
    work authorization", yields [false] and not [null], also when it
    says nothing about sponsorship: the fifth mock description, whose
    only matching pattern is the work-authorization one, is such a
    text. *)
Theorem work_authorization_means_no_sponsorship (d : jsstring) :
  (forall p, In p Frontend.negativePatterns ->
     source p = "must\s*be\s*authorized"%string
     \/ source p = "must\s*have\s*work\s*authorization"%string ->
     test p d = true -> Frontend.checkVisaSponsorship d = Some false)
  /\ (includes d (lit "must be authorized") = true
      \/ includes d (lit "must have work authorization") = true ->
      Frontend.checkVisaSponsorship d = Some false)
  /\ List.map source Frontend.negativePatterns =
       [ "no\s*visa\s*sponsorship"; "unable\s*to\s*sponsor"; "cannot\s*sponsor";
         "not\s*able\s*to\s*sponsor"; "must\s*be\s*authorized";
         "must\s*have\s*work\s*authorization" ]%string
  /\ (let text := nth 4 Frontend.descriptions [] in
      List.map (fun p => test p text) Frontend.negativePatterns
        = [false; false; false; false; false; true]
      /\ existsb (fun p => test p text) Frontend.positivePatterns = false
      /\ includes (toLowerCase text) (lit "sponsor") = false
      /\ Frontend.checkVisaSponsorship text = Some false).
Proof.
  assert (Hany : forall p, In p Frontend.negativePatterns -> test p d = true ->
                 Frontend.checkVisaSponsorship d = Some false).
  { intros p Hin Ht. rewrite FrontendFacts.checkVisaSponsorship_spec.
    rewrite (FrontendFacts.existsb_test _ p d Hin Ht). reflexivity. }
  split; [intros p Hin _ Ht; apply (Hany p Hin Ht)|].
  split.
  - intros [H|H].
    + apply (Hany (nth 4 Frontend.negativePatterns (make "" ""))).
      * vm_compute. tauto.
      * apply RegExpFacts.test_includes with (w := lit "must be authorized");
          [vm_compute; discriminate|exact H].
    + apply (Hany (nth 5 Frontend.negativePatterns (make "" ""))).
      * vm_compute. tauto.
      * apply RegExpFacts.test_includes
          with (w := lit "must have work authorization");
          [vm_compute; discriminate|exact H].
  - split; [reflexivity|]. vm_compute. repeat split; reflexivity.
Qed.

Lemma work_authorization_means_no_sponsorship_witness :
  includes (lit "Applicants must be authorized to work in Hong Kong.")
           (lit "must be authorized") = true
  /\ Frontend.checkVisaSponsorship
       (lit "Applicants must be authorized to work in Hong Kong.") = Some false.
Proof.
  split; [vm_compute; reflexivity|].
  apply (proj1 (proj2 (work_authorization_means_no_sponsorship
                         (lit "Applicants must be authorized to work in Hong Kong.")))).
  left. vm_compute. reflexivity.
Defined.

(** ** Industry *)

(** C4.  On every description the industry classifier returns the label
    of the first category, in the order Banking & Finance, Insurance,
    Real Estate, Retail, Logistics, Technology, Healthcare, Education,
    Government, whose pattern matches, and "Other" when none does; a
    description that matches the banking and the technology patterns is
    classified "Banking & Finance". *)
Theorem industry_first_matching_category (d : jsstring) :
  List.map fst Integration.industries =
    List.map lit [ "Banking & Finance"; "Insurance"; "Real Estate"; "Retail";
                   "Logistics"; "Technology"; "Healthcare"; "Education";
                   "Government" ]%string
  /\ (forall pre label pattern post,
        Integration.industries = pre ++ (label, pattern) :: post ->
        forallb (fun e => negb (test (snd e) d)) pre = true ->
        test pattern d = true ->
        Integration.classifyHKIndustry d = label)
  /\ (forallb (fun e => negb (test (snd e) d)) Integration.industries = true ->
      Integration.classifyHKIndustry d = lit "Other")
  /\ (forall banking technology,
        In (lit "Banking & Finance", banking) Integration.industries ->
        In (lit "Technology", technology) Integration.industries ->
        test banking d = true -> test technology d = true ->
        Integration.classifyHKIndustry d = lit "Banking & Finance")
  /\ (includes d (lit "bank") = true -> includes d (lit "software") = true ->
      Integration.classifyHKIndustry d = lit "Banking & Finance").
Proof.
  split; [reflexivity|].
  split.
  { intros pre label pattern post Heq Hpre Ht.
    unfold Integration.classifyHKIndustry. rewrite Heq.
    apply IntegrationFacts.industryLoop_first; assumption. }
  split.
  { apply IntegrationFacts.industryLoop_none. }
  assert (Hfirst : forall banking,
            In (lit "Banking & Finance", banking) Integration.industries ->
            test banking d = true ->
            Integration.classifyHKIndustry d = lit "Banking & Finance").
  { intros banking Hin Ht.
    assert (Hhd : exists post,
              Integration.industries = [] ++ (lit "Banking & Finance", banking) :: post).
    { unfold Integration.industries in *. simpl in Hin.
      repeat (destruct Hin as [Hin|Hin];
              [first [ injection Hin as <-; eexists; reflexivity
                     | exfalso; vm_compute in Hin; discriminate ]|]).
      destruct Hin. }
    destruct Hhd as (post & Hpost).
    unfold Integration.classifyHKIndustry. rewrite Hpost.
    apply IntegrationFacts.industryLoop_first; [reflexivity|exact Ht]. }
  split.
  { intros banking technology Hb _ Htb _. apply (Hfirst banking Hb Htb). }
  intros Hbank _.
  apply (Hfirst (snd (nth 0 Integration.industries (lit "", make "" "")))).
  - vm_compute. tauto.
  - apply RegExpFacts.test_includes with (w := lit "bank");
      [vm_compute; discriminate|exact Hbank].
Qed.

Lemma industry_first_matching_category_witness :
  includes (lit "Investment bank seeks software developer") (lit "bank") = true
  /\ includes (lit "Investment bank seeks software developer") (lit "software") = true
  /\ test (snd (nth 5 Integration.industries (lit "", make "" "")))
          (lit "Investment bank seeks software developer") = true
  /\ Integration.classifyHKIndustry (lit "Investment bank seeks software developer")
     = lit "Banking & Finance".
Proof.
  split; [vm_compute; reflexivity|].
  split; [vm_compute; reflexivity|].
  split; [vm_compute; reflexivity|].
  apply (proj2 (proj2 (proj2 (proj2 (industry_first_matching_category
           (lit "Investment bank seeks software developer"))))));
    vm_compute; reflexivity.
Defined.

(** ** Tech stack *)

(** C9.  The extracted tech stack is closed under containment of
    keywords: a keyword whose lower case is contained in the lower case
    of an extracted keyword is extracted too.  Hence a description that
    contains "javascript" in any letter case yields both "JavaScript"
    and "Java". *)
Theorem techstack_javascript_brings_java (a w b : jsstring) :
  (forall k1 k2, In k1 (Frontend.extractTechStack (a ++ w ++ b)) ->
     In k2 Frontend.techKeywords ->
     includes (toLowerCase k1) (toLowerCase k2) = true ->
     In k2 (Frontend.extractTechStack (a ++ w ++ b)))
  /\ (toLowerCase w = lit "javascript" ->
      In (lit "JavaScript") (Frontend.extractTechStack (a ++ w ++ b))
      /\ In (lit "Java") (Frontend.extractTechStack (a ++ w ++ b))).
Proof.
  split.
  - intros k1 k2 H1 H2 Hsub.
    apply FrontendFacts.extractTechStack_In in H1. destruct H1 as [_ H1].
    apply FrontendFacts.extractTechStack_In. split; [assumption|].
    apply FrontendFacts.includes_trans with (w := toLowerCase k1); assumption.
  - intros Hw.
    assert (Hjs : includes (toLowerCase (a ++ w ++ b)) (lit "javascript") = true).
    { rewrite !JSFacts.toLowerCase_app, Hw. apply JSFacts.includes_app. }
    split; apply FrontendFacts.extractTechStack_In; split.
    + vm_compute. tauto.
    + exact Hjs.
    + vm_compute. tauto.
    + apply JSFacts.includes_prefix with (v := lit "script"). exact Hjs.
Qed.

Lemma techstack_javascript_brings_java_witness :
  toLowerCase (lit "JAVAScript") = lit "javascript"
  /\ In (lit "JavaScript")
        (Frontend.extractTechStack (lit "We write " ++ lit "JAVAScript" ++ lit " daily"))
  /\ In (lit "Java")
        (Frontend.extractTechStack (lit "We write " ++ lit "JAVAScript" ++ lit " daily")).
Proof.
  split; [vm_compute; reflexivity|].
  apply (proj2 (techstack_javascript_brings_java
                  (lit "We write ") (lit "JAVAScript") (lit " daily"))).
  vm_compute. reflexivity.
Defined.

(** ** Salary *)

(** C7.  On "$120k - $160k" the generic salary extractor returns
    {min: 120000, max: 160000}: the first pattern does not match, the
    k-shorthand pattern does, and each captured amount is multiplied by
    1000.  The same holds on the first mock description, which contains
    that text, and on every description that contains it after a text
    without dollar sign and before a text in which the first pattern
    finds nothing. *)
Theorem salary_k_shorthand :
  exec (nth 0 Frontend.salaryPatterns (make "" "")) (lit "$120k - $160k") = None
  /\ option_map array
       (exec (nth 1 Frontend.salaryPatterns (make "" "")) (lit "$120k - $160k"))
     = Some [Some (lit "$120k - $160k"); Some (lit "120k"); Some (lit "160k")]
  /\ Frontend.extractSalaryRange (lit "$120k - $160k")
     = Normal (Some (Frontend.mkSalaryRange (Int 120000) (Int 160000)))
  /\ includes (nth 0 Frontend.descriptions []) (lit "$120k - $160k") = true
  /\ Frontend.extractSalaryRange (nth 0 Frontend.descriptions [])
     = Normal (Some (Frontend.mkSalaryRange (Int 120000) (Int 160000)))
  /\ (forall pre post,
        forallb (fun c => negb (c =? 36)%N) pre = true ->
        test (nth 0 Frontend.salaryPatterns (make "" "")) post = false ->
        Frontend.extractSalaryRange (pre ++ lit "$120k - $160k" ++ post)
        = Normal (Some (Frontend.mkSalaryRange (Int 120000) (Int 160000)))).
Proof.
  do 5 (split; [vm_compute; reflexivity|]).
  intros pre post Hpre Hpost.
  set (p1 := nth 0 Frontend.salaryPatterns (make "" "")) in *.
  set (p2 := nth 1 Frontend.salaryPatterns (make "" "")).
  set (w := lit "$120k - $160k").
  assert (Hdollar : Forall (fun c => ~ c = 36%N) pre).
  { apply Forall_forall. intros c Hc. rewrite forallb_forall in Hpre.
    apply Hpre in Hc. apply negb_true_iff, N.eqb_neq in Hc. exact Hc. }
  assert (Hf1 : RegExpAnalysis.firstChar (ignoreCase p1) (fun c => c = 36%N) (pattern p1)).
  { cbn -[N.eqb N.leb N.sub]. RegExpFacts.solve_chars. }
  assert (Hf2 : RegExpAnalysis.firstChar (ignoreCase p2) (fun c => c = 36%N) (pattern p2)).
  { cbn -[N.eqb N.leb N.sub]. RegExpFacts.solve_chars. }
  assert (H1 : exec p1 (pre ++ w ++ post) = None).
  { unfold exec.
    rewrite (RegExpFacts.execFrom_pass_chars p1 _ pre (w ++ post) Hf1 Hdollar).
    rewrite (RegExpFacts.execFrom_pass p1 w post).
    - apply RegExpFacts.execFrom_none with (i := 0).
      apply RegExpFacts.test_false_exec, Hpost.
    - intros k Hk.
      do 13 (destruct k as [|k]; [vm_compute; reflexivity|]).
      simpl in Hk. lia. }
  assert (H2 : exec p2 (pre ++ w ++ post)
               = Some (mkMatch (0 + List.length pre)
                         [Some w; Some (lit "120k"); Some (lit "160k")])).
  { unfold exec.
    rewrite (RegExpFacts.execFrom_pass_chars p2 _ pre (w ++ post) Hf2 Hdollar).
    rewrite (RegExpFacts.execFrom_here p2 (w ++ post) _
               (mkState 13 post [None; Some (lit "120k"); Some (lit "160k")]))
      by (vm_compute; reflexivity).
    reflexivity. }
  change (Frontend.extractSalaryRange (pre ++ w ++ post))
    with (match exec p1 (pre ++ w ++ post) with
          | Some m => Frontend.salaryOfMatch m
          | None =>
              match exec p2 (pre ++ w ++ post) with
              | Some m => Frontend.salaryOfMatch m
              | None => Frontend.salaryLoop [nth 2 Frontend.salaryPatterns (make "" "")]
                                            (pre ++ w ++ post)
              end
          end).
  rewrite H1, H2. vm_compute. reflexivity.
Qed.

Lemma salary_k_shorthand_witness :
  forallb (fun c => negb (c =? 36)%N) (lit "Budgeted salary: ") = true
  /\ test (nth 0 Frontend.salaryPatterns (make "" ""))
          (lit " per year, or $95 per hour for contractors.") = false
  /\ Frontend.extractSalaryRange
       (lit "Budgeted salary: " ++ lit "$120k - $160k"
        ++ lit " per year, or $95 per hour for contractors.")
     = Normal (Some (Frontend.mkSalaryRange (Int 120000) (Int 160000))).
Proof.
  split; [vm_compute; reflexivity|].
  split; [vm_compute; reflexivity|].
  apply (proj2 (proj2 (proj2 (proj2 (proj2 salary_k_shorthand)))));
    vm_compute; reflexivity.
Defined.

(** C2.  On "HK$20,000 - HK$40,000" the regional salary extractor
    returns {min: 20000000, max: 40000000, currency: "HKD"}, not
    {min: 20000, max: 40000}: the thousands separators are stripped, but
    the test for the k-shorthand looks at the whole matched text, which
    begins with "HK", and the amounts are multiplied by 1000. *)
Theorem hk_salary_comma_amounts_multiplied :
  option_map array
    (exec (nth 0 Integration.HK_PATTERNS_salary (make "" ""))
          (lit "HK$20,000 - HK$40,000"))
  = Some [Some (lit "HK$20,000 - HK$40,000"); Some (lit "20,000"); Some (lit "40,000")]
  /\ includes (toLowerCase (lit "HK$20,000 - HK$40,000")) (lit "k") = true
  /\ includes (toLowerCase (lit "20,000")) (lit "k") = false
  /\ Integration.extractHKSalary (lit "HK$20,000 - HK$40,000")
     = Normal (Some (Integration.mkHKSalary (Int 20000000) (Int 40000000) (lit "HKD")))
  /\ Integration.extractHKSalary (lit "HK$20,000 - HK$40,000")
     <> Normal (Some (Integration.mkHKSalary (Int 20000) (Int 40000) (lit "HKD"))).
Proof. vm_compute. repeat split; try reflexivity. discriminate. Qed.

(** ** Minimum salary *)

(** C3 as stated fails on the generic board: the second mock job, whose
    salary is 100000 to 140000, is filtered out by a minimum of 120
    (thousand) although its maximum is above the request, read in
    either unit. *)
Lemma min_salary_generic_counterexample :
  exists job sal,
    Frontend.mockJob 1 = Normal job
    /\ Frontend.salary (Frontend.annotations job) = Some sal
    /\ sal = Frontend.mkSalaryRange (Int 100000) (Int 140000)
    /\ geq (Frontend.max sal) (parseInt (lit "120")) = true
    /\ geq (Frontend.max sal) (mul (parseInt (lit "120")) (Int 1000)) = true
    /\ Frontend.applyFilters [job] [] (Frontend.withMinSalary (lit "120")) = [].
Proof.
  eexists. eexists. split; [vm_compute; reflexivity|].
  split; [reflexivity|]. vm_compute. repeat split; reflexivity.
Qed.

(** C3 (amended).  The two boards differ.  On the regional board a row
    passes the [minSalary] parameter [m] exactly when its [salary_max]
    is set and at least [m].  On the generic board a job passes the
    [minSalary] filter [m] exactly when it has a salary whose minimum
    (not maximum) is at least [m] times 1000. *)
Theorem min_salary_filters :
  (forall jobs job m, Frontend.truthy m = true ->
     (In job (Frontend.applyFilters jobs [] (Frontend.withMinSalary m)) <->
      In job jobs
      /\ exists sal, Frontend.salary (Frontend.annotations job) = Some sal
                     /\ geq (Frontend.min sal) (mul (parseInt m) (Int 1000)) = true))
  /\ (forall ilike m z row,
        parseInt m = Int z -> (-2147483648 <= z <= 2147483647)%Z ->
        (Api.selects ilike (Api.onlyMinSalary m) row = Normal true <->
         Api.source row = lit "JobsDB"
         /\ exists v, Api.salary_max row = Some v /\ (z <= v)%Z)).
Proof.
  split.
  - intros jobs job m Hm.
    change (Frontend.applyFilters jobs [] (Frontend.withMinSalary m))
      with (if Frontend.truthy m
            then filter (fun job =>
                           match Frontend.salary (Frontend.annotations job) with
                           | Some sal => geq (Frontend.min sal)
                                             (mul (parseInt m) (Int 1000))
                           | None => false
                           end) jobs
            else jobs).
    rewrite Hm, filter_In.
    destruct (Frontend.salary (Frontend.annotations job)) as [sal|].
    + split.
      * intros [Hin Hge]. split; [assumption|]. exists sal. split; [reflexivity|assumption].
      * intros (Hin & sal' & Heq & Hge). injection Heq as <-. split; assumption.
    + split; [intros [_ H]; discriminate|intros (_ & sal' & Heq & _); discriminate].
  - intros ilike m z row Hparse Hrange.
    destruct m as [|c m']; [vm_compute in Hparse; discriminate|].
    unfold Api.selects. rewrite (ApiFacts.buildWhere_onlyMinSalary c m'), Hparse.
    cbn [Api.queryParams Api.query forallb Api.bindable Api.holds Api.intOf
         Api.placeholder Nat.sub nth_error].
    replace ((-2147483648 <=? z)%Z && (z <=? 2147483647)%Z) with true
      by (symmetry; apply andb_true_iff; rewrite !Z.leb_le; lia).
    cbn [andb].
    destruct (Api.salary_max row) as [v|].
    + rewrite andb_true_r. split.
      * intros H. injection H as H. apply andb_true_iff in H. destruct H as [Hs Hv].
        split; [apply JSFacts.str_eqb_eq, Hs|]. exists v. split; [reflexivity|].
        apply Z.leb_le, Hv.
      * intros (Hs & v' & Heq & Hv). injection Heq as <-. f_equal.
        apply andb_true_iff. split; [apply JSFacts.str_eqb_eq, Hs|apply Z.leb_le, Hv].
    + rewrite andb_false_r. split; [discriminate|intros (_ & v' & Heq & _); discriminate].
Qed.

Lemma min_salary_filters_witness :
  (Frontend.truthy (lit "90") = true
   /\ forall job, Frontend.mockJob 1 = Normal job ->
        In job (Frontend.applyFilters [job] [] (Frontend.withMinSalary (lit "90"))))
  /\ (parseInt (lit "30000") = Int 30000
      /\ (-2147483648 <= 30000 <= 2147483647)%Z
      /\ Api.selects (fun _ _ => false) (Api.onlyMinSalary (lit "30000"))
           (Api.mkJobRow (lit "JobsDB") (lit "Developer") (lit "Acme") None None
              None None None None (Some 20000%Z) (Some 40000%Z) None None None None
              None) = Normal true).
Proof.
  split.
  - split; [reflexivity|]. intros job Hjob.
    apply (proj1 min_salary_filters [job] job (lit "90")); [reflexivity|].
    split; [left; reflexivity|].
    vm_compute in Hjob. injection Hjob as <-.
    eexists. split; [reflexivity|]. vm_compute. reflexivity.
  - split; [vm_compute; reflexivity|]. split; [lia|].
    apply (proj2 min_salary_filters (fun _ _ => false) (lit "30000") 30000%Z).
    + vm_compute. reflexivity.
    + lia.
    + split; [reflexivity|]. exists 40000%Z. split; [reflexivity|lia].
Defined.

(** ** Trending *)






(** ** Totality *)



(* ===================================================================== *)
(** * Facts about the API server                                          *)
(* ===================================================================== *)

Module ServerFacts.
Import JS Api Server.

Lemma shape_push (c : nat -> jsstring) (v v' : param) (b b' : statement) :
  shape b = shape b' -> shape (push c v b) = shape (push c v' b').
Proof.
  unfold shape, push. cbn [text counter]. intros H. injection H as Ht Hc.
  rewrite Ht, Hc. reflexivity.
Qed.

Lemma shape_append (t : jsstring) (b b' : statement) :
  shape b = shape b' -> shape (append t b) = shape (append t b').
Proof.
  unfold shape, append. cbn [text counter]. intros H. injection H as Ht Hc.
  rewrite Ht, Hc. reflexivity.
Qed.

Lemma shape_ifSet (x : option jsstring) (f : jsstring -> statement -> statement)
    (b b' : statement) :
  (forall v v' b b', shape b = shape b' -> shape (f v b) = shape (f v' b')) ->
  shape b = shape b' ->
  shape (ifSet x f b) = shape (ifSet (skeletonOf x) f b').
Proof.
  intros Hf Hb. destruct x as [[|c s]|]; cbn; auto.
Qed.

Lemma shape_permit (x : option jsstring) (b b' : statement) :
  shape b = shape b' ->
  shape (match x with
         | Some w =>
             if str_eqb w (lit "pr_required")
             then append (lit " AND work_permit_required = true") b
             else if str_eqb w (lit "visa_available")
             then append (lit " AND visa_sponsorship = true") b
             else b
         | None => b
         end)
  = shape (match skeletonOfPermit x with
           | Some w =>
               if str_eqb w (lit "pr_required")
               then append (lit " AND work_permit_required = true") b'
               else if str_eqb w (lit "visa_available")
               then append (lit " AND visa_sponsorship = true") b'
               else b'
           | None => b'
           end).
Proof.
  intros Hb. destruct x as [w|]; [|exact Hb].
  unfold skeletonOfPermit.
  destruct (str_eqb w (lit "pr_required")) eqn:E1.
  - change (str_eqb (lit "pr_required") (lit "pr_required")) with true.
    cbv iota. apply shape_append, Hb.
  - destruct (str_eqb w (lit "visa_available")) eqn:E2.
    + change (str_eqb (lit "visa_available") (lit "pr_required")) with false.
      change (str_eqb (lit "visa_available") (lit "visa_available")) with true.
      cbv iota. apply shape_append, Hb.
    + exact Hb.
Qed.

(** The text of the statement depends on which filters are set, not on
    their values. *)
Lemma buildFilters_shape (q : Query) :
  shape (buildFilters q) = shape (buildFilters (skeleton q)).
Proof.
  unfold buildFilters, skeleton. cbv zeta.
  cbn [q_search q_techStack q_minExperience q_maxExperience q_minSalary
       q_maxSalary q_district q_languages q_industry q_workPermit q_benefits].
  apply shape_ifSet; [intros; apply shape_push; assumption|].
  apply shape_permit.
  repeat (apply shape_ifSet; [intros; apply shape_push; assumption|]).
  reflexivity.
Qed.

Lemma buildQuery_text (q : Query) (page limit : option jsstring) :
  text (buildQuery q page limit)
  = fst (shape (buildFilters q))
    ++ lit " ORDER BY posted_date DESC, created_at DESC"
    ++ lit " LIMIT " ++ dollar (snd (shape (buildFilters q)))
    ++ lit " OFFSET " ++ dollar (snd (shape (buildFilters q)) + 1).
Proof.
  unfold buildQuery, append, shape. cbn [text counter params fst snd].
  rewrite <- !app_assoc. reflexivity.
Qed.

Lemma skeletonOf_listed (x : option jsstring) : In (skeletonOf x) setOrNot.
Proof. destruct x as [[|c s]|]; cbn; auto. Qed.

Lemma skeletonOfPermit_listed (x : option jsstring) : In (skeletonOfPermit x) permits.
Proof.
  destruct x as [w|]; [|left; reflexivity].
  unfold skeletonOfPermit.
  destruct (str_eqb w (lit "pr_required")); [right; left; reflexivity|].
  destruct (str_eqb w (lit "visa_available")).
  - right. right. left. reflexivity.
  - left. reflexivity.
Qed.

Lemma skeleton_listed (q : Query) : In (skeleton q) skeletons.
Proof.
  unfold skeletons, skeleton.
  apply in_flat_map. exists (skeletonOf (q_search q)). split; [apply skeletonOf_listed|].
  apply in_flat_map. exists (skeletonOf (q_techStack q)). split; [apply skeletonOf_listed|].
  apply in_flat_map. exists (skeletonOf (q_minExperience q)). split; [apply skeletonOf_listed|].
  apply in_flat_map. exists (skeletonOf (q_maxExperience q)). split; [apply skeletonOf_listed|].
  apply in_flat_map. exists (skeletonOf (q_minSalary q)). split; [apply skeletonOf_listed|].
  apply in_flat_map. exists (skeletonOf (q_maxSalary q)). split; [apply skeletonOf_listed|].
  apply in_flat_map. exists (skeletonOf (q_district q)). split; [apply skeletonOf_listed|].
  apply in_flat_map. exists (skeletonOf (q_languages q)). split; [apply skeletonOf_listed|].
  apply in_flat_map. exists (skeletonOf (q_industry q)). split; [apply skeletonOf_listed|].
  apply in_flat_map. exists (skeletonOfPermit (q_workPermit q)).
  split; [apply skeletonOfPermit_listed|].
  apply in_map_iff. exists (skeletonOf (q_benefits q)).
  split; [reflexivity|apply skeletonOf_listed].
Qed.

Lemma skeletons_checked : forallb countKeepsSelectList skeletons = true.
Proof. vm_compute. reflexivity. Qed.

(** The parameters of the statement are those of the clauses. *)
Lemma params_ifSet (x : option jsstring) (c : nat -> clause) (t : nat -> jsstring)
    (v : jsstring -> param) (w : builder) (b : statement) :
  params b = queryParams w ->
  params (ifSet x (fun s => push t (v s)) b)
  = queryParams (whenSet x (fun s => addClause c (v s)) w).
Proof.
  intros H. destruct x as [[|a s]|]; cbn; auto. rewrite H. reflexivity.
Qed.

Lemma buildFilters_params (q : Query) :
  params (buildFilters q) = queryParams (buildWhere q).
Proof.
  unfold buildFilters, buildWhere. cbv zeta.
  apply params_ifSet.
  assert (Hp : forall (b : statement) (w : builder),
             params b = queryParams w ->
             params (match q_workPermit q with
                     | Some p =>
                         if str_eqb p (lit "pr_required")
                         then append (lit " AND work_permit_required = true") b
                         else if str_eqb p (lit "visa_available")
                         then append (lit " AND visa_sponsorship = true") b
                         else b
                     | None => b
                     end)
             = queryParams (match q_workPermit q with
                            | Some p =>
                                if str_eqb p (lit "pr_required")
                                then mkBuilder (query w ++ [IsTrue work_permit_required_col])
                                               (queryParams w) (paramCounter w)
                                else if str_eqb p (lit "visa_available")
                                then mkBuilder (query w ++ [IsTrue visa_sponsorship_col])
                                               (queryParams w) (paramCounter w)
                                else w
                            | None => w
                            end)).
  { intros b w H. destruct (q_workPermit q) as [p|]; [|exact H].
    destruct (str_eqb p (lit "pr_required")); [exact H|].
    destruct (str_eqb p (lit "visa_available")); exact H. }
  apply Hp.
  repeat apply params_ifSet.
  reflexivity.
Qed.

End ServerFacts.

(* ===================================================================== *)
(** * Further properties of the program                                   *)
(* ===================================================================== *)

(** ** The statement that counts the matches *)

(** X1.  The statement [GET /api/jobs/hk] runs to count the matches is the
    search statement cut at its [ORDER BY]: the replacement of the
    select list by [COUNT( * )] never applies, since the select list
    spans several lines and [.] stops at a line break.  The statement
    keeps the column list it starts with, the word [COUNT] is nowhere
    in it, and its parameters are those of the filters. *)
Theorem count_statement_keeps_select_list (q : Api.Query) (page limit : option jsstring) :
  Server.text (Server.buildQuery q page limit)
  = Server.text (Server.buildFilters q)
    ++ lit " ORDER BY posted_date DESC, created_at DESC"
    ++ lit " LIMIT " ++ Server.dollar (Server.counter (Server.buildFilters q))
    ++ lit " OFFSET " ++ Server.dollar (Server.counter (Server.buildFilters q) + 1)
  /\ Server.countQuery (Server.text (Server.buildQuery q page limit))
     = Server.text (Server.buildFilters q) ++ lit " "
  /\ startsWith (Server.countQuery (Server.text (Server.buildQuery q page limit)))
                Server.selectFromWhere = true
  /\ includes (Server.countQuery (Server.text (Server.buildQuery q page limit)))
              (lit "COUNT") = false
  /\ Server.countParams (Server.params (Server.buildQuery q page limit))
     = Api.queryParams (Api.buildWhere q).
Proof.
  split; [apply ServerFacts.buildQuery_text|].
  assert (Htext : Server.text (Server.buildQuery q page limit)
                  = Server.text (Server.buildQuery (Server.skeleton q) None None)).
  { rewrite !ServerFacts.buildQuery_text, ServerFacts.buildFilters_shape.
    reflexivity. }
  assert (Hfilters : Server.text (Server.buildFilters (Server.skeleton q))
                     = Server.text (Server.buildFilters q)).
  { change (fst (Server.shape (Server.buildFilters (Server.skeleton q)))
            = fst (Server.shape (Server.buildFilters q))).
    rewrite <- ServerFacts.buildFilters_shape. reflexivity. }
  pose proof (proj1 (forallb_forall _ _) ServerFacts.skeletons_checked
                    _ (ServerFacts.skeleton_listed q)) as Hc.
  unfold Server.countKeepsSelectList in Hc. cbv zeta in Hc.
  apply andb_prop in Hc. destruct Hc as [Hc Hstart].
  apply andb_prop in Hc. destruct Hc as [Heq Hcount].
  apply JSFacts.str_eqb_eq in Heq.
  rewrite Htext.
  split; [rewrite Heq, Hfilters; reflexivity|].
  split; [exact Hstart|].
  split; [destruct (includes _ _); [discriminate Hcount|reflexivity]|].
  rewrite <- ServerFacts.buildFilters_params.
  unfold Server.buildQuery, Server.countParams, Server.append.
  cbn [Server.params Server.text Server.counter].
  rewrite length_app. cbn [List.length].
  replace (List.length (Server.params (Server.buildFilters q)) + 2 - 2)
    with (List.length (Server.params (Server.buildFilters q)) + 0) by lia.
  rewrite firstn_app_2. cbn [firstn]. apply app_nil_r.
Qed.

(* ===================================================================== *)
(** * Facts about the clauses, the key and the scraping flag              *)
(* ===================================================================== *)

Module HandlerFacts.
Import JS Api Server.

Lemma placeholder_last (ps : list param) (v : param) :
  placeholder (ps ++ [v]) (S (List.length ps)) = Some v.
Proof.
  unfold placeholder. cbn [Nat.sub]. rewrite Nat.sub_0_r.
  rewrite nth_error_app2 by lia. rewrite Nat.sub_diag. reflexivity.
Qed.

Lemma placeholder_kept (ps : list param) (v w : param) (p : nat) :
  placeholder ps p = Some w -> placeholder (ps ++ [v]) p = Some w.
Proof.
  unfold placeholder. intros H. rewrite nth_error_app1; [exact H|].
  apply nth_error_Some. rewrite H. discriminate.
Qed.

Lemma bound_kept (ps : list param) (v : param) (c : clause) :
  bound ps c = true -> bound (ps ++ [v]) c = true.
Proof.
  destruct c as [p|col p|col p|col p|col p|col]; cbn [bound];
    try (destruct (placeholder ps p) as [w|] eqn:E; [|discriminate];
         rewrite (placeholder_kept ps v w p E); exact (fun H => H)).
  reflexivity.
Qed.

Lemma addClause_wellBound (c : nat -> clause) (v : param) (b : builder) :
  (forall ps, bound (ps ++ [v]) (c (S (List.length ps))) = true) ->
  wellBound b -> wellBound (addClause c v b).
Proof.
  intros Hc (Hn & Hb). unfold wellBound, addClause.
  cbn [paramCounter queryParams query]. split.
  - rewrite length_app. cbn [List.length]. lia.
  - rewrite forallb_app. cbn [forallb]. rewrite Hn, Hc, andb_true_r.
    rewrite forallb_forall in *. intros x Hx. apply bound_kept, Hb, Hx.
Qed.

Lemma whenSet_wellBound (x : option jsstring) (c : nat -> clause)
    (v : jsstring -> param) (b : builder) :
  (forall s ps, bound (ps ++ [v s]) (c (S (List.length ps))) = true) ->
  wellBound b -> wellBound (whenSet x (fun s => addClause c (v s)) b).
Proof.
  intros Hc Hb. destruct x as [[|a s]|]; cbn [whenSet]; try exact Hb.
  apply addClause_wellBound; [apply Hc|exact Hb].
Qed.

Lemma isTrue_wellBound (col : boolColumn) (b : builder) :
  wellBound b ->
  wellBound (mkBuilder (query b ++ [IsTrue col]) (queryParams b) (paramCounter b)).
Proof.
  intros (Hn & Hb). unfold wellBound. cbn [paramCounter queryParams query].
  split; [exact Hn|]. rewrite forallb_app, Hb. reflexivity.
Qed.

(** The store, key by key. *)
Lemma get_del_same (k : jsstring) (st : Redis) : get (del k st) k = None.
Proof. unfold get, del. rewrite JSFacts.str_eqb_refl. reflexivity. Qed.

Lemma del_other (k key : jsstring) (st : Redis) :
  str_eqb k key = false -> del key st k = st k.
Proof. unfold del. intros ->. reflexivity. Qed.

Lemma setex_other (k key v : jsstring) (seconds : Z) (st : Redis) :
  str_eqb k key = false -> setex key seconds v st k = st k.
Proof. unfold setex. intros ->. reflexivity. Qed.

Lemma get_setex_same (k v : jsstring) (seconds : Z) (st : Redis) :
  get (setex k seconds v st) k = Some v.
Proof. unfold get, setex. rewrite JSFacts.str_eqb_refl. reflexivity. Qed.

Lemma neq_str_eqb (a b : jsstring) : a <> b -> str_eqb a b = false.
Proof.
  intros H. destruct (str_eqb a b) eqn:E; [|reflexivity].
  exfalso. apply H, JSFacts.str_eqb_eq, E.
Qed.

Lemma numberToString_truthy (n : nat) :
  truthy (Some (numberToString (Int (Z.of_nat n)))) = true.
Proof.
  unfold numberToString.
  destruct (Z.of_nat n <? 0)%Z; [reflexivity|].
  pose proof (JSFacts.digitsOfPos_nonempty (Z.to_nat (Z.log2 (Z.of_nat n)))
                                           (Z.of_nat n) []) as H.
  rewrite Nat.add_1_r.
  destruct (digitsOfPos (S (Z.to_nat (Z.log2 (Z.of_nat n)))) (Z.of_nat n) []);
    [contradiction H; reflexivity|reflexivity].
Qed.

End HandlerFacts.

(** ** The clauses of the search statement *)

(** X2.  In the [WHERE] clause the search handler builds, the number of the
    next placeholder is always one more than the number of parameters,
    and every placeholder is bound to a parameter of the kind its
    clause compares with: a pattern or a text for the clauses on
    texts, an array for the overlaps, a number for the bounds. *)
Theorem placeholders_are_bound (q : Api.Query) :
  Api.paramCounter (Api.buildWhere q) = S (List.length (Api.queryParams (Api.buildWhere q)))
  /\ forallb (Server.bound (Api.queryParams (Api.buildWhere q)))
             (Api.query (Api.buildWhere q)) = true.
Proof.
  change (Server.wellBound (Api.buildWhere q)).
  unfold Api.buildWhere. cbv zeta.
  apply HandlerFacts.whenSet_wellBound;
    [intros s ps; cbn [Server.bound]; rewrite HandlerFacts.placeholder_last; reflexivity|].
  assert (Hpermit : forall b, Server.wellBound b ->
            Server.wellBound
              (match Api.q_workPermit q with
               | Some w =>
                   if str_eqb w (lit "pr_required")
                   then Api.mkBuilder (Api.query b ++ [Api.IsTrue Api.work_permit_required_col])
                                      (Api.queryParams b) (Api.paramCounter b)
                   else if str_eqb w (lit "visa_available")
                   then Api.mkBuilder (Api.query b ++ [Api.IsTrue Api.visa_sponsorship_col])
                                      (Api.queryParams b) (Api.paramCounter b)
                   else b
               | None => b
               end)).
  { intros b Hb. destruct (Api.q_workPermit q) as [w|]; [|exact Hb].
    destruct (str_eqb w (lit "pr_required"));
      [apply HandlerFacts.isTrue_wellBound, Hb|].
    destruct (str_eqb w (lit "visa_available"));
      [apply HandlerFacts.isTrue_wellBound, Hb|exact Hb]. }
  apply Hpermit.
  repeat (apply HandlerFacts.whenSet_wellBound;
          [intros s ps; cbn [Server.bound];
           rewrite HandlerFacts.placeholder_last; reflexivity|]).
  split; reflexivity.
Qed.

(** ** The key of the API *)

(** X3.  A request passes [authenticateApiKey] exactly when its header
    [x-api-key] is a text that is not empty and is the value of
    [API_KEY].  With [API_KEY] unset or empty no request passes. *)
Theorem api_key_fails_closed (apiKey API_KEY : option jsstring) :
  (Server.authenticateApiKey apiKey API_KEY = Server.Next
   <-> exists key, key <> [] /\ apiKey = Some key /\ API_KEY = Some key)
  /\ (API_KEY = None \/ API_KEY = Some [] ->
      Server.authenticateApiKey apiKey API_KEY = Server.Unauthorized).
Proof.
  assert (Hiff : Server.authenticateApiKey apiKey API_KEY = Server.Next
                 <-> exists key, key <> [] /\ apiKey = Some key /\ API_KEY = Some key).
  { unfold Server.authenticateApiKey. split.
    - destruct apiKey as [[|c a]|]; [discriminate| |discriminate].
      destruct API_KEY as [b|]; [|discriminate].
      cbn [Server.truthy negb orb].
      destruct (str_eqb (c :: a) b) eqn:E; [|discriminate].
      apply JSFacts.str_eqb_eq in E. subst b. intros _.
      exists (c :: a). split; [discriminate|split; reflexivity].
    - intros (key & Hkey & -> & ->).
      destruct key as [|c a]; [contradiction Hkey; reflexivity|].
      cbn [Server.truthy negb orb]. rewrite JSFacts.str_eqb_refl. reflexivity. }
  split; [exact Hiff|].
  intros Hunset.
  destruct (Server.authenticateApiKey apiKey API_KEY) eqn:E; [|reflexivity].
  destruct (proj1 Hiff eq_refl) as (key & Hkey & _ & HK).
  destruct Hunset as [->| ->]; [discriminate HK|].
  injection HK as <-. contradiction Hkey. reflexivity.
Qed.

Lemma api_key_fails_closed_witness :
  Server.authenticateApiKey (Some (lit "undefined")) None = Server.Unauthorized
  /\ Server.authenticateApiKey None None = Server.Unauthorized.
Proof.
  split.
  - apply (proj2 (api_key_fails_closed (Some (lit "undefined")) None)).
    left. reflexivity.
  - apply (proj2 (api_key_fails_closed None None)). left. reflexivity.
Defined.

(** ** The scraping flag *)

(** X4.  The scheduled scraping leaves the flag [jobsdb:scraping:running]
    unset on every way out.  When it finds the flag set it scrapes
    nothing, and still its [finally] removes the flag, which belongs
    to the scraping in progress: every other key is as before, and a
    request to scrape that comes next is accepted. *)
Theorem scheduled_scrape_clears_foreign_flag (Job : Type)
    (processJobsDBBatch : list jsstring -> completion (list Job))
    (saveToDatabase : list Job -> completion unit)
    (isoNow : jsstring) (st : Server.Redis) :
  Server.get (Server.redis
                (Server.scheduledScrape processJobsDBBatch saveToDatabase isoNow st))
             Server.running = None
  /\ (Server.truthy (Server.get st Server.running) = true ->
      Server.calls (Server.scheduledScrape processJobsDBBatch saveToDatabase isoNow st)
      = []
      /\ (forall key, key <> Server.running ->
            Server.redis
              (Server.scheduledScrape processJobsDBBatch saveToDatabase isoNow st) key
            = st key)
      /\ forall keywords,
           Server.response
             (Server.scrape processJobsDBBatch saveToDatabase keywords
                (Server.redis
                   (Server.scheduledScrape processJobsDBBatch saveToDatabase isoNow st)))
           = Some (200, lit "Scraping started")).
Proof.
  split.
  - unfold Server.scheduledScrape.
    destruct (Server.truthy (Server.get st Server.running));
      [apply HandlerFacts.get_del_same|].
    destruct (processJobsDBBatch Server.scheduleKeywords) as [jobs|];
      [|apply HandlerFacts.get_del_same].
    destruct (saveToDatabase jobs); apply HandlerFacts.get_del_same.
  - intros Hset. unfold Server.scheduledScrape. rewrite Hset.
    cbn [Server.calls Server.redis]. split; [reflexivity|]. split.
    + intros key Hkey. apply HandlerFacts.del_other, HandlerFacts.neq_str_eqb, Hkey.
    + intros keywords. unfold Server.scrape.
      rewrite HandlerFacts.get_del_same. cbn [Server.truthy].
      destruct (processJobsDBBatch _) as [jobs|]; [|reflexivity].
      destruct (saveToDatabase jobs); reflexivity.
Qed.

Lemma scheduled_scrape_clears_foreign_flag_witness :
  Server.truthy
    (Server.get (Server.setex Server.running 3600 (lit "true") Server.empty)
                Server.running) = true
  /\ Server.get
       (Server.redis
          (Server.scheduledScrape (fun _ => Normal [tt]) (fun _ => Normal tt)
             (lit "2024-01-01T00:00:00.000Z")
             (Server.setex Server.running 3600 (lit "true") Server.empty)))
       Server.running = None
  /\ Server.calls
       (Server.scheduledScrape (fun _ => Normal [tt]) (fun _ => Normal tt)
          (lit "2024-01-01T00:00:00.000Z")
          (Server.setex Server.running 3600 (lit "true") Server.empty)) = [].
Proof.
  split; [vm_compute; reflexivity|].
  destruct (scheduled_scrape_clears_foreign_flag unit
              (fun _ : list jsstring => Normal [tt])
              (fun _ : list unit => Normal tt)
              (lit "2024-01-01T00:00:00.000Z")
              (Server.setex Server.running 3600 (lit "true") Server.empty))
    as (Hflag & Hskip).
  split; [exact Hflag|].
  apply Hskip. vm_compute. reflexivity.
Defined.

(** X5.  A request to scrape.  While the flag is set it is answered 409 and
    changes nothing.  Otherwise it is answered "Scraping started"
    before the scraping, and whether the scraping succeeds or fails
    the flag is unset in the end; the cached statistics are dropped
    when the jobs have been scraped and saved and kept otherwise; and
    the time and the count of the last run are never written, so that
    the status reports scheduled runs only. *)
Theorem scrape_request_holds_flag (Job : Type)
    (processJobsDBBatch : list jsstring -> completion (list Job))
    (saveToDatabase : list Job -> completion unit)
    (keywords : option (list jsstring)) (st : Server.Redis) :
  (Server.truthy (Server.get st Server.running) = true ->
   Server.scrape processJobsDBBatch saveToDatabase keywords st
   = Server.mkOutcome (Some (409, lit "Scraping already in progress")) st [] false)
  /\ (Server.truthy (Server.get st Server.running) = false ->
      Server.response (Server.scrape processJobsDBBatch saveToDatabase keywords st)
      = Some (200, lit "Scraping started")
      /\ Server.get (Server.redis
                       (Server.scrape processJobsDBBatch saveToDatabase keywords st))
                    Server.running = None
      /\ Server.get (Server.redis
                       (Server.scrape processJobsDBBatch saveToDatabase keywords st))
                    Server.stats
         = (if Server.failed (Server.scrape processJobsDBBatch saveToDatabase keywords st)
            then Server.get st Server.stats else None)
      /\ Server.get (Server.redis
                       (Server.scrape processJobsDBBatch saveToDatabase keywords st))
                    Server.last_run = Server.get st Server.last_run
      /\ Server.get (Server.redis
                       (Server.scrape processJobsDBBatch saveToDatabase keywords st))
                    Server.last_count = Server.get st Server.last_count).
Proof.
  unfold Server.scrape. split; intros Hflag; rewrite Hflag; [reflexivity|].
  destruct (processJobsDBBatch _) as [jobs|];
    [destruct (saveToDatabase jobs)|];
    cbn [Server.response Server.redis Server.failed];
    (split; [reflexivity|]);
    (split; [apply HandlerFacts.get_del_same|]);
    unfold Server.get;
    rewrite ?HandlerFacts.del_other, ?HandlerFacts.setex_other
      by (vm_compute; reflexivity);
    repeat split; try reflexivity.
Qed.

Lemma scrape_request_holds_flag_witness :
  Server.scrape (fun _ : list jsstring => Normal [tt]) (fun _ : list unit => Normal tt)
                None (Server.setex Server.running 3600 (lit "true") Server.empty)
  = Server.mkOutcome (Some (409, lit "Scraping already in progress"))
                     (Server.setex Server.running 3600 (lit "true") Server.empty)
                     [] false
  /\ Server.response
       (Server.scrape (fun _ : list jsstring => @Throw (list unit))
                      (fun _ : list unit => Normal tt) None Server.empty)
     = Some (200, lit "Scraping started").
Proof.
  split.
  - apply (proj1 (scrape_request_holds_flag unit
                    (fun _ : list jsstring => Normal [tt])
                    (fun _ : list unit => Normal tt) None
                    (Server.setex Server.running 3600 (lit "true") Server.empty))).
    vm_compute. reflexivity.
  - apply (proj2 (scrape_request_holds_flag unit
                    (fun _ : list jsstring => @Throw (list unit))
                    (fun _ : list unit => Normal tt) None Server.empty)).
    vm_compute. reflexivity.
Defined.

(** X6.  After a scheduled scraping that has scraped and saved its jobs,
    the status reports that nothing is running, the time of the run,
    and as last count the number of jobs: the count is written as a
    text and read back as the same number.  After a scheduled scraping
    that failed or did nothing, the time and the count are those of
    the run before. *)
Theorem status_reports_scheduled_run (Job : Type)
    (processJobsDBBatch : list jsstring -> completion (list Job))
    (saveToDatabase : list Job -> completion unit)
    (isoNow : jsstring) (st : Server.Redis) :
  (forall jobs,
     Server.truthy (Server.get st Server.running) = false ->
     processJobsDBBatch Server.scheduleKeywords = Normal jobs ->
     saveToDatabase jobs = Normal tt ->
     isoNow <> [] ->
     Server.scrapeStatus
       (Server.redis (Server.scheduledScrape processJobsDBBatch saveToDatabase isoNow st))
     = Server.mkStatus false (Some isoNow) (Some (Int (Z.of_nat (List.length jobs)))))
  /\ (Server.failed (Server.scheduledScrape processJobsDBBatch saveToDatabase isoNow st)
      = true
      \/ Server.truthy (Server.get st Server.running) = true ->
      Server.scrapeStatus
        (Server.redis (Server.scheduledScrape processJobsDBBatch saveToDatabase isoNow st))
      = Server.mkStatus false (Server.s_lastRun (Server.scrapeStatus st))
                        (Server.s_lastJobCount (Server.scrapeStatus st))).
Proof.
  split.
  - intros jobs Hflag Hbatch Hsave Hnow.
    unfold Server.scheduledScrape. rewrite Hflag, Hbatch, Hsave.
    cbn [Server.redis]. unfold Server.scrapeStatus.
    rewrite HandlerFacts.get_del_same. cbn [Server.truthy].
    unfold Server.get at 1 2 3 4.
    rewrite !HandlerFacts.del_other by (vm_compute; reflexivity).
    rewrite (HandlerFacts.setex_other Server.last_run Server.last_count)
      by (vm_compute; reflexivity).
    change (option_map fst (Server.setex Server.last_run 86400 isoNow
                              (Server.setex Server.running 3600 (lit "true") st)
                              Server.last_run))
      with (Server.get (Server.setex Server.last_run 86400 isoNow
                          (Server.setex Server.running 3600 (lit "true") st))
                       Server.last_run).
    rewrite HandlerFacts.get_setex_same.
    match goal with
    | |- context [option_map fst (Server.setex Server.last_count ?s ?v ?r Server.last_count)] =>
        change (option_map fst (Server.setex Server.last_count s v r Server.last_count))
          with (Server.get (Server.setex Server.last_count s v r) Server.last_count)
    end.
    rewrite HandlerFacts.get_setex_same, HandlerFacts.numberToString_truthy.
    cbn [option_map].
    rewrite (JSFacts.parseInt_numberToString_eq (Z.of_nat (List.length jobs)))
      by lia.
    destruct isoNow as [|c s]; [contradiction Hnow; reflexivity|reflexivity].
  - assert (Hkeep : Server.scrapeStatus (Server.del Server.running st)
                    = Server.mkStatus false (Server.s_lastRun (Server.scrapeStatus st))
                        (Server.s_lastJobCount (Server.scrapeStatus st))).
    { unfold Server.scrapeStatus. rewrite HandlerFacts.get_del_same.
      cbn [Server.truthy Server.s_lastRun Server.s_lastJobCount].
      unfold Server.get.
      rewrite !HandlerFacts.del_other by (vm_compute; reflexivity). reflexivity. }
    assert (Hkeep' : Server.scrapeStatus
                       (Server.del Server.running
                          (Server.setex Server.running 3600 (lit "true") st))
                     = Server.mkStatus false (Server.s_lastRun (Server.scrapeStatus st))
                         (Server.s_lastJobCount (Server.scrapeStatus st))).
    { unfold Server.scrapeStatus. rewrite HandlerFacts.get_del_same.
      cbn [Server.truthy Server.s_lastRun Server.s_lastJobCount].
      unfold Server.get.
      rewrite !HandlerFacts.del_other by (vm_compute; reflexivity).
      rewrite !HandlerFacts.setex_other by (vm_compute; reflexivity). reflexivity. }
    unfold Server.scheduledScrape.
    destruct (Server.truthy (Server.get st Server.running)) eqn:Hflag.
    + intros _. exact Hkeep.
    + destruct (processJobsDBBatch Server.scheduleKeywords) as [jobs|].
      * destruct (saveToDatabase jobs).
        -- cbn [Server.failed]. intros [H|H]; discriminate H.
        -- intros _. exact Hkeep'.
      * intros _. exact Hkeep'.
Qed.

Lemma status_reports_scheduled_run_witness :
  Server.scrapeStatus
    (Server.redis
       (Server.scheduledScrape (fun _ : list jsstring => Normal [tt; tt; tt])
          (fun _ : list unit => Normal tt) (lit "2024-01-01T00:00:00.000Z")
          Server.empty))
  = Server.mkStatus false (Some (lit "2024-01-01T00:00:00.000Z")) (Some (Int 3)).
Proof.
  apply (proj1 (status_reports_scheduled_run unit
                  (fun _ : list jsstring => Normal [tt; tt; tt])
                  (fun _ : list unit => Normal tt) (lit "2024-01-01T00:00:00.000Z")
                  Server.empty) [tt; tt; tt]).
  - vm_compute. reflexivity.
  - reflexivity.
  - reflexivity.
  - discriminate.
Defined.

(* ===================================================================== *)
(** * Facts about the rows of the trending answer                         *)
(* ===================================================================== *)

Module TrendingFacts.
Import JS Api TrendingAnalysis.





















End TrendingFacts.

(** ** The rows of the trending answer *)



(* ===================================================================== *)
(** * Facts about a group of digits at the start of a pattern             *)
(* ===================================================================== *)

Module DigitsFacts.
Import JS RegExp RegExpIndex.










End DigitsFacts.

(** ** Years of experience, read back *)



(* ===================================================================== *)
(** * Facts about what the extractors detect                              *)
(* ===================================================================== *)

Module DetectionFacts.
Import JS.

(** A pattern found in a text is found in every text that contains it. *)
Lemma test_embedded (re : RegExp.t) (d a b : jsstring) :
  test re d = true -> test re (a ++ d ++ b) = true.
Proof.
  intros H. apply RegExpFacts.test_true_inv in H.
  destruct H as (a' & b' & -> & Hm).
  apply (RegExpFacts.matchAt_frame re b' b) in Hm.
  unfold test, exec.
  replace (a ++ (a' ++ b') ++ b) with ((a ++ a') ++ (b' ++ b))
    by (rewrite <- !app_assoc; reflexivity).
  destruct (execFrom re ((a ++ a') ++ b' ++ b) 0) eqn:E; [reflexivity|].
  exfalso. exact (RegExpFacts.execFrom_skip re (b' ++ b) Hm (a ++ a') 0 E).
Qed.

Lemma includes_embedded (d a b w : jsstring) :
  includes d w = true -> includes (a ++ d ++ b) w = true.
Proof.
  intros H. apply JSFacts.includes_inv in H. destruct H as (x & y & ->).
  replace (a ++ (x ++ w ++ y) ++ b) with ((a ++ x) ++ w ++ (y ++ b))
    by (rewrite <- !app_assoc; reflexivity).
  apply JSFacts.includes_app.
Qed.

Lemma pushMatching_In (ps : list (jsstring * RegExp.t)) (d label : jsstring) :
  In label (Frontend.pushMatching ps d)
  <-> exists e, In e ps /\ fst e = label /\ test (snd e) d = true.
Proof.
  unfold Frontend.pushMatching. rewrite in_map_iff. split.
  - intros (e & He & Hin). apply filter_In in Hin. exists e. tauto.
  - intros (e & Hin & He & Ht). exists e. split; [exact He|].
    apply filter_In. tauto.
Qed.

Lemma pushMatching_embedded (ps : list (jsstring * RegExp.t)) (d a b : jsstring) :
  incl (Frontend.pushMatching ps d) (Frontend.pushMatching ps (a ++ d ++ b)).
Proof.
  intros label H. apply pushMatching_In in H. destruct H as (e & Hin & He & Ht).
  apply pushMatching_In. exists e. split; [exact Hin|]. split; [exact He|].
  apply test_embedded, Ht.
Qed.

Lemma flag_embedded (re : RegExp.t) (d a b : jsstring) :
  (if test re d then true else false) = true ->
  (if test re (a ++ d ++ b) then true else false) = true.
Proof.
  destruct (test re d) eqn:E; [|discriminate].
  intros _. rewrite (test_embedded re d a b E). reflexivity.
Qed.

Lemma dedup_acc_distinct (a : list jsstring) :
  NoDup a -> forall seen, (forall x, In x a -> ~ In x seen) -> dedup_acc seen a = a.
Proof.
  induction 1 as [|x a Hx Ha IH]; intros seen Hseen; [reflexivity|].
  cbn [dedup_acc].
  assert (E : existsb (str_eqb x) seen = false).
  { destruct (existsb (str_eqb x) seen) eqn:E; [|reflexivity].
    apply existsb_exists in E. destruct E as (y & Hy & E).
    apply JSFacts.str_eqb_eq in E. subst y.
    exfalso. exact (Hseen x (or_introl eq_refl) Hy). }
  rewrite E. f_equal. apply IH. intros y Hy [<-|Hin]; [contradiction|].
  exact (Hseen y (or_intror Hy) Hin).
Qed.

Lemma techKeywords_NoDup : NoDup Frontend.techKeywords.
Proof.
  assert (E : dedup_acc [] Frontend.techKeywords = Frontend.techKeywords)
    by (vm_compute; reflexivity).
  rewrite <- E. apply JSFacts.dedup_acc_NoDup.
Qed.

(** The first entry of an ordered table whose pattern is found decides;
    when the pattern of an entry is found, the label is that of the
    entry or of an entry before it. *)
Lemma industryLoop_reaches (pre post : list (jsstring * RegExp.t))
    (e : jsstring * RegExp.t) (d : jsstring) :
  test (snd e) d = true ->
  In (Integration.industryLoop (pre ++ e :: post) d) (List.map fst pre ++ [fst e]).
Proof.
  intros He. induction pre as [|[label pattern] pre IH]; cbn [app Integration.industryLoop].
  - destruct e as [label pattern]. cbn [snd] in He. rewrite He. left. reflexivity.
  - destruct (test pattern d); [left; reflexivity|right; exact IH].
Qed.

End DetectionFacts.

(** ** What the extractors detect *)

(** X9.  The technologies of a description are the keywords of the table it
    contains, case apart, in the order of the table and each once,
    however often and in whatever order the description names them:
    the [Set] the list goes through removes nothing. *)
Theorem tech_stack_follows_keyword_table (d : jsstring) :
  Frontend.extractTechStack d
  = filter (fun tech => includes (toLowerCase d) (toLowerCase tech))
           Frontend.techKeywords.
Proof.
  unfold Frontend.extractTechStack, setToArray. cbv zeta.
  apply DetectionFacts.dedup_acc_distinct.
  - apply NoDup_filter, DetectionFacts.techKeywords_NoDup.
  - intros x _ [].
Qed.

(** X10.  On the generic board, text added before or after a description
    never removes a detection: every technology and every education
    level found in the description is found in the longer text, and a
    security clearance that was required still is. *)
Theorem detections_survive_added_text (d before after : jsstring) :
  incl (Frontend.extractTechStack d)
       (Frontend.extractTechStack (before ++ d ++ after))
  /\ incl (Frontend.extractEducation d)
          (Frontend.extractEducation (before ++ d ++ after))
  /\ (Frontend.checkSecurityClearance d = true ->
      Frontend.checkSecurityClearance (before ++ d ++ after) = true).
Proof.
  split; [|split].
  - intros tech H. apply FrontendFacts.extractTechStack_In in H.
    destruct H as (Hk & Hin). apply FrontendFacts.extractTechStack_In.
    split; [exact Hk|]. rewrite !JSFacts.toLowerCase_app.
    apply DetectionFacts.includes_embedded, Hin.
  - apply DetectionFacts.pushMatching_embedded.
  - unfold Frontend.checkSecurityClearance. rewrite !existsb_exists.
    intros (p & Hp & Ht). exists p. split; [exact Hp|].
    apply DetectionFacts.test_embedded, Ht.
Qed.

Lemma detections_survive_added_text_witness :
  Frontend.checkSecurityClearance (lit "Top secret work") = true
  /\ Frontend.checkSecurityClearance
       (lit "Note: " ++ lit "Top secret work" ++ lit " is rare.") = true.
Proof.
  split; [vm_compute; reflexivity|].
  apply (detections_survive_added_text (lit "Top secret work") (lit "Note: ")
                                       (lit " is rare.")).
  vm_compute. reflexivity.
Defined.

(** X11.  In the regional profile as well: the languages and the benefits
    found in a description are found in every text that contains it,
    and each flag of the work permit and of the work arrangement that
    was raised stays raised. *)
Theorem regional_detections_survive_added_text (d before after : jsstring) :
  incl (Integration.extractLanguageRequirements d)
       (Integration.extractLanguageRequirements (before ++ d ++ after))
  /\ incl (Integration.extractHKBenefits d)
          (Integration.extractHKBenefits (before ++ d ++ after))
  /\ (Integration.permanentResidentRequired (Integration.checkWorkPermitRequirements d)
      = true ->
      Integration.permanentResidentRequired
        (Integration.checkWorkPermitRequirements (before ++ d ++ after)) = true)
  /\ (Integration.visaSponsorshipAvailable (Integration.checkWorkPermitRequirements d)
      = true ->
      Integration.visaSponsorshipAvailable
        (Integration.checkWorkPermitRequirements (before ++ d ++ after)) = true)
  /\ (Integration.workVisaAccepted (Integration.checkWorkPermitRequirements d) = true ->
      Integration.workVisaAccepted
        (Integration.checkWorkPermitRequirements (before ++ d ++ after)) = true)
  /\ (Integration.workFromHome (Integration.extractHKLocation d) = true ->
      Integration.workFromHome (Integration.extractHKLocation (before ++ d ++ after))
      = true)
  /\ (Integration.hybrid (Integration.extractHKLocation d) = true ->
      Integration.hybrid (Integration.extractHKLocation (before ++ d ++ after)) = true).
Proof.
  split; [apply DetectionFacts.pushMatching_embedded|].
  split; [apply DetectionFacts.pushMatching_embedded|].
  repeat split; apply DetectionFacts.flag_embedded.
Qed.

Lemma regional_detections_survive_added_text_witness :
  Integration.hybrid (Integration.extractHKLocation (lit "hybrid work")) = true
  /\ Integration.hybrid
       (Integration.extractHKLocation
          (lit "We offer " ++ lit "hybrid work" ++ lit " in Central.")) = true.
Proof.
  split; [vm_compute; reflexivity|].
  apply (regional_detections_survive_added_text (lit "hybrid work") (lit "We offer ")
                                                (lit " in Central.")).
  vm_compute. reflexivity.
Defined.

(** X12.  One of the words "remote", "work from home", "distributed" and
    "anywhere" anywhere in a description makes its location "Remote",
    whatever else it says: a description that also says "hybrid", or
    that says "No remote work" as the sixth description of the mock
    jobs does, is located "Remote". *)
Theorem remote_word_decides_location (d : jsstring) :
  (includes d (lit "remote") = true \/ includes d (lit "work from home") = true
   \/ includes d (lit "distributed") = true \/ includes d (lit "anywhere") = true ->
   Frontend.extractLocation d = lit "Remote")
  /\ (Frontend.extractLocation d = lit "Hybrid" ->
      test Frontend.remotePattern d = false)
  /\ Frontend.extractLocation (nth 5 Frontend.descriptions []) = lit "Remote".
Proof.
  split; [|split].
  - intros H. unfold Frontend.extractLocation.
    assert (Ht : test Frontend.remotePattern d = true).
    { destruct H as [H|[H|[H|H]]];
        (eapply RegExpFacts.test_includes; [|exact H]); vm_compute; discriminate. }
    rewrite Ht. reflexivity.
  - unfold Frontend.extractLocation.
    destruct (test Frontend.remotePattern d); [|reflexivity].
    intros H. vm_compute in H. discriminate H.
  - vm_compute. reflexivity.
Qed.

Lemma remote_word_decides_location_witness :
  includes (lit "No remote work. Hybrid is not offered either.") (lit "remote") = true
  /\ Frontend.extractLocation (lit "No remote work. Hybrid is not offered either.")
     = lit "Remote".
Proof.
  split; [vm_compute; reflexivity|].
  apply (proj1 (remote_word_decides_location
                  (lit "No remote work. Hybrid is not offered either."))).
  left. vm_compute. reflexivity.
Defined.

(** X13.  The pattern of "Technology" holds the alternative [IT] and is
    matched whatever the case: a description in which the letters "it"
    follow each other, as in "position" or "with", is classified in
    one of the six industries from "Banking & Finance" to "Technology"
    and never as "Healthcare", "Education", "Government" or "Other". *)
Theorem letters_it_make_technology (d : jsstring) :
  includes d (lit "it") = true \/ includes d (lit "It") = true
  \/ includes d (lit "iT") = true \/ includes d (lit "IT") = true ->
  In (Integration.classifyHKIndustry d)
     (List.map lit [ "Banking & Finance"; "Insurance"; "Real Estate"; "Retail";
                     "Logistics"; "Technology" ]%string)
  /\ ~ In (Integration.classifyHKIndustry d)
          (List.map lit [ "Healthcare"; "Education"; "Government"; "Other" ]%string).
Proof.
  intros H.
  assert (Ht : test (snd (nth 5 Integration.industries ([], make "" ""))) d = true).
  { destruct H as [H|[H|[H|H]]];
      (eapply RegExpFacts.test_includes; [|exact H]); vm_compute; discriminate. }
  assert (Hin : In (Integration.classifyHKIndustry d)
                   (List.map lit [ "Banking & Finance"; "Insurance"; "Real Estate";
                                   "Retail"; "Logistics"; "Technology" ]%string)).
  { exact (DetectionFacts.industryLoop_reaches
             (firstn 5 Integration.industries) (skipn 6 Integration.industries)
             (nth 5 Integration.industries ([], make "" "")) d Ht). }
  split; [exact Hin|].
  intros Hout. revert Hin Hout.
  generalize (Integration.classifyHKIndustry d). intros label Hin Hout.
  cbn [List.map In] in Hin, Hout.
  repeat (destruct Hin as [Hin|Hin];
          [subst label; vm_compute in Hout; intuition discriminate|]).
  exact Hin.
Qed.

Lemma letters_it_make_technology_witness :
  includes (lit "Teaching position at the university") (lit "it") = true
  /\ Integration.classifyHKIndustry (lit "Teaching position at the university")
     = lit "Technology"
  /\ ~ In (Integration.classifyHKIndustry (lit "Teaching position at the university"))
          (List.map lit [ "Healthcare"; "Education"; "Government"; "Other" ]%string).
Proof.
  split; [vm_compute; reflexivity|]. split; [vm_compute; reflexivity|].
  apply (letters_it_make_technology (lit "Teaching position at the university")).
  left. vm_compute. reflexivity.
Defined.

(** X14.  The pattern of "Annual Leave" holds the alternative [AL] and is
    matched whatever the case: every description in which the letters
    "al" follow each other, as in "medical", "dental" or "salary", is
    given the benefit "Annual Leave". *)
Theorem letters_al_make_annual_leave (d : jsstring) :
  includes d (lit "al") = true \/ includes d (lit "Al") = true
  \/ includes d (lit "aL") = true \/ includes d (lit "AL") = true ->
  In (lit "Annual Leave") (Integration.extractHKBenefits d).
Proof.
  intros H. apply DetectionFacts.pushMatching_In.
  exists (nth 4 Integration.benefitPatterns ([], make "" "")).
  split; [vm_compute; tauto|]. split; [reflexivity|].
  destruct H as [H|[H|[H|H]]];
    (eapply RegExpFacts.test_includes; [|exact H]); vm_compute; discriminate.
Qed.

Lemma letters_al_make_annual_leave_witness :
  includes (lit "Competitive salary and dental plan") (lit "al") = true
  /\ In (lit "Annual Leave")
        (Integration.extractHKBenefits (lit "Competitive salary and dental plan"))
  /\ Integration.extractHKBenefits (lit "Competitive salary and dental plan")
     = [lit "Dental Coverage"; lit "Annual Leave"].
Proof.
  split; [vm_compute; reflexivity|]. split; [|vm_compute; reflexivity].
  apply (letters_al_make_annual_leave (lit "Competitive salary and dental plan")).
  left. vm_compute. reflexivity.
Defined.

(* ===================================================================== *)
(** * Facts about the handlers of the generic board                       *)
(* ===================================================================== *)

Module BoardFacts.
Import JS Frontend Board.

Lemma arrayIncludes_In (a : list jsstring) (x : jsstring) :
  arrayIncludes a x = true <-> In x a.
Proof.
  unfold arrayIncludes. rewrite existsb_exists. split.
  - intros (y & Hy & E). apply JSFacts.str_eqb_eq in E. subst y. exact Hy.
  - intros H. exists x. split; [exact H|apply JSFacts.str_eqb_refl].
Qed.

Lemma arrayIncludes_false (a : list jsstring) (x : jsstring) :
  arrayIncludes a x = false <-> ~ In x a.
Proof.
  split.
  - intros E H. apply arrayIncludes_In in H. rewrite H in E. discriminate E.
  - intros H. destruct (arrayIncludes a x) eqn:E; [|reflexivity].
    exfalso. apply H, arrayIncludes_In, E.
Qed.

Lemma str_eqb_neq (a b : jsstring) : str_eqb a b = false <-> a <> b.
Proof.
  split.
  - intros E H. apply JSFacts.str_eqb_eq in H. rewrite H in E. discriminate E.
  - intros H. destruct (str_eqb a b) eqn:E; [|reflexivity].
    exfalso. apply H, JSFacts.str_eqb_eq, E.
Qed.

(** The list [selected] after [x] has been switched in it. *)
Lemma In_switched (x t : jsstring) (selected : list jsstring) :
  In t (if arrayIncludes selected x
        then filter (fun u => negb (str_eqb u x)) selected
        else selected ++ [x])
  <-> (t = x /\ ~ In x selected) \/ (t <> x /\ In t selected).
Proof.
  destruct (arrayIncludes selected x) eqn:E.
  - apply arrayIncludes_In in E. rewrite filter_In. split.
    + intros (Ht & Hneq). right. split; [|exact Ht].
      apply str_eqb_neq. destruct (str_eqb t x); [discriminate Hneq|reflexivity].
    + intros [(-> & Hn)|(Hneq & Ht)]; [contradiction|].
      split; [exact Ht|]. apply str_eqb_neq in Hneq. rewrite Hneq. reflexivity.
  - apply arrayIncludes_false in E. rewrite in_app_iff. cbn [In]. split.
    + intros [Ht|[<-|[]]].
      * right. split; [|exact Ht]. intros ->. contradiction.
      * left. split; [reflexivity|exact E].
    + intros [(-> & _)|(_ & Ht)]; [right; left; reflexivity|left; exact Ht].
Qed.

Lemma filter_absent (x : jsstring) (l : list jsstring) :
  ~ In x l -> filter (fun u => negb (str_eqb u x)) l = l.
Proof.
  induction l as [|y l IH]; intros H; [reflexivity|].
  cbn [filter]. destruct (str_eqb y x) eqn:E.
  - apply JSFacts.str_eqb_eq in E. subst y. exfalso. apply H. left. reflexivity.
  - cbn [negb]. rewrite IH; [reflexivity|]. intros Hin. apply H. right. exact Hin.
Qed.

Lemma switched_twice (x : jsstring) (l : list jsstring) :
  let once := if arrayIncludes l x
              then filter (fun u => negb (str_eqb u x)) l else l ++ [x] in
  let twice := if arrayIncludes once x
               then filter (fun u => negb (str_eqb u x)) once else once ++ [x] in
  (~ In x l -> twice = l)
  /\ (In x l -> twice = filter (fun u => negb (str_eqb u x)) l ++ [x]).
Proof.
  cbv zeta. split; intros H.
  - rewrite (proj2 (arrayIncludes_false l x) H).
    rewrite (proj2 (arrayIncludes_In (l ++ [x]) x))
      by (apply in_or_app; right; left; reflexivity).
    rewrite filter_app, (filter_absent x l H). cbn [filter].
    rewrite JSFacts.str_eqb_refl. cbn [negb]. apply app_nil_r.
  - rewrite (proj2 (arrayIncludes_In l x) H).
    rewrite (proj2 (arrayIncludes_false _ x)); [reflexivity|].
    rewrite filter_In. intros (_ & Hneq).
    rewrite JSFacts.str_eqb_refl in Hneq. discriminate Hneq.
Qed.

Lemma switched_NoDup (x : jsstring) (l : list jsstring) :
  NoDup l ->
  NoDup (if arrayIncludes l x
         then filter (fun u => negb (str_eqb u x)) l else l ++ [x]).
Proof.
  intros Hl. destruct (arrayIncludes l x) eqn:E.
  - apply NoDup_filter, Hl.
  - apply arrayIncludes_false in E. clear -Hl E.
    induction Hl as [|y l Hy Hl IH]; [constructor; [intros []|constructor]|].
    cbn [app]. constructor.
    + rewrite in_app_iff. cbn [In]. intros [H|[H|[]]]; [contradiction|].
      subst y. apply E. left. reflexivity.
    + apply IH. intros H. apply E. right. exact H.
Qed.

(** A filter that is applied or not. *)
Lemma cond_filter (A : Type) (c : bool) (p : A -> bool) (l : list A) :
  (if c then filter p l else l) = filter (fun x => implb c (p x)) l.
Proof.
  destruct c; cbn [implb]; [reflexivity|].
  induction l as [|x l IH]; [reflexivity|]. cbn [filter]. rewrite <- IH. reflexivity.
Qed.

Lemma filter_filter (A : Type) (p q : A -> bool) (l : list A) :
  filter p (filter q l) = filter (fun x => q x && p x) l.
Proof.
  induction l as [|x l IH]; [reflexivity|].
  cbn [filter]. destruct (q x); cbn [andb filter]; rewrite IH; reflexivity.
Qed.

Lemma filter_twice (A : Type) (p : A -> bool) (l : list A) :
  filter p (filter p l) = filter p l.
Proof.
  induction l as [|x l IH]; [reflexivity|].
  cbn [filter]. destruct (p x) eqn:E; [|exact IH].
  cbn [filter]. rewrite E, IH. reflexivity.
Qed.

Lemma In_cond_filter (A : Type) (c : bool) (p : A -> bool) (l : list A) (x : A) :
  In x (if c then filter p l else l) -> In x l.
Proof. destruct c; [|exact (fun H => H)]. intros H. apply filter_In in H. apply H. Qed.

Lemma cond_filter_nil (A : Type) (c : bool) (p : A -> bool) :
  (if c then filter p [] else []) = @nil A.
Proof. destruct c; reflexivity. Qed.

(** The effect keeps the jobs that pass one test, the same for every
    list of jobs. *)
Lemma applyFilters_filter (s : jsstring) (f : Filters) :
  exists p, forall jobs, applyFilters jobs s f = filter p jobs.
Proof.
  eexists. intros jobs. unfold applyFilters. cbv zeta.
  rewrite !cond_filter, !filter_filter. reflexivity.
Qed.

Lemma insertSorted_In (x y : jsstring) (l : list jsstring) :
  In y (insertSorted x l) <-> y = x \/ In y l.
Proof.
  induction l as [|z l IH]; cbn [insertSorted In].
  - split; [intros [H|[]]; left; symmetry; exact H|intros [H|[]]; left; symmetry; exact H].
  - destruct (stringLt z x); cbn [In]; [rewrite IH|]; intuition congruence.
Qed.

Lemma sort_In (y : jsstring) (l : list jsstring) : In y (sort l) <-> In y l.
Proof.
  induction l as [|x l IH]; [reflexivity|].
  unfold sort in *. cbn [fold_right In]. rewrite insertSorted_In, IH.
  intuition congruence.
Qed.

Lemma insertSorted_NoDup (x : jsstring) (l : list jsstring) :
  ~ In x l -> NoDup l -> NoDup (insertSorted x l).
Proof.
  induction l as [|z l IH]; intros Hx Hl; cbn [insertSorted].
  - constructor; [intros []|constructor].
  - destruct (stringLt z x).
    + inversion Hl as [|? ? Hz Hl']; subst. constructor.
      * rewrite insertSorted_In. intros [->|H]; [|contradiction].
        apply Hx. left. reflexivity.
      * apply IH; [|exact Hl']. intros H. apply Hx. right. exact H.
    + constructor; assumption.
Qed.

Lemma sort_NoDup (l : list jsstring) : NoDup l -> NoDup (sort l).
Proof.
  induction 1 as [|x l Hx Hl IH]; [constructor|].
  unfold sort in *. cbn [fold_right]. apply insertSorted_NoDup; [|exact IH].
  intros H. apply Hx. apply (proj1 (sort_In x l)). exact H.
Qed.

End BoardFacts.

(** ** The filter panel of the generic board *)

(** X15.  A click on a technology or on an education level switches it in
    the selection: it is selected afterwards exactly when it was not
    before, every other entry is selected as before, and no other
    filter changes. *)
Theorem toggle_switches_one_entry (x : jsstring) (prev : Frontend.Filters) :
  (forall t, In t (Frontend.f_techStack (Board.toggleTechFilter x prev))
             <-> (t = x /\ ~ In x (Frontend.f_techStack prev))
                 \/ (t <> x /\ In t (Frontend.f_techStack prev)))
  /\ (forall e, In e (Frontend.f_education (Board.toggleEducationFilter x prev))
                <-> (e = x /\ ~ In x (Frontend.f_education prev))
                    \/ (e <> x /\ In e (Frontend.f_education prev)))
  /\ Board.toggleTechFilter x prev
     = Frontend.mkFilters
         (Frontend.f_techStack (Board.toggleTechFilter x prev))
         (Frontend.f_minExperience prev) (Frontend.f_maxExperience prev)
         (Frontend.f_visaSponsorship prev) (Frontend.f_securityClearance prev)
         (Frontend.f_education prev) (Frontend.f_location prev)
         (Frontend.f_minSalary prev)
  /\ Board.toggleEducationFilter x prev
     = Frontend.mkFilters
         (Frontend.f_techStack prev)
         (Frontend.f_minExperience prev) (Frontend.f_maxExperience prev)
         (Frontend.f_visaSponsorship prev) (Frontend.f_securityClearance prev)
         (Frontend.f_education (Board.toggleEducationFilter x prev))
         (Frontend.f_location prev) (Frontend.f_minSalary prev).
Proof.
  split; [intros t; apply BoardFacts.In_switched|].
  split; [intros e; apply BoardFacts.In_switched|].
  split; reflexivity.
Qed.

Lemma toggle_switches_one_entry_witness :
  In (lit "React")
     (Frontend.f_techStack (Board.toggleTechFilter (lit "React") (Board.onlyTech (lit "Go"))))
  /\ In (lit "Go")
        (Frontend.f_techStack
           (Board.toggleTechFilter (lit "React") (Board.onlyTech (lit "Go")))).
Proof.
  destruct (toggle_switches_one_entry (lit "React") (Board.onlyTech (lit "Go")))
    as (Htech & _).
  split.
  - apply (proj2 (Htech (lit "React"))). left. split; [reflexivity|].
    cbn. intros [H|[]]. discriminate H.
  - apply (proj2 (Htech (lit "Go"))). right. split; [discriminate|].
    cbn. left. reflexivity.
Defined.

(** X16.  Two clicks on the same technology.  When it was not selected the
    filters are again what they were; when it was, every occurrence of
    it has been removed and one put back at the end, so the selection
    has the same entries.  A selection without duplicates stays
    without duplicates. *)
Theorem toggle_twice_restores_selection (tech : jsstring) (prev : Frontend.Filters) :
  (~ In tech (Frontend.f_techStack prev) ->
   Board.toggleTechFilter tech (Board.toggleTechFilter tech prev) = prev)
  /\ (In tech (Frontend.f_techStack prev) ->
      Frontend.f_techStack (Board.toggleTechFilter tech (Board.toggleTechFilter tech prev))
      = filter (fun t => negb (str_eqb t tech)) (Frontend.f_techStack prev) ++ [tech])
  /\ (NoDup (Frontend.f_techStack prev) ->
      NoDup (Frontend.f_techStack (Board.toggleTechFilter tech prev)))
  /\ (NoDup (Frontend.f_education prev) ->
      NoDup (Frontend.f_education (Board.toggleEducationFilter tech prev))).
Proof.
  destruct (BoardFacts.switched_twice tech (Frontend.f_techStack prev)) as (Hout & Hin).
  cbv zeta in Hout, Hin.
  split; [|split; [|split]].
  - intros H. destruct prev as [ts mn mx vs sc ed lo ms].
    unfold Board.toggleTechFilter. cbn [Frontend.f_techStack Frontend.f_minExperience
      Frontend.f_maxExperience Frontend.f_visaSponsorship Frontend.f_securityClearance
      Frontend.f_education Frontend.f_location Frontend.f_minSalary] in *.
    rewrite (Hout H). reflexivity.
  - intros H. unfold Board.toggleTechFilter. cbn [Frontend.f_techStack].
    apply (Hin H).
  - apply BoardFacts.switched_NoDup.
  - apply BoardFacts.switched_NoDup.
Qed.

Lemma toggle_twice_restores_selection_witness :
  Board.toggleTechFilter (lit "React")
    (Board.toggleTechFilter (lit "React") (Board.onlyTech (lit "Go")))
  = Board.onlyTech (lit "Go")
  /\ NoDup (Frontend.f_techStack
              (Board.toggleTechFilter (lit "React") (Board.onlyTech (lit "Go")))).
Proof.
  destruct (toggle_twice_restores_selection (lit "React") (Board.onlyTech (lit "Go")))
    as (Hout & _ & Hnodup & _).
  split.
  - apply Hout. cbn. intros [H|[]]. discriminate H.
  - apply Hnodup. cbn. constructor; [intros []|constructor].
Defined.

(** X17.  The filter effect judges each job on its own: the jobs shown for
    two lists put together are those shown for each, in the same
    order; applying the same filters to the jobs shown changes
    nothing; and every job shown is one of the jobs given. *)
Theorem filters_judge_each_job (jobs more : list Frontend.Job) (searchTerm : jsstring)
    (filters : Frontend.Filters) :
  Frontend.applyFilters (jobs ++ more) searchTerm filters
  = Frontend.applyFilters jobs searchTerm filters
    ++ Frontend.applyFilters more searchTerm filters
  /\ Frontend.applyFilters (Frontend.applyFilters jobs searchTerm filters)
                           searchTerm filters
     = Frontend.applyFilters jobs searchTerm filters
  /\ (forall job, In job (Frontend.applyFilters jobs searchTerm filters) -> In job jobs).
Proof.
  destruct (BoardFacts.applyFilters_filter searchTerm filters) as (p & Hp).
  rewrite !Hp. split; [apply filter_app|].
  split; [apply BoardFacts.filter_twice|].
  intros job H. apply filter_In in H. apply H.
Qed.

Lemma filters_judge_each_job_witness :
  In (Frontend.mkJob 1 (lit "Acme") (lit "Engineer") (lit "Remote work.")
        (Frontend.mkJobAnnotations [lit "Go"] None None false [] None
                                   (lit "Remote") (lit "Remote work...")))
     [Frontend.mkJob 1 (lit "Acme") (lit "Engineer") (lit "Remote work.")
        (Frontend.mkJobAnnotations [lit "Go"] None None false [] None
                                   (lit "Remote") (lit "Remote work..."))].
Proof.
  apply (proj2 (proj2 (filters_judge_each_job
                         [Frontend.mkJob 1 (lit "Acme") (lit "Engineer")
                            (lit "Remote work.")
                            (Frontend.mkJobAnnotations [lit "Go"] None None false []
                               None (lit "Remote") (lit "Remote work..."))]
                         [] (lit "acme") (Board.onlyTech (lit "Go"))))).
  vm_compute. left. reflexivity.
Defined.

(** X18.  A bound that is not a number hides every job: when the minimum or
    maximum experience or the minimum salary is set to a text
    [parseInt] reads no number in, no job passes the comparison. *)
Theorem non_numeric_bound_hides_every_job (jobs : list Frontend.Job)
    (searchTerm : jsstring) (filters : Frontend.Filters) :
  (Frontend.f_minExperience filters <> []
   /\ parseInt (Frontend.f_minExperience filters) = NaN)
  \/ (Frontend.f_maxExperience filters <> []
      /\ parseInt (Frontend.f_maxExperience filters) = NaN)
  \/ (Frontend.f_minSalary filters <> []
      /\ parseInt (Frontend.f_minSalary filters) = NaN) ->
  Frontend.applyFilters jobs searchTerm filters = [].
Proof.
  assert (Hnone : forall (A : Type) (p : A -> bool) (l : list A),
            (forall x, p x = false) -> filter p l = []).
  { intros A p l H. induction l as [|x l IH]; [reflexivity|].
    cbn [filter]. rewrite H. exact IH. }
  assert (Htruthy : forall s : jsstring, s <> [] -> Frontend.truthy s = true).
  { intros [|c s] H; [contradiction H; reflexivity|reflexivity]. }
  intros [(Hset & Hnan)|[(Hset & Hnan)|(Hset & Hnan)]];
    unfold Frontend.applyFilters; cbv zeta;
    rewrite (Htruthy _ Hset), Hnan.
  - rewrite (Hnone _ (fun job : Frontend.Job =>
               match Frontend.yearsOfExperience (Frontend.annotations job) with
               | Some y => geq y NaN
               | None => false
               end)).
    + rewrite !BoardFacts.cond_filter_nil. reflexivity.
    + intros job. destruct (Frontend.yearsOfExperience _) as [[|y]|]; reflexivity.
  - rewrite (Hnone _ (fun job : Frontend.Job =>
               match Frontend.yearsOfExperience (Frontend.annotations job) with
               | Some y => Frontend.leq y NaN
               | None => false
               end)).
    + rewrite !BoardFacts.cond_filter_nil. reflexivity.
    + intros job. destruct (Frontend.yearsOfExperience _) as [[|y]|]; reflexivity.
  - apply Hnone. intros job.
    destruct (Frontend.salary _) as [[[|a] b]|]; reflexivity.
Qed.

Lemma non_numeric_bound_hides_every_job_witness :
  parseInt (lit "five") = NaN
  /\ Frontend.applyFilters
       [Frontend.mkJob 1 (lit "Acme") (lit "Engineer") (lit "5+ years of experience")
          (Frontend.mkJobAnnotations [] (Some (Int 5)) None false [] None
                                     (lit "On-site") (lit "5+ years of experience..."))]
       []
       (Frontend.mkFilters [] (lit "five") [] [] [] [] [] []) = [].
Proof.
  split; [vm_compute; reflexivity|].
  apply non_numeric_bound_hides_every_job.
  left. split; [discriminate|vm_compute; reflexivity].
Defined.

(** X19.  With the sponsorship filter set, every job shown has a known
    answer, the one asked for: a job whose sponsorship is unknown is
    shown under neither choice, and a choice other than "yes" shows
    the jobs that do not sponsor. *)
Theorem visa_filter_hides_unknown (jobs : list Frontend.Job) (searchTerm : jsstring)
    (filters : Frontend.Filters) (job : Frontend.Job) :
  Frontend.f_visaSponsorship filters <> [] ->
  In job (Frontend.applyFilters jobs searchTerm filters) ->
  Frontend.visaSponsorship (Frontend.annotations job)
  = Some (str_eqb (Frontend.f_visaSponsorship filters) (lit "yes")).
Proof.
  intros Hset Hin. unfold Frontend.applyFilters in Hin. cbv zeta in Hin.
  do 4 apply BoardFacts.In_cond_filter in Hin.
  destruct (Frontend.f_visaSponsorship filters) as [|c s] eqn:E;
    [contradiction Hset; reflexivity|].
  cbn [Frontend.truthy] in Hin. apply filter_In in Hin. destruct Hin as (_ & Hv).
  destruct (Frontend.visaSponsorship (Frontend.annotations job)) as [v|];
    [|discriminate Hv].
  apply Bool.eqb_prop in Hv. rewrite Hv. reflexivity.
Qed.

Lemma visa_filter_hides_unknown_witness :
  In (Frontend.mkJob 1 (lit "Acme") (lit "Engineer") (lit "Unable to sponsor.")
        (Frontend.mkJobAnnotations [] None (Some false) false [] None
                                   (lit "On-site") (lit "Unable to sponsor.")))
     (Frontend.applyFilters
        [Frontend.mkJob 1 (lit "Acme") (lit "Engineer") (lit "Unable to sponsor.")
           (Frontend.mkJobAnnotations [] None (Some false) false [] None
                                      (lit "On-site") (lit "Unable to sponsor."));
         Frontend.mkJob 2 (lit "Acme") (lit "Designer") (lit "Join us.")
           (Frontend.mkJobAnnotations [] None None false [] None
                                      (lit "On-site") (lit "Join us."))]
        []
        (Frontend.mkFilters [] [] [] (lit "maybe") [] [] [] []))
  /\ Frontend.visaSponsorship
       (Frontend.mkJobAnnotations [] None (Some false) false [] None
                                  (lit "On-site") (lit "Unable to sponsor."))
     = Some false.
Proof.
  split; [vm_compute; left; reflexivity|].
  apply (visa_filter_hides_unknown
           [Frontend.mkJob 1 (lit "Acme") (lit "Engineer") (lit "Unable to sponsor.")
              (Frontend.mkJobAnnotations [] None (Some false) false [] None
                                         (lit "On-site") (lit "Unable to sponsor."));
            Frontend.mkJob 2 (lit "Acme") (lit "Designer") (lit "Join us.")
              (Frontend.mkJobAnnotations [] None None false [] None
                                         (lit "On-site") (lit "Join us."))]
           []
           (Frontend.mkFilters [] [] [] (lit "maybe") [] [] [] [])
           (Frontend.mkJob 1 (lit "Acme") (lit "Engineer") (lit "Unable to sponsor.")
              (Frontend.mkJobAnnotations [] None (Some false) false [] None
                                         (lit "On-site") (lit "Unable to sponsor.")))).
  - discriminate.
  - vm_compute. left. reflexivity.
Defined.

(** X20.  The technologies the panel offers are those of the jobs, each
    offered once: a technology is offered exactly when selecting it
    alone leaves at least one job. *)
Theorem tech_options_select_jobs (jobs : list Frontend.Job) (tech : jsstring) :
  (In tech (Board.allTechStack jobs)
   <-> Frontend.applyFilters jobs [] (Board.onlyTech tech) <> [])
  /\ (In tech (Board.allTechStack jobs)
      <-> exists job, In job jobs
                      /\ In tech (Frontend.techStack (Frontend.annotations job)))
  /\ NoDup (Board.allTechStack jobs).
Proof.
  assert (Hoffered : In tech (Board.allTechStack jobs)
            <-> exists job, In job jobs
                   /\ In tech (Frontend.techStack (Frontend.annotations job))).
  { unfold Board.allTechStack.
    rewrite BoardFacts.sort_In, JSFacts.setToArray_In, in_flat_map. reflexivity. }
  split; [|split; [exact Hoffered|]].
  - rewrite Hoffered.
    assert (Hshown : Frontend.applyFilters jobs [] (Board.onlyTech tech)
              = filter (fun job =>
                          Frontend.arrayIncludes
                            (Frontend.techStack (Frontend.annotations job)) tech
                          && true) jobs) by reflexivity.
    rewrite Hshown. split.
    + intros (job & Hjob & Htech) Hnil.
      assert (Hin : In job (filter (fun job =>
                       Frontend.arrayIncludes
                         (Frontend.techStack (Frontend.annotations job)) tech
                       && true) jobs)).
      { apply filter_In. split; [exact Hjob|].
        rewrite (proj2 (BoardFacts.arrayIncludes_In _ _) Htech). reflexivity. }
      rewrite Hnil in Hin. exact Hin.
    + intros Hne.
      destruct (filter _ jobs) as [|job rest] eqn:E; [contradiction Hne; reflexivity|].
      assert (Hin : In job (job :: rest)) by (left; reflexivity).
      rewrite <- E in Hin. apply filter_In in Hin. destruct Hin as (Hjob & Htech).
      exists job. split; [exact Hjob|].
      apply BoardFacts.arrayIncludes_In.
      destruct (Frontend.arrayIncludes _ tech); [reflexivity|discriminate Htech].
  - unfold Board.allTechStack. apply BoardFacts.sort_NoDup.
    apply JSFacts.dedup_acc_NoDup.
Qed.

Lemma tech_options_select_jobs_witness :
  Frontend.applyFilters
    [Frontend.mkJob 1 (lit "Acme") (lit "Engineer") (lit "Go and Rust.")
       (Frontend.mkJobAnnotations [lit "Go"; lit "Rust"] None None false [] None
                                  (lit "On-site") (lit "Go and Rust..."))]
    [] (Board.onlyTech (lit "Rust")) <> []
  /\ In (lit "Rust")
        (Board.allTechStack
           [Frontend.mkJob 1 (lit "Acme") (lit "Engineer") (lit "Go and Rust.")
              (Frontend.mkJobAnnotations [lit "Go"; lit "Rust"] None None false [] None
                                         (lit "On-site") (lit "Go and Rust..."))]).
Proof.
  assert (Hshown :
    Frontend.applyFilters
      [Frontend.mkJob 1 (lit "Acme") (lit "Engineer") (lit "Go and Rust.")
         (Frontend.mkJobAnnotations [lit "Go"; lit "Rust"] None None false [] None
                                    (lit "On-site") (lit "Go and Rust..."))]
      [] (Board.onlyTech (lit "Rust")) <> [])
    by (vm_compute; discriminate).
  split; [exact Hshown|].
  apply (proj2 (proj1 (tech_options_select_jobs
                         [Frontend.mkJob 1 (lit "Acme") (lit "Engineer")
                            (lit "Go and Rust.")
                            (Frontend.mkJobAnnotations [lit "Go"; lit "Rust"] None None
                               false [] None (lit "On-site") (lit "Go and Rust..."))]
                         (lit "Rust")))).
  exact Hshown.
Defined.

(** ** The pages of the regional board *)

(** X21.  The current page stays between 1 and the number of pages under
    the two buttons; the first page is its own previous page and the
    last its own next page; anywhere else each button undoes the
    other. *)
Theorem pages_stay_in_range (totalPages page : Z) :
  (1 <= totalPages -> 1 <= page <= totalPages ->
   1 <= HKBoard.previousPage page <= totalPages
   /\ 1 <= HKBoard.nextPage totalPages page <= totalPages
   /\ (page < totalPages ->
       HKBoard.previousPage (HKBoard.nextPage totalPages page) = page)
   /\ (1 < page ->
       HKBoard.nextPage totalPages (HKBoard.previousPage page) = page)
   /\ HKBoard.previousPage 1 = 1
   /\ HKBoard.nextPage totalPages totalPages = totalPages)%Z.
Proof.
  unfold HKBoard.previousPage, HKBoard.nextPage. intros Ht Hp.
  repeat split; lia.
Qed.

Lemma pages_stay_in_range_witness :
  (HKBoard.previousPage (HKBoard.nextPage 5 1) = 1
   /\ HKBoard.nextPage 5 5 = 5)%Z.
Proof.
  destruct (pages_stay_in_range 5 1 ltac:(lia) ltac:(lia))
    as (_ & _ & Hundo & _ & _ & Hlast).
  split; [apply Hundo; lia|exact Hlast].
Defined.

(** ** The dates of the regional board *)

(** X22.  How [formatDate] words the age of a posting, whatever the host
    reads and writes as dates.  A posting of the last twenty-four hours
    is of "Today", of the twenty-four hours before of "Yesterday", then
    "2 days ago" to "6 days ago"; from seven days on, and for a text
    that is no date, the date is written by the host.  A date in the
    future is never written as a date: it is given a negative number
    of days, as in "-1 days ago". *)
Theorem format_date_by_age (parseDate : jsstring -> option Z)
    (toLocaleDateString : option Z -> jsstring) (now : Z) (dateString : jsstring) :
  (parseDate dateString = None ->
   HKBoard.formatDate parseDate toLocaleDateString now dateString
   = toLocaleDateString None)
  /\ (forall t, parseDate dateString = Some t ->
        (0 <= now - t < HKBoard.millisecondsPerDay ->
         HKBoard.formatDate parseDate toLocaleDateString now dateString = lit "Today")
        /\ (HKBoard.millisecondsPerDay <= now - t < 2 * HKBoard.millisecondsPerDay ->
            HKBoard.formatDate parseDate toLocaleDateString now dateString
            = lit "Yesterday")
        /\ (forall days, 2 <= days < 7 ->
              days * HKBoard.millisecondsPerDay <= now - t
                < (days + 1) * HKBoard.millisecondsPerDay ->
              HKBoard.formatDate parseDate toLocaleDateString now dateString
              = numberToString (Int days) ++ lit " days ago")
        /\ (7 * HKBoard.millisecondsPerDay <= now - t ->
            HKBoard.formatDate parseDate toLocaleDateString now dateString
            = toLocaleDateString (Some t))
        /\ (now < t ->
            exists days digits,
              days < 0 /\ forallb isDigit digits = true /\
              HKBoard.formatDate parseDate toLocaleDateString now dateString
              = lit "-" ++ digits ++ lit " days ago"
              /\ numberToString (Int days) = lit "-" ++ digits))%Z.
Proof.
  unfold HKBoard.formatDate. cbv zeta. split.
  - intros ->. reflexivity.
  - intros t ->. cbn [HKBoard.daysSince HKBoard.strictEq HKBoard.lessThan].
    pose proof (Z.div_mod (now - t) HKBoard.millisecondsPerDay ltac:(discriminate)) as Hdiv.
    pose proof (Z.mod_pos_bound (now - t) HKBoard.millisecondsPerDay eq_refl) as Hmod.
    set (q := ((now - t) / HKBoard.millisecondsPerDay)%Z) in *.
    set (r := ((now - t) mod HKBoard.millisecondsPerDay)%Z) in *.
    change HKBoard.millisecondsPerDay with 86400000%Z in *.
    split; [|split; [|split; [|split]]].
    + intros H. assert (E : q = 0%Z) by lia. rewrite E. reflexivity.
    + intros H. assert (E : q = 1%Z) by lia. rewrite E. reflexivity.
    + intros days Hd H. assert (E : q = days) by lia. rewrite E.
      destruct (days =? 0)%Z eqn:E0; [lia|].
      destruct (days =? 1)%Z eqn:E1; [lia|].
      destruct (days <? 7)%Z eqn:E7; [reflexivity|lia].
    + intros H.
      destruct (q =? 0)%Z eqn:E0; [lia|].
      destruct (q =? 1)%Z eqn:E1; [lia|].
      destruct (q <? 7)%Z eqn:E7; [lia|reflexivity].
    + intros H. assert (Hq : (q < 0)%Z) by lia.
      destruct (q =? 0)%Z eqn:E0; [lia|].
      destruct (q =? 1)%Z eqn:E1; [lia|].
      destruct (q <? 7)%Z eqn:E7; [|lia].
      exists q, (digitsOfPos (Z.to_nat (Z.log2 (- q)) + 1) (- q) []).
      split; [exact Hq|].
      split; [apply JSFacts.digitsOfPos_digits; [lia|reflexivity]|].
      unfold numberToString. rewrite (proj2 (Z.ltb_lt q 0) Hq).
      split; reflexivity.
Qed.

Lemma format_date_by_age_witness :
  HKBoard.formatDate (fun _ => Some 172800000%Z) (fun _ => lit "1/3/1970")
                     86400000%Z (lit "1970-01-03T00:00:00.000Z")
  = lit "-1 days ago"
  /\ exists digits,
       HKBoard.formatDate (fun _ => Some 172800000%Z) (fun _ => lit "1/3/1970")
                          86400000%Z (lit "1970-01-03T00:00:00.000Z")
       = lit "-" ++ digits ++ lit " days ago".
Proof.
  split; [vm_compute; reflexivity|].
  destruct (proj2 (format_date_by_age (fun _ => Some 172800000%Z)
                     (fun _ => lit "1/3/1970") 86400000%Z
                     (lit "1970-01-03T00:00:00.000Z")) 172800000%Z eq_refl)
    as (_ & _ & _ & _ & Hfuture).
  destruct (Hfuture ltac:(reflexivity)) as (days & digits & _ & _ & E & _).
  exists digits. exact E.
Defined.

(** ** What the scraper writes for a job *)


(* ===================================================================== *)
(** * Facts about the address and the batch of the scraper                *)
(* ===================================================================== *)

Module ScraperFacts.
Import JS Scraper.

Lemma delimiter_listed (c : N) :
  delimiter c = true -> In c [47; 63; 35; 38; 61; 32; 43]%N.
Proof.
  unfold delimiter. intros H. apply existsb_exists in H.
  destruct H as (x & Hx & E). apply N.eqb_eq in E. subst x. exact Hx.
Qed.

Lemma hexDigit_plain (n : N) : delimiter (hexDigit n) = false.
Proof.
  destruct (delimiter (hexDigit n)) eqn:E; [|reflexivity].
  apply delimiter_listed in E. unfold hexDigit in E. cbn [In] in E.
  destruct (n <? 10)%N eqn:Hn; [apply N.ltb_lt in Hn|apply N.ltb_ge in Hn]; lia.
Qed.

Lemma unescaped_plain (c : N) : uriUnescaped c = true -> delimiter c = false.
Proof.
  intros H. destruct (delimiter c) eqn:E; [|reflexivity].
  apply delimiter_listed in E. cbn [In] in E.
  repeat (destruct E as [E|E]; [subst c; vm_compute in H; discriminate H|]).
  destruct E.
Qed.

Lemma percentByte_plain (b : N) : Forall (fun c => delimiter c = false) (percentByte b).
Proof.
  unfold percentByte. repeat constructor; try apply hexDigit_plain.
Qed.

Lemma bytes_plain (bytes : list N) :
  Forall (fun c => delimiter c = false) (flat_map percentByte bytes).
Proof.
  induction bytes as [|b bytes IH]; [constructor|].
  cbn [flat_map]. apply Forall_app. split; [apply percentByte_plain|exact IH].
Qed.

(** The text [encodeURIComponent] returns holds no delimiter. *)
Lemma encoded_plain (n : nat) :
  forall s t, List.length s <= n -> encodeURIComponent s = Normal t ->
  Forall (fun c => delimiter c = false) t.
Proof.
  induction n as [|n IH]; intros s t Hlen H.
  - destruct s; [|cbn in Hlen; lia]. cbn in H. injection H as <-. constructor.
  - destruct s as [|c rest]; [cbn in H; injection H as <-; constructor|].
    cbn [List.length] in Hlen. cbn [encodeURIComponent] in H.
    destruct (uriUnescaped c) eqn:Eu.
    + destruct (encodeURIComponent rest) as [t'|] eqn:Er; [|discriminate H].
      injection H as <-. constructor; [apply unescaped_plain, Eu|].
      apply (IH rest t'); [lia|exact Er].
    + destruct (isTrailSurrogate c); [discriminate H|].
      destruct (isLeadSurrogate c).
      * destruct rest as [|c2 rest2]; [discriminate H|].
        destruct (isTrailSurrogate c2); [|discriminate H].
        destruct (encodeURIComponent rest2) as [t'|] eqn:Er; [|discriminate H].
        injection H as <-. apply Forall_app. split; [apply bytes_plain|].
        apply (IH rest2 t'); [cbn [List.length] in Hlen; lia|exact Er].
      * destruct (encodeURIComponent rest) as [t'|] eqn:Er; [|discriminate H].
        injection H as <-. apply Forall_app. split; [apply bytes_plain|].
        apply (IH rest t'); [lia|exact Er].
Qed.

(** The loop over the keywords. *)
Lemma scrapeAll_spec (searchJobs : jsstring -> SearchFilters -> completion (list ScrapedJob))
    (clock : jsstring -> nat -> jsstring) (keywords : list jsstring) :
  forall allJobs,
    (scrapeAll searchJobs clock keywords allJobs = Throw
     <-> exists keyword, In keyword keywords /\ searchJobs keyword batchFilters = Throw)
    /\ (forall jobs,
          scrapeAll searchJobs clock keywords allJobs = Normal jobs ->
          jobs = allJobs
                 ++ flat_map (fun keyword =>
                                match searchJobs keyword batchFilters with
                                | Normal found => jobsWithMeta clock keyword found
                                | Throw => []
                                end) keywords).
Proof.
  induction keywords as [|keyword rest IH]; intros allJobs; cbn [scrapeAll flat_map].
  - split.
    + split; [discriminate|]. intros (k & [] & _).
    + intros jobs H. injection H as <-. symmetry. apply app_nil_r.
  - destruct (searchJobs keyword batchFilters) as [found|] eqn:E.
    + destruct (IH (allJobs ++ jobsWithMeta clock keyword found)) as (Hthrow & Hjobs).
      split.
      * rewrite Hthrow. split.
        -- intros (k & Hk & Ek). exists k. split; [right; exact Hk|exact Ek].
        -- intros (k & [<-|Hk] & Ek); [rewrite E in Ek; discriminate Ek|].
           exists k. split; assumption.
      * intros jobs H. rewrite (Hjobs jobs H), <- app_assoc. reflexivity.
    + split.
      * split; [|reflexivity]. intros _. exists keyword.
        split; [left; reflexivity|exact E].
      * intros jobs H. discriminate H.
Qed.

Lemma jobsWithMeta_In (clock : jsstring -> nat -> jsstring) (keyword : jsstring)
    (found : list ScrapedJob) (job : ScrapedJob) :
  In job (jobsWithMeta clock keyword found) ->
  exists i card, In card found /\ job = withMeta clock keyword i card.
Proof.
  unfold jobsWithMeta. intros H. apply in_map_iff in H.
  destruct H as ((i & card) & <- & Hin). exists i, card.
  split; [|reflexivity]. apply in_combine_r in Hin. exact Hin.
Qed.

End ScraperFacts.

(** ** The address and the batch of the scraper *)

(** X24.  The address [searchJobs] opens is the search address, a
    slash and the encoded keyword, followed by a question mark and the
    query when a filter is set.  The encoded keyword holds none of the
    characters [/ ? # & =], no space and no plus sign, so that the
    keyword stays one segment of the path and nothing of it is read as
    a query.  With the filters of the batch the query is
    [sal=20000-100000&exp=1-5]; without filters there is none.  The
    address is not made when the keyword holds a surrogate without its
    pair: [encodeURIComponent] throws. *)
Theorem search_address_keeps_its_shape (keyword : jsstring)
    (filters : Scraper.SearchFilters) :
  (forall url,
     Scraper.finalUrl keyword filters = Normal url ->
     exists segment,
       Scraper.encodeURIComponent keyword = Normal segment
       /\ Forall (fun c => Scraper.delimiter c = false) segment
       /\ (url = Scraper.baseSearchUrl ++ lit "/" ++ segment
           \/ exists query,
                query <> []
                /\ url = Scraper.baseSearchUrl ++ lit "/" ++ segment ++ lit "?" ++ query))
  /\ (forall segment,
        Scraper.encodeURIComponent keyword = Normal segment ->
        Scraper.finalUrl keyword Scraper.batchFilters
        = Normal (Scraper.baseSearchUrl ++ lit "/" ++ segment
                  ++ lit "?sal=20000-100000&exp=1-5")
        /\ Scraper.finalUrl keyword (Scraper.mkSearchFilters None None None)
           = Normal (Scraper.baseSearchUrl ++ lit "/" ++ segment))
  /\ (Scraper.finalUrl keyword filters = Throw
      <-> Scraper.encodeURIComponent keyword = Throw)
  /\ Scraper.finalUrl (lit "software engineer") Scraper.batchFilters
     = Normal (lit "https://hk.jobsdb.com/hk/search-jobs/software%20engineer?sal=20000-100000&exp=1-5")
  /\ Scraper.encodeURIComponent [0xD83D%N] = Throw.
Proof.
  split; [|split; [|split; [|split; vm_compute; reflexivity]]].
  - intros url H. unfold Scraper.finalUrl in H. cbv zeta in H.
    destruct (Scraper.encodeURIComponent keyword) as [segment|] eqn:E;
      [|discriminate H].
    exists segment. split; [reflexivity|].
    split; [apply (ScraperFacts.encoded_plain (List.length keyword) keyword);
            [lia|exact E]|].
    destruct (Scraper.serialize _) as [|c query]; injection H as <-.
    + left. reflexivity.
    + right. exists (c :: query). split; [discriminate|reflexivity].
  - intros segment E. unfold Scraper.finalUrl. rewrite E. cbv zeta.
    split.
    + change (Scraper.serialize
                (Scraper.appendIfSet "jobtype" (Scraper.f_jobType Scraper.batchFilters)
                   (Scraper.appendIfSet "exp" (Scraper.f_experience Scraper.batchFilters)
                      (Scraper.appendIfSet "sal" (Scraper.f_salary Scraper.batchFilters)
                         []))))
        with (lit "sal=20000-100000&exp=1-5").
      reflexivity.
    + reflexivity.
  - unfold Scraper.finalUrl. cbv zeta.
    destruct (Scraper.encodeURIComponent keyword) as [segment|].
    + destruct (Scraper.serialize _); split; discriminate.
    + split; reflexivity.
Qed.

Lemma search_address_keeps_its_shape_witness :
  exists segment,
    Scraper.encodeURIComponent (lit "C++/C# dev?") = Normal segment
    /\ Forall (fun c => Scraper.delimiter c = false) segment
    /\ Scraper.finalUrl (lit "C++/C# dev?") Scraper.batchFilters
       = Normal (lit "https://hk.jobsdb.com/hk/search-jobs/C%2B%2B%2FC%23%20dev%3F?sal=20000-100000&exp=1-5").
Proof.
  destruct (proj1 (search_address_keeps_its_shape (lit "C++/C# dev?")
                     Scraper.batchFilters)
              (lit "https://hk.jobsdb.com/hk/search-jobs/C%2B%2B%2FC%23%20dev%3F?sal=20000-100000&exp=1-5")
              ltac:(vm_compute; reflexivity))
    as (segment & Hsegment & Hplain & _).
  exists segment. split; [exact Hsegment|]. split; [exact Hplain|].
  vm_compute. reflexivity.
Defined.

(** X25.  [processJobsDBBatch] returns the jobs of all its keywords or
    none: it throws exactly when the scraper cannot be started or the
    search of one keyword throws, and the jobs of the keywords before
    are then lost with it.  When it returns, the jobs are those of the
    keywords in their order, each with the source "JobsDB", the market
    "Hong Kong" and the keyword it was found for; "JobsDB" is then the
    source [saveToDatabase] writes for it. *)
Theorem batch_returns_all_or_nothing (initialize : completion unit)
    (searchJobs : jsstring -> Scraper.SearchFilters -> completion (list Scraper.ScrapedJob))
    (clock : jsstring -> nat -> jsstring) (keywords : list jsstring) :
  (Scraper.processJobsDBBatch initialize searchJobs clock (Some keywords) = Throw
   <-> initialize = Throw
       \/ exists keyword, In keyword keywords
                          /\ searchJobs keyword Scraper.batchFilters = Throw)
  /\ (forall jobs,
        Scraper.processJobsDBBatch initialize searchJobs clock (Some keywords)
        = Normal jobs ->
        jobs = flat_map (fun keyword =>
                           match searchJobs keyword Scraper.batchFilters with
                           | Normal found => Scraper.jobsWithMeta clock keyword found
                           | Throw => []
                           end) keywords
        /\ forall job, In job jobs ->
             Scraper.source job = Some (lit "JobsDB")
             /\ Scraper.market job = Some (lit "Hong Kong")
             /\ (exists keyword, In keyword keywords
                                 /\ Scraper.searchKeyword job = Some keyword)
             /\ forall now, Scraper.p_source (Scraper.values job now)
                            = Some (lit "JobsDB")).
Proof.
  unfold Scraper.processJobsDBBatch.
  destruct (ScraperFacts.scrapeAll_spec searchJobs clock keywords []) as (Hthrow & Hjobs).
  destruct initialize as [u|].
  - split.
    + rewrite Hthrow. split; [intros H; right; exact H|].
      intros [H|H]; [discriminate H|exact H].
    + intros jobs H. pose proof (Hjobs jobs H) as E. cbn [app] in E.
      split; [exact E|].
      intros job Hin. rewrite E in Hin. apply in_flat_map in Hin.
      destruct Hin as (keyword & Hk & Hin).
      destruct (searchJobs keyword Scraper.batchFilters) as [found|]; [|destruct Hin].
      apply ScraperFacts.jobsWithMeta_In in Hin.
      destruct Hin as (i & card & _ & ->).
      split; [reflexivity|]. split; [reflexivity|].
      split; [exists keyword; split; [exact Hk|reflexivity]|].
      intros now. reflexivity.
  - split; [split; [intros _; left; reflexivity|reflexivity]|].
    intros jobs H. discriminate H.
Qed.

Lemma batch_returns_all_or_nothing_witness :
  Scraper.processJobsDBBatch (Normal tt)
    (fun keyword _ =>
       if str_eqb keyword (lit "data analyst") then Throw
       else Normal [Scraper.mkScrapedJob (Some (lit "1")) (Some keyword) None None None
                                         None None None None None None None None])
    (fun _ _ => lit "2024-01-01T00:00:00.000Z")
    (Some [lit "software engineer"; lit "data analyst"])
  = Throw.
Proof.
  apply (proj1 (batch_returns_all_or_nothing (Normal tt)
                  (fun keyword _ =>
                     if str_eqb keyword (lit "data analyst") then Throw
                     else Normal [Scraper.mkScrapedJob (Some (lit "1")) (Some keyword)
                                    None None None None None None None None None None
                                    None])
                  (fun _ _ => lit "2024-01-01T00:00:00.000Z")
                  [lit "software engineer"; lit "data analyst"])).
  right. exists (lit "data analyst").
  split; [right; left; reflexivity|reflexivity].
Defined.
